(** * pluri-extracao: the classification front end

    A shallow embedding of the review workflow of [classificacao-frontend]:
    the session store ([lib/auth.ts]), the API gateway client
    ([lib/api.ts]), the filter selector ([components/FilterBar.tsx]) and the
    two review pages ([app/classificar/page.tsx], [app/verificar/page.tsx]).

    The pages are React components written against untyped payloads
    ([useState<any>]), so the payloads are JSON documents here, with
    JavaScript's truthiness, property access and string coercion written
    out.  Asynchronous functions are trees of host calls: a handler runs
    until its next [await fetch], the pending continuation waits in the
    world, and the settlement of the request resumes it. *)

From stdpp Require Import base strings gmap.
From Stdlib Require Import ZArith List String Ascii Bool Lia Floats DecimalString.
Import ListNotations.
Open Scope string_scope.
Open Scope Z_scope.
Set Warnings "-register-all,-inexact-float".

(** ** JavaScript values *)

(** A JSON document.  A number is an integer here, of a magnitude below
    2^53 where a JavaScript number holds it exactly: the numbers that travel
    through the handlers are identifiers.  The similarity score, the one
    fractional number of the payloads, is read by [MatchBadge] alone, which
    takes it as a binary64 float. *)
Inductive JSON : Type :=
| JNull
| JBool (b : bool)
| JNum (n : Z)
| JStr (s : string)
| JArr (items : list JSON)
| JObj (fields : list (string * JSON)).

(** What an expression evaluates to: [None] is [undefined]. *)
Definition JsVal := option JSON.

(** ToBoolean. *)
Definition truthy (v : JSON) : bool :=
  match v with
  | JNull => false
  | JBool b => b
  | JNum n => negb (n =? 0)
  | JStr s => negb (s =? "")%string
  | JArr _ | JObj _ => true
  end.

Definition truthy_val (v : JsVal) : bool :=
  match v with
  | None => false
  | Some d => truthy d
  end.

Definition truthy_str (s : string) : bool := negb (s =? "")%string.

(** [a || b] on strings. *)
Definition str_or (a b : string) : string := if truthy_str a then a else b.

Definition Number_toString (n : Z) : string := NilZero.string_of_int (Z.to_int n).

(** ToString.  [Array.prototype.join] prints [null] elements as nothing. *)
Fixpoint ToString (v : JSON) : string :=
  match v with
  | JNull => "null"
  | JBool true => "true"
  | JBool false => "false"
  | JNum n => Number_toString n
  | JStr s => s
  | JArr items =>
      let element (x : JSON) :=
        match x with
        | JNull => ""
        | _ => ToString x
        end in
      (fix join (l : list JSON) : string :=
         match l with
         | [] => ""
         | [x] => element x
         | x :: rest => element x ++ "," ++ join rest
         end) items
  | JObj _ => "[object Object]"
  end.

(** Own properties of an object, in insertion order. *)
Fixpoint own {A : Type} (key : string) (fields : list (string * A)) : option A :=
  match fields with
  | [] => None
  | (k, v) :: rest => if (k =? key)%string then Some v else own key rest
  end.

(** ** Exceptions *)

Record JsError : Type := mkError { name : string; message : string }.

Definition Error (msg : string) : JsError := mkError "Error" msg.
Definition TypeError (msg : string) : JsError := mkError "TypeError" msg.
Definition ReferenceError (msg : string) : JsError := mkError "ReferenceError" msg.

Inductive Completion (A : Type) : Type :=
| Normal (a : A)
| Abrupt (e : JsError).
Arguments Normal {A} a.
Arguments Abrupt {A} e.

(** The property [key] of a value that is not [null]: an own property of
    an object, [undefined] otherwise. *)
Definition prop (v : JSON) (key : string) : JsVal :=
  match v with
  | JObj fields => own key fields
  | _ => None
  end.

(** [v.key]: reading a property of [null] throws (the message is V8's). *)
Definition get (v : JSON) (key : string) : Completion JsVal :=
  match v with
  | JNull => Abrupt (TypeError ("Cannot read properties of null (reading '" ++ key ++ "')"))
  | _ => Normal (prop v key)
  end.

(** An object literal handed to [JSON.stringify]: properties whose value is
    [undefined] are left out of the document. *)
Fixpoint defined_props (props : list (string * JsVal)) : list (string * JSON) :=
  match props with
  | [] => []
  | (k, Some v) :: rest => (k, v) :: defined_props rest
  | (_, None) :: rest => defined_props rest
  end.

Definition JSON_stringify (props : list (string * JsVal)) : JSON :=
  JObj (defined_props props).

(** ** Requests and responses *)

Record RequestInit : Type := {
  method : option string;
  headers : option (list (string * string));
  body : option JSON
}.

Definition no_options : RequestInit :=
  {| method := None; headers := None; body := None |}.

Record Request : Type := {
  url : string;
  req_method : option string;
  req_headers : list (string * string);
  req_body : option JSON
}.

(** A response with its body already read: [json] is what [response.json()]
    settles to, the parsed body or the engine's SyntaxError. *)
Record Response : Type := {
  status : Z;
  json : Completion JSON
}.

Definition ok (r : Response) : bool := (200 <=? status r) && (status r <=? 299).

Inductive FetchResult : Type :=
| Rejected (e : JsError)
| Resolved (r : Response).

(** Object spread on string-valued objects: a later key overrides an earlier
    one in place, a new key goes last. *)
Fixpoint assign (o : list (string * string)) (k v : string) : list (string * string) :=
  match o with
  | [] => [(k, v)]
  | (k', v') :: rest => if (k' =? k)%string then (k, v) :: rest else (k', v') :: assign rest k v
  end.

Definition spread (o extra : list (string * string)) : list (string * string) :=
  fold_left (fun acc kv => assign acc (fst kv) (snd kv)) extra o.

(** ** URLSearchParams *)

Definition hex_digit (n : N) : ascii :=
  ascii_of_N (if (n <? 10)%N then 48 + n else 55 + n).

(** The application/x-www-form-urlencoded serializer, on UTF-8 bytes. *)
Definition form_byte (c : ascii) : string :=
  let n := N_of_ascii c in
  if ((48 <=? n) && (n <=? 57) || (65 <=? n) && (n <=? 90) || (97 <=? n) && (n <=? 122)
      || (n =? 42) || (n =? 45) || (n =? 46) || (n =? 95))%N
  then String c ""
  else if (n =? 32)%N then "+"
  else String "%" (String (hex_digit (n / 16)) (String (hex_digit (n mod 16)) "")).

Fixpoint form_encode (s : string) : string :=
  match s with
  | EmptyString => ""
  | String c rest => form_byte c ++ form_encode rest
  end.

Fixpoint URLSearchParams_toString (q : list (string * string)) : string :=
  match q with
  | [] => ""
  | [(k, v)] => form_encode k ++ "=" ++ form_encode v
  | (k, v) :: rest => form_encode k ++ "=" ++ form_encode v ++ "&" ++ URLSearchParams_toString rest
  end.

(** ** Asynchronous functions *)

Section Runtime.

(** The component state the setters write to. *)
Context {S : Type}.

(** Host calls that return at once. *)
Inductive Cmd : Type -> Type :=
| SetState (f : S -> S) : Cmd unit
| ProcessEnv (var : string) : Cmd (option string)
| TypeofWindow : Cmd bool
| GetItem (key : string) : Cmd (Completion (option string))
| RemoveItem (key : string) : Cmd (Completion unit)
| SetHref (href : string) : Cmd (Completion unit)
| JSONparse (text : string) : Cmd (Completion JSON)
| Alert (msg : string) : Cmd unit
| ConsoleError (e : JsError) : Cmd unit.

(** The body of an async function.  [Await] is [await fetch(...)];
    [Spawn p k] calls the async function [p] without awaiting it: [p] runs
    to its first [Await], then [k] goes on. *)
Inductive Async (A : Type) : Type :=
| Ret (a : A)
| Throw (e : JsError)
| Do {X : Type} (c : Cmd X) (k : X -> Async A)
| Await (rq : Request) (k : FetchResult -> Async A)
| Spawn (p : Async unit) (k : Async A).

Arguments Ret {A} a.
Arguments Throw {A} e.
Arguments Do {A X} c k.
Arguments Await {A} rq k.
Arguments Spawn {A} p k.

Fixpoint bind {A B : Type} (p : Async A) (f : A -> Async B) : Async B :=
  match p with
  | Ret a => f a
  | Throw e => Throw e
  | Do c k => Do c (fun x => bind (k x) f)
  | Await rq k => Await rq (fun r => bind (k r) f)
  | Spawn q k => Spawn q (bind k f)
  end.

(** [try { p } catch (err) { handler err }].  A rejection inside a spawned
    function is its own: the caller's handler does not see it. *)
Fixpoint try_catch {A : Type} (p : Async A) (handler : JsError -> Async A) : Async A :=
  match p with
  | Ret a => Ret a
  | Throw e => handler e
  | Do c k => Do c (fun x => try_catch (k x) handler)
  | Await rq k => Await rq (fun r => try_catch (k r) handler)
  | Spawn q k => Spawn q (try_catch k handler)
  end.

(** [try { p } finally { final }]. *)
Fixpoint try_finally {A : Type} (p : Async A) (final : Async unit) : Async A :=
  match p with
  | Ret a => bind final (fun _ => Ret a)
  | Throw e => bind final (fun _ => Throw e)
  | Do c k => Do c (fun x => try_finally (k x) final)
  | Await rq k => Await rq (fun r => try_finally (k r) final)
  | Spawn q k => Spawn q (try_finally k final)
  end.

Definition call {X : Type} (c : Cmd X) : Async X := Do c Ret.

(** A host call that may throw. *)
Definition attempt {X : Type} (c : Cmd (Completion X)) : Async X :=
  Do c (fun r => match r with Normal x => Ret x | Abrupt e => Throw e end).

Definition completion {X : Type} (r : Completion X) : Async X :=
  match r with
  | Normal x => Ret x
  | Abrupt e => Throw e
  end.

(** [await fetch(url, init)]: a network failure rejects. *)
Definition fetch (rq : Request) : Async Response :=
  Await rq (fun r => match r with Resolved resp => Ret resp | Rejected e => Throw e end).

(** [await response.json()]. *)
Definition response_json (r : Response) : Async JSON := completion (json r).

(** ** The world a handler runs in *)

Record Browser : Type := {
  localStorage : gmap string string;
  location_href : string
}.

(** [window] is [None] where the code runs outside a browser.  [JSON_parse]
    is the host's parser, with the SyntaxError it throws on text that is no
    JSON.  [sent] is every request issued so far, and [waiting] the
    continuations of those not settled yet, by their position in [sent]. *)
Record World : Type := {
  page : S;
  process_env : string -> option string;
  window : option Browser;
  JSON_parse : string -> Completion JSON;
  alerts : list string;
  console : list JsError;
  sent : list Request;
  waiting : list (nat * (FetchResult -> Async unit));
  unhandled : list JsError
}.

Definition with_page (s : S) (w : World) : World :=
  {| page := s; process_env := process_env w; window := window w;
     JSON_parse := JSON_parse w; alerts := alerts w; console := console w;
     sent := sent w; waiting := waiting w; unhandled := unhandled w |}.

Definition with_window (b : option Browser) (w : World) : World :=
  {| page := page w; process_env := process_env w; window := b;
     JSON_parse := JSON_parse w; alerts := alerts w; console := console w;
     sent := sent w; waiting := waiting w; unhandled := unhandled w |}.

Definition with_alert (msg : string) (w : World) : World :=
  {| page := page w; process_env := process_env w; window := window w;
     JSON_parse := JSON_parse w; alerts := alerts w ++ [msg]; console := console w;
     sent := sent w; waiting := waiting w; unhandled := unhandled w |}.

Definition with_console (e : JsError) (w : World) : World :=
  {| page := page w; process_env := process_env w; window := window w;
     JSON_parse := JSON_parse w; alerts := alerts w; console := console w ++ [e];
     sent := sent w; waiting := waiting w; unhandled := unhandled w |}.

Definition with_unhandled (e : JsError) (w : World) : World :=
  {| page := page w; process_env := process_env w; window := window w;
     JSON_parse := JSON_parse w; alerts := alerts w; console := console w;
     sent := sent w; waiting := waiting w; unhandled := unhandled w ++ [e] |}.

Definition with_request (rq : Request) (k : FetchResult -> Async unit) (w : World) : World :=
  {| page := page w; process_env := process_env w; window := window w;
     JSON_parse := JSON_parse w; alerts := alerts w; console := console w;
     sent := sent w ++ [rq]; waiting := (List.length (sent w), k) :: waiting w;
     unhandled := unhandled w |}.

Definition with_waiting (l : list (nat * (FetchResult -> Async unit))) (w : World) : World :=
  {| page := page w; process_env := process_env w; window := window w;
     JSON_parse := JSON_parse w; alerts := alerts w; console := console w;
     sent := sent w; waiting := l; unhandled := unhandled w |}.

Definition not_defined (global : string) : JsError :=
  ReferenceError (global ++ " is not defined").

(** One host call. *)
Definition exec {X : Type} (c : Cmd X) (w : World) : X * World :=
  match c in Cmd X return X * World with
  | SetState f => (tt, with_page (f (page w)) w)
  | ProcessEnv var => (process_env w var, w)
  | TypeofWindow => (match window w with Some _ => true | None => false end, w)
  | GetItem key =>
      (match window w with
       | Some b => Normal (localStorage b !! key)
       | None => Abrupt (not_defined "localStorage")
       end, w)
  | RemoveItem key =>
      match window w with
      | Some b =>
          (Normal tt,
           with_window (Some {| localStorage := delete key (localStorage b);
                                location_href := location_href b |}) w)
      | None => (Abrupt (not_defined "localStorage"), w)
      end
  | SetHref href =>
      match window w with
      | Some b =>
          (Normal tt,
           with_window (Some {| localStorage := localStorage b; location_href := href |}) w)
      | None => (Abrupt (not_defined "window"), w)
      end
  | JSONparse text => (JSON_parse w text, w)
  | Alert msg => (tt, with_alert msg w)
  | ConsoleError e => (tt, with_console e w)
  end.

(** Run a function until it returns, throws or waits for a request. *)
Fixpoint run (p : Async unit) (w : World) : World :=
  match p with
  | Ret _ => w
  | Throw e => with_unhandled e w
  | Do c k => let (x, w') := exec c w in run (k x) w'
  | Await rq k => with_request rq k w
  | Spawn q k => run k (run q w)
  end.

Fixpoint take_waiting (i : nat) (l : list (nat * (FetchResult -> Async unit)))
  : option ((FetchResult -> Async unit) * list (nat * (FetchResult -> Async unit))) :=
  match l with
  | [] => None
  | (j, k) :: rest =>
      if Nat.eqb j i then Some (k, rest)
      else match take_waiting i rest with
           | Some (k', rest') => Some (k', (j, k) :: rest')
           | None => None
           end
  end.

(** Request number [i] settles: its continuation resumes. *)
Definition settle (i : nat) (r : FetchResult) (w : World) : World :=
  match take_waiting i (waiting w) with
  | Some (k, rest) => run (k r) (with_waiting rest w)
  | None => w
  end.

(** What a call has come to when control returns to the caller. *)
Inductive Outcome (A : Type) : Type :=
| Returned (a : A)
| Threw (e : JsError)
| Suspended (rq : Request) (k : FetchResult -> Async A).

Arguments Returned {A} a.
Arguments Threw {A} e.
Arguments Suspended {A} rq k.

Fixpoint eval {A : Type} (p : Async A) (w : World) : Outcome A * World :=
  match p with
  | Ret a => (Returned a, w)
  | Throw e => (Threw e, w)
  | Do c k => let (x, w') := exec c w in eval (k x) w'
  | Await rq k => (Suspended rq k, w)
  | Spawn q k => eval k (run q w)
  end.

(** The request a suspended call waits for. *)
Definition requested {A : Type} (o : Outcome A) : option Request :=
  match o with
  | Suspended rq _ => Some rq
  | _ => None
  end.

(** The request settles with [r] in world [w]: the call goes on. *)
Definition resume {A : Type} (o : Outcome A) (r : FetchResult) (w : World) : Outcome A * World :=
  match o with
  | Suspended _ k => eval (k r) w
  | _ => (o, w)
  end.

(** What [localStorage] holds under [key]; nothing outside a browser. *)
Definition stored (w : World) (key : string) : option string :=
  match window w with
  | Some b => localStorage b !! key
  | None => None
  end.

End Runtime.

Arguments Cmd S : clear implicits.
Arguments Async S A : clear implicits.
Arguments World S : clear implicits.
Arguments Outcome S A : clear implicits.
Arguments Ret {S A} a.
Arguments Throw {S A} e.
Arguments Do {S A X} c k.
Arguments Await {S A} rq k.
Arguments Spawn {S A} p k.
Arguments Returned {S A} a.
Arguments Threw {S A} e.
Arguments Suspended {S A} rq k.

Declare Scope async_scope.
Delimit Scope async_scope with async.
Notation "x <- p ;; k" := (bind p (fun x => k))
  (at level 100, p at next level, right associativity) : async_scope.
Notation "p ;; k" := (bind p (fun _ => k))
  (at level 100, right associativity) : async_scope.
Open Scope async_scope.

(** ** lib/auth.ts *)

Module Auth.
Section Auth.
Context {S : Type}.

Definition getToken : Async S (option string) :=
  hasWindow <- call TypeofWindow ;;
  if negb hasWindow then Ret None
  else attempt (GetItem "token").

Definition clearAuth : Async S unit :=
  hasWindow <- call TypeofWindow ;;
  if negb hasWindow then Ret tt
  else attempt (RemoveItem "token") ;; attempt (RemoveItem "usuario").

(** [Usuario | null]: the parsed document, unchecked, or [null]. *)
Definition getUsuario : Async S JSON :=
  hasWindow <- call TypeofWindow ;;
  if negb hasWindow then Ret JNull
  else
    userStr <- attempt (GetItem "usuario") ;;
    match userStr with
    | None => Ret JNull
    | Some text =>
        if negb (truthy_str text) then Ret JNull
        else try_catch (attempt (JSONparse text)) (fun _ => Ret JNull)
    end.

Definition isAuthenticated : Async S bool :=
  token <- getToken ;;
  Ret (match token with Some t => truthy_str t | None => false end).

End Auth.
End Auth.

(** ** lib/api.ts *)

Module Api.
Section Api.
Context {S : Type}.

Definition API_BASE_URL : Async S string :=
  configured <- call (ProcessEnv "NEXT_PUBLIC_API_URL") ;;
  Ret (match configured with
       | Some u => str_or u "http://localhost:8000/classificacao"
       | None => "http://localhost:8000/classificacao"
       end).

Definition bearer (token : option string) : list (string * string) :=
  match token with
  | Some t => if truthy_str t then [("Authorization", "Bearer " ++ t)] else []
  | None => []
  end.

(** [apiRequest] from the response on. *)
Definition apiRequest_response (response : Response) : Async S JSON :=
  (if status response =? 401 then
     hasWindow <- call TypeofWindow ;;
     if hasWindow then
       attempt (RemoveItem "token") ;;
       attempt (RemoveItem "usuario") ;;
       attempt (SetHref "/login")
     else Ret tt
   else Ret tt) ;;
  if negb (ok response) then
    errorData <- try_catch (response_json response) (fun _ => Ret (JObj [])) ;;
    detail <- completion (get errorData "detail") ;;
    Throw (Error (match detail with
                  | Some d => if truthy d then ToString d else "Erro na requisição"
                  | None => "Erro na requisição"
                  end))
  else response_json response.

Definition apiRequest (endpoint : string) (options : RequestInit) : Async S JSON :=
  hasWindow <- call TypeofWindow ;;
  token <- (if hasWindow then attempt (GetItem "token") else Ret None) ;;
  let headers :=
    spread (spread [("Content-Type", "application/json")] (bearer token))
           (match headers options with Some h => h | None => [] end) in
  base <- API_BASE_URL ;;
  response <- fetch {| url := base ++ endpoint; req_method := method options;
                       req_headers := headers; req_body := body options |} ;;
  apiRequest_response response.

(** [apiRequest] from the settlement of its [fetch] on. *)
Definition settled (r : FetchResult) : Async S JSON :=
  response <- match r with
              | Resolved resp => Ret resp
              | Rejected e => Throw e
              end ;;
  apiRequest_response response.

(** What the code above reads from the world [w] it is called in: the base
    URL and the headers of its request. *)
Definition base_url (w : World S) : string :=
  match process_env w "NEXT_PUBLIC_API_URL" with
  | Some u => str_or u "http://localhost:8000/classificacao"
  | None => "http://localhost:8000/classificacao"
  end.

Definition request_for (w : World S) (endpoint : string) (options : RequestInit) : Request :=
  {| url := base_url w ++ endpoint;
     req_method := method options;
     req_headers :=
       spread (spread [("Content-Type", "application/json")] (bearer (stored w "token")))
              (match headers options with Some h => h | None => [] end);
     req_body := body options |}.

(** The session is gone and the tab is sent to the login page. *)
Definition logged_out (b : Browser) : Browser :=
  {| localStorage := delete "usuario" (delete "token" (localStorage b));
     location_href := "/login" |}.

End Api.
End Api.

(** ** components/FilterBar.tsx *)

Module FilterBar.

(** [lib/auth.ts], interface [Usuario]: [disciplina] holds the user's area. *)
Record Usuario : Type := {
  id : Z;
  nome : string;
  email : string;
  disciplina : string;
  is_admin : bool;
  ativo : bool
}.

(** [Record<string, string[]>]: the entries in iteration order. *)
Definition Mapping := list (string * list string).

Definition keys (m : Mapping) : list string := map fst m.


Record State : Type := {
  area : string;
  disciplinaId : string;
  areasMapping : Mapping
}.

Definition setArea (v : string) (s : State) : State :=
  {| area := v; disciplinaId := disciplinaId s; areasMapping := areasMapping s |}.

Definition setDisciplinaId (v : string) (s : State) : State :=
  {| area := area s; disciplinaId := v; areasMapping := areasMapping s |}.

Definition setAreasMapping (m : Mapping) (s : State) : State :=
  {| area := area s; disciplinaId := disciplinaId s; areasMapping := m |}.

(** [useState('')], [useState('')], [useState({})]. *)
Definition initial : State :=
  {| area := ""; disciplinaId := ""; areasMapping := [] |}.

(** [!usuario?.disciplina || usuario.is_admin]. *)
Definition unrestricted (usuario : option Usuario) : bool :=
  match usuario with
  | Some u => negb (truthy_str (disciplina u)) || is_admin u
  | None => true
  end.

(** [discs.includes(d)]. *)
Fixpoint includes (d : string) (discs : list string) : bool :=
  match discs with
  | [] => false
  | x :: rest => (x =? d)%string || includes d rest
  end.

(** The [for ... of Object.entries(data.areas)] loop with its [break]: the
    first area whose list has the value. *)
Fixpoint scan (d : string) (entries : Mapping) : option string :=
  match entries with
  | [] => None
  | (areaName, discs) :: rest => if includes d discs then Some areaName else scan d rest
  end.

(** The properties an object parsed from JSON inherits from
    [Object.prototype]: eleven methods and the accessor [__proto__], which
    gives the prototype itself. *)
Definition Object_prototype : list string :=
  ["constructor"; "__defineGetter__"; "__defineSetter__"; "hasOwnProperty";
   "__lookupGetter__"; "__lookupSetter__"; "isPrototypeOf"; "propertyIsEnumerable";
   "toString"; "valueOf"; "__proto__"; "toLocaleString"].

Definition inherited (key : string) : bool :=
  existsb (fun k => (k =? key)%string) Object_prototype.

(** [areas[key]] for a key computed at run time: the list of an own entry,
    a member inherited from [Object.prototype] (a function or an object, no
    array), or [undefined]. *)
Inductive Member : Type :=
| Entry (discs : list string)
| Inherited
| Undefined.

Definition member (key : string) (areas : Mapping) : Member :=
  match own key areas with
  | Some discs => Entry discs
  | None => if inherited key then Inherited else Undefined
  end.

(** ToBoolean: an array is truthy, the empty one too, and so is every
    inherited member. *)
Definition truthy_member (x : Member) : bool :=
  match x with
  | Entry _ | Inherited => true
  | Undefined => false
  end.

(** The area [loadFilters] selects for the stored value [d]. *)
Definition resolve (d : string) (areas : Mapping) : option string :=
  if truthy_member (member d areas) then Some d else scan d areas.

(** [loadFilters] once [apiRequest('/disciplinas')] has answered with
    [data.areas = areas]. *)
Definition loadFilters (usuario : option Usuario) (areas : Mapping) (s : State) : State :=
  let s := setAreasMapping areas s in
  match usuario with
  | Some u =>
      if truthy_str (disciplina u) then
        if truthy_member (member (disciplina u) areas) then setArea (disciplina u) s
        else
          match scan (disciplina u) areas with
          | Some areaName => setArea areaName s
          | None => s
          end
      else s
  | None => s
  end.

(** [area ? (areasMapping[area] || []) : []]. *)
Definition disciplinasDaArea (s : State) : Member :=
  if truthy_str (area s) then
    match member (area s) (areasMapping s) with
    | Undefined => Entry []
    | found => found
    end
  else Entry [].

(** [Dropdown.tsx], interface [Option]. *)
Record Option : Type := { value : string; label : string }.

Definition option_of (a : string) : Option := {| value := a; label := a |}.

Definition areaOptions (usuario : option Usuario) (s : State) : list Option :=
  map option_of
      (filter (fun a => unrestricted usuario || (a =? area s)%string)
              (keys (areasMapping s))).

(** [disciplinasDaArea.map(d => ({ value: d, label: d }))]: an inherited
    member has no [map], and the render throws (the message is V8's). *)
Definition disciplinaOptions (s : State) : Completion (list Option) :=
  match disciplinasDaArea s with
  | Entry discs => Normal (map option_of discs)
  | _ => Abrupt (TypeError "disciplinasDaArea.map is not a function")
  end.

(** [onChange] of the area dropdown. *)
Definition onAreaChange (usuario : option Usuario) (val : string) (s : State) : State :=
  if unrestricted usuario then setDisciplinaId "" (setArea val s) else s.

(** [onChange] of the discipline dropdown. *)
Definition onDisciplinaChange (val : string) (s : State) : State :=
  setDisciplinaId val s.

(** The mounted component: its state, and whether the one [loadFilters] of
    the mount effect is still waiting for its answer. *)
Record Component : Type := {
  state : State;
  loading_filters : bool
}.

Definition mount : Component := {| state := initial; loading_filters := true |}.

(** What happens to the component: the [/disciplinas] request of the mount
    effect is answered with [data.areas = areas], or fails (the [catch]
    logs the error and leaves the state alone); the user picks an option of
    one of the two dropdowns. *)
Inductive Event : Type :=
| Loaded (areas : Mapping)
| LoadFailed (err : JsError)
| AreaPicked (val : string)
| DisciplinaPicked (val : string).

(** A dropdown calls [onChange] with the value of one of its options. *)
Definition offers (options : list Option) (val : string) : bool :=
  existsb (fun o => (value o =? val)%string) options.

(** An answer is taken while [loadFilters] waits for it; a value is picked
    from the options the render computes.  Where [disciplinaOptions] throws
    there is no discipline to pick; the area options are those computed
    before the throw. *)
Definition enabled (usuario : option Usuario) (c : Component) (e : Event) : bool :=
  match e with
  | Loaded _ | LoadFailed _ => loading_filters c
  | AreaPicked val => offers (areaOptions usuario (state c)) val
  | DisciplinaPicked val =>
      match disciplinaOptions (state c) with
      | Normal options => offers options val
      | Abrupt _ => false
      end
  end.

Definition handle (usuario : option Usuario) (e : Event) (c : Component) : Component :=
  match e with
  | Loaded areas =>
      {| state := loadFilters usuario areas (state c); loading_filters := false |}
  | LoadFailed _ =>
      {| state := state c; loading_filters := false |}
  | AreaPicked val =>
      {| state := onAreaChange usuario val (state c); loading_filters := loading_filters c |}
  | DisciplinaPicked val =>
      {| state := onDisciplinaChange val (state c); loading_filters := loading_filters c |}
  end.

(** The events in order; [None] when one of them cannot happen.  The
    component takes no event once its render has thrown; [play] does not
    look at that, so its runs include every run of the component. *)
Fixpoint play (usuario : option Usuario) (events : list Event) (c : Component)
  : option Component :=
  match events with
  | [] => Some c
  | e :: rest => if enabled usuario c e then play usuario rest (handle usuario e c) else None
  end.

Definition reachable (usuario : option Usuario) (c : Component) : Prop :=
  exists events, play usuario events mount = Some c.

(** The effect on [[area, disciplinaId]] runs after the first render and
    after every render in which one of the two has changed, and hands the
    pair to [onFilterChange].  A render that throws commits nothing: no
    effect runs, and the component is gone. *)
Definition changed (s s' : State) : bool :=
  negb ((area s' =? area s)%string && (disciplinaId s' =? disciplinaId s)%string).

Fixpoint notified (usuario : option Usuario) (events : list Event) (c : Component)
  : list (string * string) :=
  match events with
  | [] => []
  | e :: rest =>
      if enabled usuario c e then
        let c' := handle usuario e c in
        match disciplinaOptions (state c') with
        | Normal _ =>
            ((if changed (state c) (state c')
              then [(area (state c'), disciplinaId (state c'))] else [])
             ++ notified usuario rest c')%list
        | Abrupt _ => []
        end
      else []
  end.

(** The pairs handed to [onFilterChange], in order, from the mount on. *)
Definition notifications (usuario : option Usuario) (events : list Event)
  : list (string * string) :=
  (area initial, disciplinaId initial) :: notified usuario events mount.

(** The discipline, when one is selected, is one of the selected area's. *)
Definition discipline_in_area (s : State) : Prop :=
  disciplinaId s = "" \/
  exists discs, disciplinasDaArea s = Entry discs /\ In (disciplinaId s) discs.

(** Until [loadFilters] has its answer nothing is selected, and a selected
    discipline is one of the selected area's. *)
Definition consistent (c : Component) : Prop :=
  (loading_filters c = true -> state c = initial) /\ discipline_in_area (state c).

End FilterBar.

(** ** app/classificar/page.tsx *)

Module Classificar.

(** The component's [useState] cells; [questao] and [moduloSelecionado] are
    [any], [null] at first. *)
Record State : Type := {
  questao : JSON;
  loading : bool;
  error : string;
  area : string;
  disciplinaFiltro : string;
  saving : bool;
  observacao : string;
  moduloSelecionado : JSON
}.

Definition setQuestao (v : JSON) (s : State) : State :=
  {| questao := v; loading := loading s; error := error s; area := area s;
     disciplinaFiltro := disciplinaFiltro s; saving := saving s;
     observacao := observacao s; moduloSelecionado := moduloSelecionado s |}.

Definition setLoading (v : bool) (s : State) : State :=
  {| questao := questao s; loading := v; error := error s; area := area s;
     disciplinaFiltro := disciplinaFiltro s; saving := saving s;
     observacao := observacao s; moduloSelecionado := moduloSelecionado s |}.

Definition setError (v : string) (s : State) : State :=
  {| questao := questao s; loading := loading s; error := v; area := area s;
     disciplinaFiltro := disciplinaFiltro s; saving := saving s;
     observacao := observacao s; moduloSelecionado := moduloSelecionado s |}.

Definition setArea (v : string) (s : State) : State :=
  {| questao := questao s; loading := loading s; error := error s; area := v;
     disciplinaFiltro := disciplinaFiltro s; saving := saving s;
     observacao := observacao s; moduloSelecionado := moduloSelecionado s |}.

Definition setDisciplinaFiltro (v : string) (s : State) : State :=
  {| questao := questao s; loading := loading s; error := error s; area := area s;
     disciplinaFiltro := v; saving := saving s;
     observacao := observacao s; moduloSelecionado := moduloSelecionado s |}.

Definition setSaving (v : bool) (s : State) : State :=
  {| questao := questao s; loading := loading s; error := error s; area := area s;
     disciplinaFiltro := disciplinaFiltro s; saving := v;
     observacao := observacao s; moduloSelecionado := moduloSelecionado s |}.

Definition setObservacao (v : string) (s : State) : State :=
  {| questao := questao s; loading := loading s; error := error s; area := area s;
     disciplinaFiltro := disciplinaFiltro s; saving := saving s;
     observacao := v; moduloSelecionado := moduloSelecionado s |}.

Definition setModuloSelecionado (v : JSON) (s : State) : State :=
  {| questao := questao s; loading := loading s; error := error s; area := area s;
     disciplinaFiltro := disciplinaFiltro s; saving := saving s;
     observacao := observacao s; moduloSelecionado := v |}.

(** The first render; [area0] is [usuario?.disciplina || '']. *)
Definition initial (area0 : string) : State :=
  {| questao := JNull; loading := true; error := ""; area := area0;
     disciplinaFiltro := ""; saving := false; observacao := "";
     moduloSelecionado := JNull |}.

(** [if (arg) query.append(key, arg)] for an optional string argument. *)
Definition append_if (key : string) (arg : option string) (q : list (string * string))
  : list (string * string) :=
  match arg with
  | Some v => if truthy_str v then q ++ [(key, v)] else q
  | None => q
  end.

(** The [URLSearchParams] built by [fetchProxima]. *)
Definition query (areaFiltro discFiltro : option string) : list (string * string) :=
  append_if "disciplina_id" discFiltro (append_if "area" areaFiltro []).

Definition params (areaFiltro discFiltro : option string) : string :=
  let q := URLSearchParams_toString (query areaFiltro discFiltro) in
  if truthy_str q then "?" ++ q else "".

Definition fetchProxima (areaFiltro discFiltro : option string) : Async State unit :=
  call (SetState (setLoading true)) ;;
  call (SetState (setError "")) ;;
  call (SetState (setQuestao JNull)) ;;
  call (SetState (setModuloSelecionado JNull)) ;;
  call (SetState (setObservacao "")) ;;
  try_finally
    (try_catch
       (data <- Api.apiRequest ("/proxima" ++ params areaFiltro discFiltro) no_options ;;
        call (SetState (setQuestao data)))
       (fun err =>
          call (SetState (setError (str_or (message err)
                                           "Nenhuma questão encontrada com esses filtros.")))))
    (call (SetState (setLoading false))).

(** [fetchProxima] from the settlement of its request on. *)
Definition fetchProxima_settled (r : FetchResult) : Async State unit :=
  try_finally
    (try_catch
       (data <- Api.settled r ;;
        call (SetState (setQuestao data)))
       (fun err =>
          call (SetState (setError (str_or (message err)
                                           "Nenhuma questão encontrada com esses filtros.")))))
    (call (SetState (setLoading false))).

(** The state [fetchProxima] leaves when it starts to wait. *)
Definition refetching (s : State) : State :=
  setObservacao "" (setModuloSelecionado JNull (setQuestao JNull
    (setError "" (setLoading true s)))).

(** [handleSalvar] as created by the render of state [s]. *)
Definition handleSalvar (s : State) : Async State unit :=
  if negb (truthy (moduloSelecionado s)) then Ret tt
  else
    call (SetState (setSaving true)) ;;
    try_finally
      (try_catch
         (questao_id <- completion (get (questao s) "id") ;;
          habilidade_modulo_id <- completion (get (moduloSelecionado s) "id") ;;
          modulo_escolhido <- completion (get (moduloSelecionado s) "modulo") ;;
          classificacao_trieduc <-
            completion (get (moduloSelecionado s) "habilidade_descricao") ;;
          descricao_assunto <- completion (get (moduloSelecionado s) "descricao") ;;
          Api.apiRequest "/salvar"
            {| method := Some "POST"; headers := None;
               body := Some (JSON_stringify
                               [("questao_id", questao_id);
                                ("habilidade_modulo_id", habilidade_modulo_id);
                                ("modulo_escolhido", modulo_escolhido);
                                ("classificacao_trieduc", classificacao_trieduc);
                                ("descricao_assunto", descricao_assunto);
                                ("tipo_acao", Some (JStr "classificacao_nova"));
                                ("observacao", Some (JStr (observacao s)))]) |} ;;
          Spawn (fetchProxima (Some (area s)) (Some (disciplinaFiltro s))) (Ret tt))
         (fun err => call (Alert (message err))))
      (call (SetState (setSaving false))).

(** [handleSalvar] from the settlement of its request on. *)
Definition handleSalvar_settled (s : State) (r : FetchResult) : Async State unit :=
  try_finally
    (try_catch
       (Api.settled r ;;
        Spawn (fetchProxima (Some (area s)) (Some (disciplinaFiltro s))) (Ret tt))
       (fun err => call (Alert (message err))))
    (call (SetState (setSaving false))).

(** The document [handleSalvar] posts for the module [m]. *)
Definition classificacao_nova (questao m : JSON) (observacao : string) : JSON :=
  JSON_stringify
    [("questao_id", prop questao "id");
     ("habilidade_modulo_id", prop m "id");
     ("modulo_escolhido", prop m "modulo");
     ("classificacao_trieduc", prop m "habilidade_descricao");
     ("descricao_assunto", prop m "descricao");
     ("tipo_acao", Some (JStr "classificacao_nova"));
     ("observacao", Some (JStr observacao))].

Definition post (doc : JSON) : RequestInit :=
  {| method := Some "POST"; headers := None; body := Some doc |}.

(** [onFilterChange] as handed to [FilterBar], followed by the effect on
    [[area, disciplinaFiltro]], which runs when one of the two has changed. *)
Definition onFilterChange (s : State) (a d : string) : Async State unit :=
  call (SetState (setArea a)) ;;
  call (SetState (setDisciplinaFiltro d)) ;;
  if (a =? area s)%string && (d =? disciplinaFiltro s)%string then Ret tt
  else Spawn (fetchProxima (Some a) (Some d)) (Ret tt).

(** The effect of the first render. *)
Definition onMount (s : State) : Async State unit :=
  Spawn (fetchProxima (Some (area s)) (Some (disciplinaFiltro s))) (Ret tt).

(** [onClick] of "Pular" and of "Tentar Novamente". *)
Definition onPular (s : State) : Async State unit :=
  Spawn (fetchProxima (Some (area s)) (Some (disciplinaFiltro s))) (Ret tt).

(** The question card is on screen. *)
Definition card_shown (s : State) : bool :=
  negb (loading s) && negb (truthy_str (error s)) && truthy (questao s).

(** "Salvar Classificação" is on screen and not disabled. *)
Definition salvar_enabled (s : State) : bool :=
  card_shown s && negb (negb (truthy (moduloSelecionado s)) || saving s).

End Classificar.

(** ** app/verificar/page.tsx *)

Module Verificar.

Record State : Type := {
  questao : JSON;
  loading : bool;
  error : string;
  area : string;
  disciplinaFiltro : string;
  saving : bool;
  observacao : string;
  moduloSelecionado : JSON;
  isCorrecting : bool
}.

Definition setQuestao (v : JSON) (s : State) : State :=
  {| questao := v; loading := loading s; error := error s; area := area s;
     disciplinaFiltro := disciplinaFiltro s; saving := saving s;
     observacao := observacao s; moduloSelecionado := moduloSelecionado s;
     isCorrecting := isCorrecting s |}.

Definition setLoading (v : bool) (s : State) : State :=
  {| questao := questao s; loading := v; error := error s; area := area s;
     disciplinaFiltro := disciplinaFiltro s; saving := saving s;
     observacao := observacao s; moduloSelecionado := moduloSelecionado s;
     isCorrecting := isCorrecting s |}.

Definition setError (v : string) (s : State) : State :=
  {| questao := questao s; loading := loading s; error := v; area := area s;
     disciplinaFiltro := disciplinaFiltro s; saving := saving s;
     observacao := observacao s; moduloSelecionado := moduloSelecionado s;
     isCorrecting := isCorrecting s |}.

Definition setArea (v : string) (s : State) : State :=
  {| questao := questao s; loading := loading s; error := error s; area := v;
     disciplinaFiltro := disciplinaFiltro s; saving := saving s;
     observacao := observacao s; moduloSelecionado := moduloSelecionado s;
     isCorrecting := isCorrecting s |}.

Definition setDisciplinaFiltro (v : string) (s : State) : State :=
  {| questao := questao s; loading := loading s; error := error s; area := area s;
     disciplinaFiltro := v; saving := saving s;
     observacao := observacao s; moduloSelecionado := moduloSelecionado s;
     isCorrecting := isCorrecting s |}.

Definition setSaving (v : bool) (s : State) : State :=
  {| questao := questao s; loading := loading s; error := error s; area := area s;
     disciplinaFiltro := disciplinaFiltro s; saving := v;
     observacao := observacao s; moduloSelecionado := moduloSelecionado s;
     isCorrecting := isCorrecting s |}.

Definition setObservacao (v : string) (s : State) : State :=
  {| questao := questao s; loading := loading s; error := error s; area := area s;
     disciplinaFiltro := disciplinaFiltro s; saving := saving s;
     observacao := v; moduloSelecionado := moduloSelecionado s;
     isCorrecting := isCorrecting s |}.

Definition setModuloSelecionado (v : JSON) (s : State) : State :=
  {| questao := questao s; loading := loading s; error := error s; area := area s;
     disciplinaFiltro := disciplinaFiltro s; saving := saving s;
     observacao := observacao s; moduloSelecionado := v;
     isCorrecting := isCorrecting s |}.

Definition setIsCorrecting (v : bool) (s : State) : State :=
  {| questao := questao s; loading := loading s; error := error s; area := area s;
     disciplinaFiltro := disciplinaFiltro s; saving := saving s;
     observacao := observacao s; moduloSelecionado := moduloSelecionado s;
     isCorrecting := v |}.

Definition initial (area0 : string) : State :=
  {| questao := JNull; loading := true; error := ""; area := area0;
     disciplinaFiltro := ""; saving := false; observacao := "";
     moduloSelecionado := JNull; isCorrecting := false |}.

Definition append_if (key : string) (arg : option string) (q : list (string * string))
  : list (string * string) :=
  match arg with
  | Some v => if truthy_str v then q ++ [(key, v)] else q
  | None => q
  end.

Definition query (areaFiltro discFiltro : option string) : list (string * string) :=
  append_if "disciplina_id" discFiltro (append_if "area" areaFiltro []).

Definition params (areaFiltro discFiltro : option string) : string :=
  let q := URLSearchParams_toString (query areaFiltro discFiltro) in
  if truthy_str q then "?" ++ q else "".

Definition fetchProxima (areaFiltro discFiltro : option string) : Async State unit :=
  call (SetState (setLoading true)) ;;
  call (SetState (setError "")) ;;
  call (SetState (setQuestao JNull)) ;;
  call (SetState (setModuloSelecionado JNull)) ;;
  call (SetState (setObservacao "")) ;;
  call (SetState (setIsCorrecting false)) ;;
  try_finally
    (try_catch
       (data <- Api.apiRequest ("/proxima-low-match" ++ params areaFiltro discFiltro)
                               no_options ;;
        call (SetState (setQuestao data)))
       (fun err =>
          call (SetState (setError (str_or (message err)
                                           "Nenhuma questão de baixa similaridade pendente.")))))
    (call (SetState (setLoading false))).

Definition fetchProxima_settled (r : FetchResult) : Async State unit :=
  try_finally
    (try_catch
       (data <- Api.settled r ;;
        call (SetState (setQuestao data)))
       (fun err =>
          call (SetState (setError (str_or (message err)
                                           "Nenhuma questão de baixa similaridade pendente.")))))
    (call (SetState (setLoading false))).

Definition refetching (s : State) : State :=
  setIsCorrecting false (setObservacao "" (setModuloSelecionado JNull (setQuestao JNull
    (setError "" (setLoading true s))))).

Definition handleConfirmar (s : State) : Async State unit :=
  call (SetState (setSaving true)) ;;
  try_finally
    (try_catch
       (questao_id <- completion (get (questao s) "id") ;;
        Api.apiRequest "/salvar"
          {| method := Some "POST"; headers := None;
             body := Some (JSON_stringify
                             [("questao_id", questao_id);
                              ("tipo_acao", Some (JStr "confirmacao"));
                              ("observacao", Some (JStr (observacao s)))]) |} ;;
        Spawn (fetchProxima (Some (area s)) (Some (disciplinaFiltro s))) (Ret tt))
       (fun err => call (Alert (message err))))
    (call (SetState (setSaving false))).

Definition handleSalvarCorrecao (s : State) : Async State unit :=
  if negb (truthy (moduloSelecionado s)) then Ret tt
  else
    call (SetState (setSaving true)) ;;
    try_finally
      (try_catch
         (questao_id <- completion (get (questao s) "id") ;;
          habilidade_modulo_id <- completion (get (moduloSelecionado s) "id") ;;
          modulo_escolhido <- completion (get (moduloSelecionado s) "modulo") ;;
          classificacao_trieduc <-
            completion (get (moduloSelecionado s) "habilidade_descricao") ;;
          descricao_assunto <- completion (get (moduloSelecionado s) "descricao") ;;
          Api.apiRequest "/salvar"
            {| method := Some "POST"; headers := None;
               body := Some (JSON_stringify
                               [("questao_id", questao_id);
                                ("habilidade_modulo_id", habilidade_modulo_id);
                                ("modulo_escolhido", modulo_escolhido);
                                ("classificacao_trieduc", classificacao_trieduc);
                                ("descricao_assunto", descricao_assunto);
                                ("tipo_acao", Some (JStr "correcao"));
                                ("observacao", Some (JStr (observacao s)))]) |} ;;
          Spawn (fetchProxima (Some (area s)) (Some (disciplinaFiltro s))) (Ret tt))
         (fun err => call (Alert (message err))))
      (call (SetState (setSaving false))).

(** [handleConfirmar] and [handleSalvarCorrecao] from the settlement of
    their request on. *)
Definition save_settled (s : State) (r : FetchResult) : Async State unit :=
  try_finally
    (try_catch
       (Api.settled r ;;
        Spawn (fetchProxima (Some (area s)) (Some (disciplinaFiltro s))) (Ret tt))
       (fun err => call (Alert (message err))))
    (call (SetState (setSaving false))).

(** The documents the two handlers post. *)
Definition confirmacao (questao : JSON) (observacao : string) : JSON :=
  JSON_stringify
    [("questao_id", prop questao "id");
     ("tipo_acao", Some (JStr "confirmacao"));
     ("observacao", Some (JStr observacao))].

Definition correcao (questao m : JSON) (observacao : string) : JSON :=
  JSON_stringify
    [("questao_id", prop questao "id");
     ("habilidade_modulo_id", prop m "id");
     ("modulo_escolhido", prop m "modulo");
     ("classificacao_trieduc", prop m "habilidade_descricao");
     ("descricao_assunto", prop m "descricao");
     ("tipo_acao", Some (JStr "correcao"));
     ("observacao", Some (JStr observacao))].

Definition post (doc : JSON) : RequestInit :=
  {| method := Some "POST"; headers := None; body := Some doc |}.

Definition onFilterChange (s : State) (a d : string) : Async State unit :=
  call (SetState (setArea a)) ;;
  call (SetState (setDisciplinaFiltro d)) ;;
  if (a =? area s)%string && (d =? disciplinaFiltro s)%string then Ret tt
  else Spawn (fetchProxima (Some a) (Some d)) (Ret tt).

Definition onMount (s : State) : Async State unit :=
  Spawn (fetchProxima (Some (area s)) (Some (disciplinaFiltro s))) (Ret tt).

Definition onPular (s : State) : Async State unit :=
  Spawn (fetchProxima (Some (area s)) (Some (disciplinaFiltro s))) (Ret tt).

(** "Não, quero corrigir" and "Voltar". *)
Definition onCorrigir : Async State unit := call (SetState (setIsCorrecting true)).
Definition onVoltar : Async State unit := call (SetState (setIsCorrecting false)).

Definition card_shown (s : State) : bool :=
  negb (loading s) && negb (truthy_str (error s)) && truthy (questao s).

(** "Sim, está correta" is on screen and not disabled. *)
Definition confirmar_enabled (s : State) : bool :=
  card_shown s && negb (isCorrecting s) && negb (saving s).

(** "Salvar Correção" is on screen and not disabled. *)
Definition salvar_correcao_enabled (s : State) : bool :=
  card_shown s && isCorrecting s && negb (negb (truthy (moduloSelecionado s)) || saving s).

(** *** MatchBadge *)

(** What [Math.round] returns: an integer, [NaN] or an infinity. *)
Inductive Rounded : Type :=
| RInt (z : Z)
| RNaN
| RInf (negative : bool).

(** [Math.round]: the nearest integer, a tie going up. *)
Definition Math_round (x : float) : Rounded :=
  match Prim2SF x with
  | S754_nan => RNaN
  | S754_infinity negative => RInf negative
  | S754_zero _ => RInt 0
  | S754_finite negative m e =>
      let n := if negative then Z.neg m else Z.pos m in
      RInt (match e with
            | Z0 => n
            | Zpos p => n * 2 ^ Zpos p
            | Zneg p => (2 * n + 2 ^ Zpos p) / 2 ^ (Zpos p + 1)
            end)
  end.

(** In the rounding of a binary64 product ([SpecFloat.shr]): [mrs] is what
    [k] one-bit shifts leave of the mantissa [P], the quotient with a round
    bit and a sticky bit, both clear when nothing was shifted out. *)
Definition shifted (P k : Z) (mrs : shr_record) : Prop :=
  0 <= k /\ shr_m mrs = P / 2 ^ k /\
  (P mod 2 ^ k = 0 -> shr_r mrs = false /\ shr_s mrs = false).

(** [pct >= bound]. *)
Definition at_least (pct : Rounded) (bound : Z) : bool :=
  match pct with
  | RInt z => bound <=? z
  | RNaN => false
  | RInf negative => negb negative
  end.

Record Style : Type := { color : string; bg : string; borderColor : string }.

Definition red : Style :=
  {| color := "#991b1b"; bg := "#fecaca"; borderColor := "#f87171" |}.
Definition green : Style :=
  {| color := "#166534"; bg := "#bbf7d0"; borderColor := "#4ade80" |}.
Definition yellow : Style :=
  {| color := "#854d0e"; bg := "#fef08a"; borderColor := "#facc15" |}.

(** The [span] of the badge: its style and the number before the percent
    sign. *)
Record Badge : Type := { style : Style; pct : Rounded }.

Definition MatchBadge (score : option float) : option Badge :=
  match score with
  | None => None
  | Some score =>
      let pct := Math_round (score * 100)%float in
      let style := red in
      let style := if at_least pct 80 then green
                   else if at_least pct 60 then yellow
                   else style in
      Some {| style := style; pct := pct |}
  end.

(** The text of the badge, [{pct}%].  An integer of a magnitude below 2^53
    prints as its digits; [None] stands for the larger ones, whose digits
    JavaScript shortens: no percentage of a score between 0 and 1 comes
    near them. *)
Definition text (b : Badge) : option string :=
  match pct b with
  | RInt z => if Z.abs z <? 2 ^ 53 then Some (Number_toString z ++ "%") else None
  | RNaN => Some "NaN%"
  | RInf false => Some "Infinity%"
  | RInf true => Some "-Infinity%"
  end.

End Verificar.

(** ** Sample worlds and payloads *)

Module Sample.

Definition browser (items : list (string * string)) : Browser :=
  {| localStorage := list_to_map items; location_href := "/classificar" |}.

(** A browser tab holding [items] in its storage, nothing sent yet; the
    parser knows the one document ["{}"]. *)
Definition world {S : Type} (s : S) (items : list (string * string)) : World S :=
  {| page := s;
     process_env := fun _ => None;
     window := Some (browser items);
     JSON_parse := fun text =>
       if (text =? "{}")%string then Normal (JObj [])
       else Abrupt (mkError "SyntaxError" "Unexpected token");
     alerts := []; console := []; sent := []; waiting := []; unhandled := [] |}.

Definition session : list (string * string) :=
  [("token", "abc"); ("usuario", "{}")].

Definition modulo : JSON :=
  JObj [("id", JNum 7); ("modulo", JStr "Funções");
        ("habilidade_descricao", JStr "Resolver problemas com funções");
        ("descricao", JStr "Função afim")].

Definition questao : JSON :=
  JObj [("id", JNum 42); ("disciplina_nome", JStr "Matemática");
        ("enunciado", JStr "Calcule f(2).");
        ("modulos_possiveis", JArr [modulo])].

(** The classification page showing [questao] with [modulo] selected. *)
Definition classifying : Classificar.State :=
  {| Classificar.questao := questao; Classificar.loading := false;
     Classificar.error := ""; Classificar.area := "Exatas";
     Classificar.disciplinaFiltro := ""; Classificar.saving := false;
     Classificar.observacao := "ok"; Classificar.moduloSelecionado := modulo |}.

(** The verification page showing [questao], nothing selected. *)
Definition reviewing : Verificar.State :=
  {| Verificar.questao := questao; Verificar.loading := false;
     Verificar.error := ""; Verificar.area := "Exatas";
     Verificar.disciplinaFiltro := "Matemática"; Verificar.saving := false;
     Verificar.observacao := ""; Verificar.moduloSelecionado := JNull;
     Verificar.isCorrecting := false |}.

(** The same page in its correcting mode, with [modulo] selected. *)
Definition correcting : Verificar.State :=
  Verificar.setModuloSelecionado modulo (Verificar.setIsCorrecting true reviewing).

Definition saved : Response := {| status := 200; json := Normal (JObj [("ok", JBool true)]) |}.

Definition refused : Response :=
  {| status := 500; json := Normal (JObj [("detail", JStr "Falha ao salvar")]) |}.

Definition expired : Response :=
  {| status := 401; json := Normal (JObj [("detail", JStr "Token inválido")]) |}.

Definition professora : FilterBar.Usuario :=
  {| FilterBar.id := 1; FilterBar.nome := "Ana"; FilterBar.email := "ana@escola.br";
     FilterBar.disciplina := "Matemática"; FilterBar.is_admin := false;
     FilterBar.ativo := true |}.

Definition exatas : FilterBar.Mapping := [("Exatas", ["Matemática"; "Física"])].

End Sample.

(** ** JSON text *)

Definition quotation_mark : ascii := ascii_of_N 34.
Definition reverse_solidus : ascii := ascii_of_N 92.

Definition hex_lower (n : N) : ascii :=
  ascii_of_N (if (n <? 10)%N then 48 + n else 87 + n).

(** QuoteJSONString, on UTF-8 bytes: the two-character escapes, [\u00XX]
    for the other control characters, every other byte as it is. *)
Definition JSON_escape (c : ascii) : string :=
  let n := N_of_ascii c in
  if (n =? 8)%N then "\b"
  else if (n =? 9)%N then "\t"
  else if (n =? 10)%N then "\n"
  else if (n =? 12)%N then "\f"
  else if (n =? 13)%N then "\r"
  else if (n =? 34)%N then String reverse_solidus (String quotation_mark "")
  else if (n =? 92)%N then String reverse_solidus (String reverse_solidus "")
  else if (n <? 32)%N then
    "\u00" ++ String (hex_lower (n / 16)) (String (hex_lower (n mod 16)) "")
  else String c "".

Fixpoint JSON_escape_all (s : string) : string :=
  match s with
  | EmptyString => ""
  | String c rest => JSON_escape c ++ JSON_escape_all rest
  end.

Definition JSON_quote (s : string) : string :=
  String quotation_mark (JSON_escape_all s ++ String quotation_mark "").

(** The text [JSON.stringify] gives for a document. *)
Fixpoint JSON_text (v : JSON) : string :=
  match v with
  | JNull => "null"
  | JBool true => "true"
  | JBool false => "false"
  | JNum n => Number_toString n
  | JStr s => JSON_quote s
  | JArr items =>
      "[" ++ (fix elements (l : list JSON) : string :=
                match l with
                | [] => ""
                | [x] => JSON_text x
                | x :: rest => JSON_text x ++ "," ++ elements rest
                end) items ++ "]"
  | JObj fields =>
      "{" ++ (fix members (l : list (string * JSON)) : string :=
                match l with
                | [] => ""
                | [(k, x)] => JSON_quote k ++ ":" ++ JSON_text x
                | (k, x) :: rest => JSON_quote k ++ ":" ++ JSON_text x ++ "," ++ members rest
                end) fields ++ "}"
  end.


(** [String(v)], as [localStorage.setItem] does to its value. *)
Definition String_of (v : JsVal) : string :=
  match v with
  | Some d => ToString d
  | None => "undefined"
  end.

(** ** Functions that write to the store *)

Section Tasks.
Context {S : Type}.

(** The host calls of [Cmd], and [localStorage.setItem]. *)
Inductive Effect : Type -> Type :=
| Host {X : Type} (c : Cmd S X) : Effect X
| SetItem (key value : string) : Effect (Completion unit).

(** The body of a function that may call [setItem]: [Async] over the
    larger set of host calls.  A function spawned from it is an [Async]. *)
Inductive Task (A : Type) : Type :=
| TRet (a : A)
| TThrow (e : JsError)
| TDo {X : Type} (c : Effect X) (k : X -> Task A)
| TAwait (rq : Request) (k : FetchResult -> Task A)
| TSpawn (p : Async S unit) (k : Task A).

Arguments TRet {A} a.
Arguments TThrow {A} e.
Arguments TDo {A X} c k.
Arguments TAwait {A} rq k.
Arguments TSpawn {A} p k.

Fixpoint task_bind {A B : Type} (p : Task A) (f : A -> Task B) : Task B :=
  match p with
  | TRet a => f a
  | TThrow e => TThrow e
  | TDo c k => TDo c (fun x => task_bind (k x) f)
  | TAwait rq k => TAwait rq (fun r => task_bind (k r) f)
  | TSpawn q k => TSpawn q (task_bind k f)
  end.

Fixpoint task_try_catch {A : Type} (p : Task A) (handler : JsError -> Task A) : Task A :=
  match p with
  | TRet a => TRet a
  | TThrow e => handler e
  | TDo c k => TDo c (fun x => task_try_catch (k x) handler)
  | TAwait rq k => TAwait rq (fun r => task_try_catch (k r) handler)
  | TSpawn q k => TSpawn q (task_try_catch k handler)
  end.

Fixpoint task_try_finally {A : Type} (p : Task A) (final : Task unit) : Task A :=
  match p with
  | TRet a => task_bind final (fun _ => TRet a)
  | TThrow e => task_bind final (fun _ => TThrow e)
  | TDo c k => TDo c (fun x => task_try_finally (k x) final)
  | TAwait rq k => TAwait rq (fun r => task_try_finally (k r) final)
  | TSpawn q k => TSpawn q (task_try_finally k final)
  end.

(** A call of a function written as an [Async]. *)
Fixpoint lift {A : Type} (p : Async S A) : Task A :=
  match p with
  | Ret a => TRet a
  | Throw e => TThrow e
  | Do c k => TDo (Host c) (fun x => lift (k x))
  | Await rq k => TAwait rq (fun r => lift (k r))
  | Spawn q k => TSpawn q (lift k)
  end.

Definition host {X : Type} (c : Cmd S X) : Task X := TDo (Host c) TRet.

Definition task_completion {X : Type} (r : Completion X) : Task X :=
  match r with
  | Normal x => TRet x
  | Abrupt e => TThrow e
  end.

(** [localStorage.setItem(key, value)]. *)
Definition setItem (key value : string) : Task unit :=
  TDo (SetItem key value) task_completion.

(** One host call. *)
Definition perform {X : Type} (c : Effect X) (w : World S) : X * World S :=
  match c in Effect X return X * World S with
  | Host c => exec c w
  | SetItem key value =>
      match window w with
      | Some b =>
          (Normal tt,
           with_window (Some {| localStorage := <[key := value]> (localStorage b);
                                location_href := location_href b |}) w)
      | None => (Abrupt (not_defined "localStorage"), w)
      end
  end.

Inductive TaskOutcome (A : Type) : Type :=
| TReturned (a : A)
| TThrew (e : JsError)
| TSuspended (rq : Request) (k : FetchResult -> Task A).

Arguments TReturned {A} a.
Arguments TThrew {A} e.
Arguments TSuspended {A} rq k.

(** Run a task until it returns, throws or waits for a request. *)
Fixpoint task_eval {A : Type} (p : Task A) (w : World S) : TaskOutcome A * World S :=
  match p with
  | TRet a => (TReturned a, w)
  | TThrow e => (TThrew e, w)
  | TDo c k => let (x, w') := perform c w in task_eval (k x) w'
  | TAwait rq k => (TSuspended rq k, w)
  | TSpawn q k => task_eval k (run q w)
  end.

Definition task_requested {A : Type} (o : TaskOutcome A) : option Request :=
  match o with
  | TSuspended rq _ => Some rq
  | _ => None
  end.

(** The request settles with [r] in world [w]: the task goes on. *)
Definition task_resume {A : Type} (o : TaskOutcome A) (r : FetchResult) (w : World S)
  : TaskOutcome A * World S :=
  match o with
  | TSuspended _ k => task_eval (k r) w
  | _ => (o, w)
  end.

End Tasks.

Arguments Effect S : clear implicits.
Arguments Task S A : clear implicits.
Arguments TaskOutcome S A : clear implicits.
Arguments TRet {S A} a.
Arguments TThrow {S A} e.
Arguments TDo {S A X} c k.
Arguments TAwait {S A} rq k.
Arguments TSpawn {S A} p k.
Arguments TReturned {S A} a.
Arguments TThrew {S A} e.
Arguments TSuspended {S A} rq k.

Declare Scope task_scope.
Delimit Scope task_scope with task.
Notation "x <- p ;; k" := (task_bind p (fun x => k))
  (at level 100, p at next level, right associativity) : task_scope.
Notation "p ;; k" := (task_bind p (fun _ => k))
  (at level 100, right associativity) : task_scope.

(** [lib/auth.ts], [setAuth]: its arguments are what the caller read from
    the answer, [undefined] when the field is missing. *)
Definition setAuth {S : Type} (token usuario : JsVal) : Task S unit :=
  (hasWindow <- host TypeofWindow ;;
   if negb hasWindow then TRet tt
   else
     setItem "token" (String_of token) ;;
     setItem "usuario" (match usuario with
                        | Some u => JSON_text u
                        | None => "undefined"
                        end))%task.

(** ** next/navigation *)

(** A component that holds the router of [useRouter]: its [useState] cells,
    and the routes it has pushed, in order. *)
Record Routed (St : Type) : Type := { cells : St; pushed : list string }.
Arguments cells {St} r.
Arguments pushed {St} r.

(** [router.push(href)]. *)
Definition router_push {St : Type} (href : string) (r : Routed St) : Routed St :=
  {| cells := cells r; pushed := pushed r ++ [href] |}.

Definition set_cells {St : Type} (f : St -> St) (r : Routed St) : Routed St :=
  {| cells := f (cells r); pushed := pushed r |}.

(** ** app/page.tsx *)

Module Home.

(** The effect of the first render. *)
Definition onMount : Async (Routed unit) unit :=
  authenticated <- Auth.isAuthenticated ;;
  if authenticated then call (SetState (router_push "/classificar"))
  else call (SetState (router_push "/login")).

End Home.

(** ** components/AppLayout.tsx *)

Module AppLayout.

(** [useState(false)]: the one cell, [authorized]. *)
Definition initial : Routed bool := {| cells := false; pushed := [] |}.

Definition setAuthorized (v : bool) (r : Routed bool) : Routed bool :=
  set_cells (fun _ => v) r.

Definition onMount : Async (Routed bool) unit :=
  authenticated <- Auth.isAuthenticated ;;
  if negb authenticated then call (SetState (router_push "/login"))
  else call (SetState (setAuthorized true)).

(** What the component returns: the notice "Verificando acesso...", or the
    sidebar with the page's children. *)
Inductive Rendered : Type :=
| Verificando
| Children.

Definition render (authorized : bool) : Rendered :=
  if negb authorized then Verificando else Children.

End AppLayout.

(** ** components/Sidebar.tsx *)

Module Sidebar.

(** [useState<any>(null)]: the one cell, [usuario]. *)
Definition initial : Routed JSON := {| cells := JNull; pushed := [] |}.

Definition setUsuario (v : JSON) (r : Routed JSON) : Routed JSON :=
  set_cells (fun _ => v) r.

Definition onMount : Async (Routed JSON) unit :=
  u <- Auth.getUsuario ;;
  call (SetState (setUsuario u)).

Definition handleLogout : Async (Routed JSON) unit :=
  Auth.clearAuth ;;
  call (SetState (router_push "/login")).

Record Item : Type := { name : string; path : string }.

Definition menuItems : list Item :=
  [{| name := "Classificar"; path := "/classificar" |};
   {| name := "Verificar"; path := "/verificar" |};
   {| name := "Estatísticas"; path := "/stats" |}].

(** What the [aside] shows: the user's name, the line under it, and the
    links, each with whether it is marked active. *)
Record Aside : Type := {
  heading : JsVal;
  caption : JsVal;
  links : list (Item * bool)
}.

Definition render (usuario : JSON) (pathname : string) : option Aside :=
  if negb (truthy usuario) then None
  else
    Some {| heading := prop usuario "nome";
            caption := if truthy_val (prop usuario "is_admin") then Some (JStr "Admin")
                       else prop usuario "disciplina";
            links := map (fun item => (item, (pathname =? path item)%string)) menuItems |}.

End Sidebar.

(** ** app/login/page.tsx *)

Module Login.

Record State : Type := {
  email : string;
  senha : string;
  loading : bool;
  error : string
}.

Definition setEmail (v : string) (s : State) : State :=
  {| email := v; senha := senha s; loading := loading s; error := error s |}.

Definition setSenha (v : string) (s : State) : State :=
  {| email := email s; senha := v; loading := loading s; error := error s |}.

Definition setLoading (v : bool) (s : State) : State :=
  {| email := email s; senha := senha s; loading := v; error := error s |}.

Definition setError (v : string) (s : State) : State :=
  {| email := email s; senha := senha s; loading := loading s; error := v |}.

Definition initial : Routed State :=
  {| cells := {| email := ""; senha := ""; loading := false; error := "" |};
     pushed := [] |}.

(** The document [handleSubmit] posts. *)
Definition credentials (s : State) : JSON :=
  JSON_stringify [("email", Some (JStr (email s))); ("senha", Some (JStr (senha s)))].

(** [handleSubmit] as created by the render of state [s]. *)
Definition handleSubmit (s : State) : Task (Routed State) unit :=
  (host (SetState (set_cells (setLoading true))) ;;
   host (SetState (set_cells (setError ""))) ;;
   task_try_finally
     (task_try_catch
        (data <- lift (Api.apiRequest "/login"
                         {| method := Some "POST"; headers := None;
                            body := Some (credentials s) |}) ;;
         access_token <- task_completion (get data "access_token") ;;
         usuario <- task_completion (get data "usuario") ;;
         setAuth access_token usuario ;;
         host (SetState (router_push "/classificar")))
        (fun err =>
           host (SetState (set_cells
                   (setError (str_or (message err)
                                     "Falha no login. Verifique suas credenciais."))))))
     (host (SetState (set_cells (setLoading false)))))%task.

(** [handleSubmit] from the settlement of its request on. *)
Definition handleSubmit_settled (r : FetchResult) : Task (Routed State) unit :=
  (task_try_finally
     (task_try_catch
        (data <- lift (Api.settled r) ;;
         access_token <- task_completion (get data "access_token") ;;
         usuario <- task_completion (get data "usuario") ;;
         setAuth access_token usuario ;;
         host (SetState (router_push "/classificar")))
        (fun err =>
           host (SetState (set_cells
                   (setError (str_or (message err)
                                     "Falha no login. Verifique suas credenciais."))))))
     (host (SetState (set_cells (setLoading false)))))%task.

(** The submit button is not disabled. *)
Definition submit_enabled (s : State) : bool := negb (loading s).

End Login.

(** ** app/cadastro/page.tsx *)

Module Cadastro.

(** [disciplina] holds the selected area. *)
Record State : Type := {
  nome : string;
  email : string;
  senha : string;
  disciplina : string;
  areasMapping : FilterBar.Mapping;
  loading : bool;
  error : string
}.

Definition setNome (v : string) (s : State) : State :=
  {| nome := v; email := email s; senha := senha s; disciplina := disciplina s;
     areasMapping := areasMapping s; loading := loading s; error := error s |}.

Definition setEmail (v : string) (s : State) : State :=
  {| nome := nome s; email := v; senha := senha s; disciplina := disciplina s;
     areasMapping := areasMapping s; loading := loading s; error := error s |}.

Definition setSenha (v : string) (s : State) : State :=
  {| nome := nome s; email := email s; senha := v; disciplina := disciplina s;
     areasMapping := areasMapping s; loading := loading s; error := error s |}.

Definition setDisciplina (v : string) (s : State) : State :=
  {| nome := nome s; email := email s; senha := senha s; disciplina := v;
     areasMapping := areasMapping s; loading := loading s; error := error s |}.

Definition setAreasMapping (m : FilterBar.Mapping) (s : State) : State :=
  {| nome := nome s; email := email s; senha := senha s; disciplina := disciplina s;
     areasMapping := m; loading := loading s; error := error s |}.

Definition setLoading (v : bool) (s : State) : State :=
  {| nome := nome s; email := email s; senha := senha s; disciplina := disciplina s;
     areasMapping := areasMapping s; loading := v; error := error s |}.

Definition setError (v : string) (s : State) : State :=
  {| nome := nome s; email := email s; senha := senha s; disciplina := disciplina s;
     areasMapping := areasMapping s; loading := loading s; error := v |}.

Definition initial : State :=
  {| nome := ""; email := ""; senha := ""; disciplina := ""; areasMapping := [];
     loading := false; error := "" |}.

(** The document [handleSubmit] posts. *)
Definition registration (s : State) : JSON :=
  JSON_stringify [("nome", Some (JStr (nome s))); ("email", Some (JStr (email s)));
                  ("senha", Some (JStr (senha s)));
                  ("disciplina", Some (JStr (disciplina s)))].

Definition handleSubmit (s : State) : Task (Routed State) unit :=
  (host (SetState (set_cells (setLoading true))) ;;
   host (SetState (set_cells (setError ""))) ;;
   if negb (truthy_str (disciplina s)) then
     host (SetState (set_cells (setError "Selecione uma disciplina"))) ;;
     host (SetState (set_cells (setLoading false)))
   else
     task_try_finally
       (task_try_catch
          (data <- lift (Api.apiRequest "/cadastro"
                           {| method := Some "POST"; headers := None;
                              body := Some (registration s) |}) ;;
           access_token <- task_completion (get data "access_token") ;;
           usuario <- task_completion (get data "usuario") ;;
           setAuth access_token usuario ;;
           host (SetState (router_push "/classificar")))
          (fun err =>
             host (SetState (set_cells
                     (setError (str_or (message err) "Erro ao realizar cadastro."))))))
       (host (SetState (set_cells (setLoading false)))))%task.

(** [handleSubmit] from the settlement of its request on. *)
Definition handleSubmit_settled (r : FetchResult) : Task (Routed State) unit :=
  (task_try_finally
     (task_try_catch
        (data <- lift (Api.settled r) ;;
         access_token <- task_completion (get data "access_token") ;;
         usuario <- task_completion (get data "usuario") ;;
         setAuth access_token usuario ;;
         host (SetState (router_push "/classificar")))
        (fun err =>
           host (SetState (set_cells
                   (setError (str_or (message err) "Erro ao realizar cadastro."))))))
     (host (SetState (set_cells (setLoading false)))))%task.

Definition areaOptions (s : State) : list FilterBar.Option :=
  map FilterBar.option_of (FilterBar.keys (areasMapping s)).

(** The form, from its mount on: [fetchFilters] is answered with
    [data.areas = areas] or fails (the [catch] logs the error), a text field
    is edited, an option of the area dropdown is picked, and a submission
    writes [loading] and [error]. *)
Inductive Event : Type :=
| Loaded (areas : FilterBar.Mapping)
| LoadFailed (err : JsError)
| NomeTyped (v : string)
| EmailTyped (v : string)
| SenhaTyped (v : string)
| AreaPicked (val : string)
| LoadingSet (v : bool)
| ErrorSet (v : string).

Record Component : Type := {
  state : State;
  loading_filters : bool
}.

Definition mount : Component := {| state := initial; loading_filters := true |}.

Definition enabled (c : Component) (e : Event) : bool :=
  match e with
  | Loaded _ | LoadFailed _ => loading_filters c
  | AreaPicked val => FilterBar.offers (areaOptions (state c)) val
  | _ => true
  end.

Definition handle (e : Event) (c : Component) : Component :=
  match e with
  | Loaded areas => {| state := setAreasMapping areas (state c); loading_filters := false |}
  | LoadFailed _ => {| state := state c; loading_filters := false |}
  | NomeTyped v => {| state := setNome v (state c); loading_filters := loading_filters c |}
  | EmailTyped v => {| state := setEmail v (state c); loading_filters := loading_filters c |}
  | SenhaTyped v => {| state := setSenha v (state c); loading_filters := loading_filters c |}
  | AreaPicked val =>
      {| state := setDisciplina val (state c); loading_filters := loading_filters c |}
  | LoadingSet v => {| state := setLoading v (state c); loading_filters := loading_filters c |}
  | ErrorSet v => {| state := setError v (state c); loading_filters := loading_filters c |}
  end.

Fixpoint play (events : list Event) (c : Component) : option Component :=
  match events with
  | [] => Some c
  | e :: rest => if enabled c e then play rest (handle e c) else None
  end.

(** The area held, when there is one, is a key of the mapping, and the
    mapping is empty until [fetchFilters] has its answer. *)
Definition area_offered (c : Component) : Prop :=
  (disciplina (state c) = "" \/
   In (disciplina (state c)) (FilterBar.keys (areasMapping (state c)))) /\
  (loading_filters c = true -> areasMapping (state c) = []).

End Cadastro.

(** ** app/stats/page.tsx *)

(** [v?.key]. *)
Definition optional (v : JSON) (key : string) : JsVal :=
  match v with
  | JNull => None
  | _ => prop v key
  end.

(** [v || d]. *)
Definition or_else (v : JsVal) (d : JSON) : JSON :=
  match v with
  | Some x => if truthy x then x else d
  | None => d
  end.

Module Stats.

Record State : Type := { stats : JSON; loading : bool }.

Definition setStats (v : JSON) (s : State) : State := {| stats := v; loading := loading s |}.
Definition setLoading (v : bool) (s : State) : State := {| stats := stats s; loading := v |}.

Definition initial : State := {| stats := JNull; loading := true |}.

Definition loadStats : Async State unit :=
  try_finally
    (try_catch
       (data <- Api.apiRequest "/stats" no_options ;;
        call (SetState (setStats data)))
       (fun err => call (ConsoleError err)))
    (call (SetState (setLoading false))).

(** [loadStats] from the settlement of its request on. *)
Definition loadStats_settled (r : FetchResult) : Async State unit :=
  try_finally
    (try_catch
       (data <- Api.settled r ;;
        call (SetState (setStats data)))
       (fun err => call (ConsoleError err)))
    (call (SetState (setLoading false))).

(** The effect of the first render. *)
Definition onMount : Async State unit := Spawn loadStats (Ret tt).

(** The two cards: [stats?.total_manuais || 0], [stats?.total_pendentes || 0]. *)
Definition total_manuais (s : State) : JSON := or_else (optional (stats s) "total_manuais") (JNum 0).
Definition total_pendentes (s : State) : JSON :=
  or_else (optional (stats s) "total_pendentes") (JNum 0).

(** [Object.keys(stats?.por_usuario || {}).length === 0], the condition of
    the row "Nenhuma atividade registrada": a falsy value gives way to the
    empty object, a number or a boolean has no keys, a string has one for
    each of its characters. *)
Definition sem_atividade (s : State) : bool :=
  match optional (stats s) "por_usuario" with
  | Some (JObj fields) => match fields with [] => true | _ => false end
  | Some (JArr items) => match items with [] => true | _ => false end
  | Some (JStr str) => (str =? "")%string
  | _ => true
  end.

(** What the page shows: the notice "Carregando estatísticas...", or the
    two cards with the table's empty row. *)
Record Board : Type := { manuais : JSON; pendentes : JSON; nenhuma : bool }.

Definition render (s : State) : option Board :=
  if loading s then None
  else Some {| manuais := total_manuais s; pendentes := total_pendentes s;
               nenhuma := sem_atividade s |}.

End Stats.

(** ** components/Dropdown.tsx *)

Module Dropdown.

(** [options.find(opt => opt.value === value)]. *)
Definition selectedOption (options : list FilterBar.Option) (value : string)
  : option FilterBar.Option :=
  find (fun opt => (FilterBar.value opt =? value)%string) options.

(** The text in the closed control: the selected option's label, or the
    placeholder. *)
Definition shown (options : list FilterBar.Option) (value placeholder : string) : string :=
  match selectedOption options value with
  | Some opt => FilterBar.label opt
  | None => placeholder
  end.

(** The menu, when open: the options, and the notice "Nenhuma opção
    disponível". *)
Definition menu (isOpen : bool) (options : list FilterBar.Option)
  : option (list FilterBar.Option * bool) :=
  if isOpen then Some (options, (List.length options =? 0)%nat) else None.

End Dropdown.

(** ** The two review pages: what a render reads and shows *)

Module Review.
Section Review.
Context {S : Type}.

(** [usuario], read from the store by every render of [ClassificarPage]
    and of [VerificarPage]. *)
Definition usuario : Async S JSON :=
  hasWindow <- call TypeofWindow ;;
  if hasWindow then
    userStr <- attempt (GetItem "usuario") ;;
    attempt (JSONparse (match userStr with
                        | Some text => str_or text "{}"
                        | None => "{}"
                        end))
  else Ret JNull.

(** [usuario?.disciplina || '']: the first value of the page's [area]. *)
Definition area0 (usuario : JSON) : JSON := or_else (optional usuario "disciplina") (JStr "").

End Review.

(** What a page shows below the filter bar: the spinner, the error panel
    with "Tentar Novamente", the question card, or the falsy [questao]
    itself. *)
Inductive Screen (V : Type) : Type :=
| Spinner
| ErrorPanel (msg : string)
| Card (view : V)
| Falsy (questao : JSON).

Arguments Spinner {V}.
Arguments ErrorPanel {V} msg.
Arguments Card {V} view.
Arguments Falsy {V} questao.

(** [loading ? ... : error ? ... : questao && (...)], with the page's card
    for a truthy [questao]: the render throws when the card does. *)
Definition screen {V : Type} (loading : bool) (error : string) (questao : JSON)
           (card : JSON -> Completion V) : Completion (Screen V) :=
  if loading then Normal Spinner
  else if truthy_str error then Normal (ErrorPanel error)
  else if truthy questao then
    match card questao with
    | Normal view => Normal (Card view)
    | Abrupt e => Abrupt e
    end
  else Normal (Falsy questao).

End Review.

(** ** The question card of the classification page *)

(** [a || b]. *)
Definition or_val (a b : JsVal) : JsVal := if truthy_val a then a else b.

(** The calls of a callback on the items of an array, in order, up to the
    first that throws. *)
Fixpoint each {A : Type} (f : JSON -> Completion A) (items : list JSON)
  : Completion (list A) :=
  match items with
  | [] => Normal []
  | x :: rest =>
      match f x with
      | Normal a =>
          match each f rest with
          | Normal l => Normal (a :: l)
          | Abrupt e => Abrupt e
          end
      | Abrupt e => Abrupt e
      end
  end.

(** [v.map(f)], where the source writes [source] for [v]: only an array
    has a [map] to call. *)
Definition array_map {A : Type} (source : string) (v : JsVal) (f : JSON -> Completion A)
  : Completion (list A) :=
  match v with
  | None => Abrupt (TypeError "Cannot read properties of undefined (reading 'map')")
  | Some JNull => Abrupt (TypeError "Cannot read properties of null (reading 'map')")
  | Some (JArr items) => each f items
  | Some _ => Abrupt (TypeError (source ++ ".map is not a function"))
  end.

Module ClassificarCard.
Section ClassificarCard.

(** [x > 0] for a value [x] of a document, as the engine evaluates it. *)
Variable positive : JSON -> Completion bool.

(** [v.length > 0]: a string and an array have the length of their items;
    an object has the [length] it owns, if any, which the comparison
    converts to a number; a boolean and a number have none, and
    [undefined > 0] is false. *)
Definition has_items (v : JSON) : Completion bool :=
  match v with
  | JNull => Abrupt (TypeError "Cannot read properties of null (reading 'length')")
  | JStr s => Normal (negb (s =? "")%string)
  | JArr items => Normal (negb (List.length items =? 0)%nat)
  | JObj fields =>
      match own "length" fields with
      | Some x => positive x
      | None => Normal false
      end
  | JBool _ | JNum _ => Normal false
  end.

(** One alternative: whether it is marked correct ([alt.correta ? ... : '']),
    and its content ([alt.conteudo_html || alt.conteudo]). *)
Record Alternativa : Type := { correta : bool; conteudo : JsVal }.

Definition alternativa (alt : JSON) : Completion Alternativa :=
  match get alt "correta" with
  | Normal c =>
      Normal {| correta := truthy_val c;
                conteudo := or_val (prop alt "conteudo_html") (prop alt "conteudo") |}
  | Abrupt e => Abrupt e
  end.

(** [questao.alternativas && questao.alternativas.length > 0 &&
    questao.alternativas.map(...)]: the alternatives listed. *)
Definition alternativas (questao : JSON) : Completion (list Alternativa) :=
  match prop questao "alternativas" with
  | Some alts =>
      if truthy alts then
        match has_items alts with
        | Normal true => array_map "questao.alternativas" (Some alts) alternativa
        | Normal false => Normal []
        | Abrupt e => Abrupt e
        end
      else Normal []
  | None => Normal []
  end.

(** One entry of the module list: the value its radio button hands to
    [setModuloSelecionado], with the [m.id], [m.modulo] and [m.descricao]
    the entry shows. *)
Record Modulo : Type := {
  picked : JSON;
  key : JsVal;
  modulo : JsVal;
  descricao : JsVal
}.

Definition modulo_item (m : JSON) : Completion Modulo :=
  match get m "id" with
  | Normal k =>
      Normal {| picked := m; key := k; modulo := prop m "modulo";
                descricao := prop m "descricao" |}
  | Abrupt e => Abrupt e
  end.

(** The card of a truthy [questao], as far as it is built from the
    question: the three tags, the statement
    ([questao.enunciado_html || questao.enunciado]), the alternatives and
    the modules of [questao.modulos_possiveis.map(...)].  The letters of the
    alternatives and the mark of the selected module are left out; the
    action area below reads the page's own cells only. *)
Record Card : Type := {
  disciplina_nome : JsVal;
  habilidade_descricao : JsVal;
  id : JsVal;
  enunciado : JsVal;
  alternativas_listed : list Alternativa;
  modulos : list Modulo
}.

Definition card (questao : JSON) : Completion Card :=
  match alternativas questao with
  | Normal alts =>
      match array_map "questao.modulos_possiveis" (prop questao "modulos_possiveis")
                      modulo_item with
      | Normal ms =>
          Normal {| disciplina_nome := prop questao "disciplina_nome";
                    habilidade_descricao := prop questao "habilidade_descricao";
                    id := prop questao "id";
                    enunciado := or_val (prop questao "enunciado_html")
                                        (prop questao "enunciado");
                    alternativas_listed := alts;
                    modulos := ms |}
      | Abrupt e => Abrupt e
      end
  | Abrupt e => Abrupt e
  end.

(** What the page shows below the filter bar in state [s]. *)
Definition render (s : Classificar.State) : Completion (Review.Screen Card) :=
  Review.screen (Classificar.loading s) (Classificar.error s) (Classificar.questao s) card.

End ClassificarCard.
End ClassificarCard.

(** ** Further sample worlds *)


Module Scene.

(** A parser that knows the documents [known], by their text. *)
Definition parser (known : list JSON) (text : string) : Completion JSON :=
  match find (fun v => (JSON_text v =? text)%string) known with
  | Some v => Normal v
  | None => Abrupt (mkError "SyntaxError" "Unexpected token")
  end.

(** A browser tab holding [items] in its storage, nothing sent yet. *)
Definition world {S : Type} (s : S) (items : list (string * string)) (known : list JSON)
  : World S :=
  {| page := s;
     process_env := fun _ => None;
     window := Some (Sample.browser items);
     JSON_parse := parser known;
     alerts := []; console := []; sent := []; waiting := []; unhandled := [] |}.

(** The same code run by the server: no [window]. *)
Definition server {S : Type} (s : S) : World S :=
  {| page := s;
     process_env := fun _ => None;
     window := None;
     JSON_parse := parser [];
     alerts := []; console := []; sent := []; waiting := []; unhandled := [] |}.

Definition ana : JSON :=
  JObj [("id", JNum 1); ("nome", JStr "Ana"); ("email", JStr "ana@escola.br");
        ("disciplina", JStr "Exatas"); ("is_admin", JBool false); ("ativo", JBool true)].

(** The answer of [/login] and of [/cadastro]. *)
Definition welcome : Response :=
  {| status := 200;
     json := Normal (JObj [("access_token", JStr "abc"); ("usuario", ana)]) |}.

Definition denied : Response :=
  {| status := 400; json := Normal (JObj [("detail", JStr "Email ou senha incorretos")]) |}.

End Scene.

(** ** The characters of a query string *)

(** What the serializer writes for the bytes of a name or a value: the
    unreserved characters, [+] for a space, and [%XX]. *)
Definition encoded_char (c : ascii) : bool :=
  let n := N_of_ascii c in
  ((48 <=? n) && (n <=? 57) || (65 <=? n) && (n <=? 90) || (97 <=? n) && (n <=? 122)
   || (n =? 42) || (n =? 45) || (n =? 46) || (n =? 95) || (n =? 43) || (n =? 37))%N.

(** Those, and the separators [=] and [&]. *)
Definition query_char (c : ascii) : bool :=
  encoded_char c || (N_of_ascii c =? 61)%N || (N_of_ascii c =? 38)%N.

Fixpoint all_chars (p : ascii -> bool) (s : string) : bool :=
  match s with
  | EmptyString => true
  | String c rest => p c && all_chars p rest
  end.

(** * Properties *)

(** ** Evaluation of the combinators *)

Section Calculus.
Context {S : Type}.

Lemma eval_bind {A B : Type} (p : Async S A) (f : A -> Async S B) (w : World S) :
  eval (bind p f) w =
  match eval p w with
  | (Returned a, w1) => eval (f a) w1
  | (Threw e, w1) => (Threw e, w1)
  | (Suspended rq k, w1) => (Suspended rq (fun r => bind (k r) f), w1)
  end.
Proof.
  revert B f w.
  induction p as [A a|A e|A X c k IH|A rq k IH|A q IHq k IH]; intros B f w; cbn.
  - reflexivity.
  - reflexivity.
  - destruct (exec c w) as [x w1]. apply IH.
  - reflexivity.
  - apply IH.
Qed.

Lemma eval_try_catch {A : Type} (p : Async S A) (h : JsError -> Async S A) (w : World S) :
  eval (try_catch p h) w =
  match eval p w with
  | (Returned a, w1) => (Returned a, w1)
  | (Threw e, w1) => eval (h e) w1
  | (Suspended rq k, w1) => (Suspended rq (fun r => try_catch (k r) h), w1)
  end.
Proof.
  revert h w.
  induction p as [A a|A e|A X c k IH|A rq k IH|A q IHq k IH]; intros h w; cbn.
  - reflexivity.
  - reflexivity.
  - destruct (exec c w) as [x w1]. apply IH.
  - reflexivity.
  - apply IH.
Qed.

Lemma eval_try_finally {A : Type} (p : Async S A) (final : Async S unit) (w : World S) :
  eval (try_finally p final) w =
  match eval p w with
  | (Returned a, w1) => eval (bind final (fun _ => Ret a)) w1
  | (Threw e, w1) => eval (bind final (fun _ => Throw e)) w1
  | (Suspended rq k, w1) => (Suspended rq (fun r => try_finally (k r) final), w1)
  end.
Proof.
  revert final w.
  induction p as [A a|A e|A X c k IH|A rq k IH|A q IHq k IH]; intros final w; cbn.
  - reflexivity.
  - reflexivity.
  - destruct (exec c w) as [x w1]. apply IH.
  - reflexivity.
  - apply IH.
Qed.

Lemma run_eval (p : Async S unit) (w : World S) :
  run p w =
  match eval p w with
  | (Returned _, w1) => w1
  | (Threw e, w1) => with_unhandled e w1
  | (Suspended rq k, w1) => with_request rq k w1
  end.
Proof.
  revert p w. fix IH 1. intros [a|e|X c k|rq k|q k] w; cbn.
  - reflexivity.
  - reflexivity.
  - destruct (exec c w) as [x w1]. apply IH.
  - reflexivity.
  - apply IH.
Qed.

(** The request issued last is the first in line: settling it resumes its
    continuation in the world as it is by then. *)
Lemma settle_latest (rq : Request) (k : FetchResult -> Async S unit) (w : World S)
      (later : S) (r : FetchResult) :
  settle (List.length (sent w)) r (with_page later (with_request rq k w))
  = run (k r) (with_waiting (waiting w) (with_page later (with_request rq k w))).
Proof.
  unfold settle. cbn [waiting with_page with_request take_waiting].
  rewrite Nat.eqb_refl. reflexivity.
Qed.

End Calculus.

Lemma get_not_null (v : JSON) (key : string) : v <> JNull -> get v key = Normal (prop v key).
Proof. destruct v; intros H; try reflexivity. contradiction. Qed.

Lemma truthy_not_null (v : JSON) : truthy v = true -> v <> JNull.
Proof. intros H ->. discriminate. Qed.

(** ** Session store *)

(** C10: reading the stored profile never throws; with no entry, or with an
    entry the parser rejects, [getUsuario] returns [null]. *)
Theorem getUsuario_never_throws {S : Type} (w : World S) :
  (exists v, eval Auth.getUsuario w = (Returned v, w)) /\
  (stored w "usuario" = None -> eval Auth.getUsuario w = (Returned JNull, w)) /\
  (forall text e, stored w "usuario" = Some text -> JSON_parse w text = Abrupt e ->
                eval Auth.getUsuario w = (Returned JNull, w)).
Proof.
  unfold stored. destruct w as [pg env win parse al co se wa un]; cbn.
  destruct win as [b|]; cbn.
  - destruct (localStorage b !! "usuario") as [text|] eqn:E; cbn.
    + destruct (truthy_str text) eqn:T; cbn.
      * destruct (parse text) as [v|] eqn:P; cbn.
        -- split; [eauto|]. split; [discriminate|].
           intros t e Ht Hp. injection Ht as <-. congruence.
        -- split; [eauto|]. split; [discriminate|]. reflexivity.
      * split; [eauto|]. split; [discriminate|]. reflexivity.
    + split; [eauto|]. split; reflexivity.
  - split; [eauto|]. split; reflexivity.
Qed.

Lemma getUsuario_never_throws_witness :
  eval Auth.getUsuario (Sample.world tt [("usuario", "{oops")])
  = (Returned JNull, Sample.world tt [("usuario", "{oops")]).
Proof.
  apply (proj2 (proj2 (getUsuario_never_throws (Sample.world tt [("usuario", "{oops")])))
           "{oops" (mkError "SyntaxError" "Unexpected token")); reflexivity.
Defined.

(** [clearAuth] removes the session, and [isAuthenticated] is the truth
    value of the stored token. *)
Lemma clearAuth_clears {S : Type} (w : World S) (b : Browser) :
  window w = Some b ->
  eval Auth.clearAuth w
  = (Returned tt,
     with_window (Some {| localStorage := delete "usuario" (delete "token" (localStorage b));
                          location_href := location_href b |}) w).
Proof.
  destruct w as [pg env win parse al co se wa un]. cbn. intros ->. reflexivity.
Qed.

Lemma isAuthenticated_token {S : Type} (w : World S) :
  eval Auth.isAuthenticated w
  = (Returned (match stored w "token" with Some t => truthy_str t | None => false end), w).
Proof.
  destruct w as [pg env win parse al co se wa un]. destruct win as [b|]; reflexivity.
Qed.

(** ** API gateway client *)

Lemma eval_apiRequest {S : Type} (endpoint : string) (options : RequestInit) (w : World S) :
  exists k,
    eval (Api.apiRequest endpoint options) w
    = (Suspended (Api.request_for w endpoint options) k, w) /\
    forall r, k r = Api.settled r.
Proof.
  destruct w as [pg env win parse al co se wa un].
  destruct win as [b|]; cbn; eexists; (split; [reflexivity|]); intros r; reflexivity.
Qed.

Lemma eval_settled_ok {S : Type} (resp : Response) (v : JSON) (w : World S) :
  ok resp = true -> json resp = Normal v ->
  eval (Api.settled (Resolved resp)) w = (Returned v, w).
Proof.
  intros Hok Hv. destruct resp as [st js]. cbn in Hv. subst js.
  unfold ok in Hok. cbn [status] in Hok.
  assert (E : (st =? 401) = false) by (apply Z.eqb_neq; lia).
  unfold Api.settled, Api.apiRequest_response, ok. cbn [bind status json].
  rewrite E, Hok. reflexivity.
Qed.

(** The gateway touches nothing of the world but the browser's session, and
    never issues a second request. *)
Lemma eval_settled_frame {S : Type} (r : FetchResult) (w : World S) :
  let after := eval (Api.settled r) w in
  requested (fst after) = None /\
  exists win, snd after = with_window win w.
Proof.
  destruct w as [pg env win parse al co se wa un].
  destruct r as [e|[st js]]; cbn.
  - split; [reflexivity|]. exists win. reflexivity.
  - unfold Api.settled, Api.apiRequest_response, ok. cbn [bind status json].
    destruct (st =? 401); destruct win as [b|]; cbn;
      destruct (negb ((200 <=? st) && (st <=? 299))); cbn;
      destruct js as [[ | | | | | ]|]; cbn; (split; [reflexivity|]); eexists; reflexivity.
Qed.

(** The error a settlement is rejected with does not depend on the world. *)
Lemma eval_settled_outcome {S T : Type} (r : FetchResult) (w : World S) (w' : World T)
      (e : JsError) :
  fst (eval (Api.settled r) w) = Threw e -> fst (eval (Api.settled r) w') = Threw e.
Proof.
  destruct w as [pg env win parse al co se wa un].
  destruct w' as [pg' env' win' parse' al' co' se' wa' un'].
  destruct r as [e0|[st js]]; cbn.
  - congruence.
  - unfold Api.settled, Api.apiRequest_response, ok. cbn [bind status json].
    destruct (st =? 401); destruct win as [b|]; destruct win' as [b'|]; cbn;
      destruct (negb ((200 <=? st) && (st <=? 299))); cbn;
      destruct js as [[ | | | | | ]|]; cbn; congruence.
Qed.

Lemma eval_apiRequest_response {S : Type} (resp : Response) (w : World S) (b : Browser) :
  window w = Some b ->
  let after := eval (Api.apiRequest_response resp) w in
  requested (fst after) = None /\
  (status resp = 401 -> snd after = with_window (Some (Api.logged_out b)) w) /\
  (status resp <> 401 -> snd after = w) /\
  (ok resp = false -> forall e, json resp = Abrupt e ->
   fst after = Threw (Error "Erro na requisição")) /\
  (ok resp = false -> forall v d, json resp = Normal v -> get v "detail" = Normal (Some d) ->
   truthy d = true -> fst after = Threw (Error (ToString d))) /\
  (ok resp = false -> forall v d, json resp = Normal v -> get v "detail" = Normal d ->
   truthy_val d = false -> fst after = Threw (Error "Erro na requisição")) /\
  (ok resp = true ->
   fst after = match json resp with
               | Normal v => Returned v
               | Abrupt e => Threw e
               end).
Proof.
  intros Hb after. subst after.
  destruct w as [pg env win parse al co se wa un]. cbn in Hb. subst win.
  destruct resp as [st js]. unfold Api.apiRequest_response, ok. cbn [status json].
  assert (Hcases : (st =? 401) = true /\ (200 <=? st) && (st <=? 299) = false
                   \/ (st =? 401) = false).
  { destruct (st =? 401) eqn:E; [left|right]; [|reflexivity].
    apply Z.eqb_eq in E. subst st. split; reflexivity. }
  destruct Hcases as [[E401 Eok]|E401]; rewrite E401; [rewrite Eok|];
    [apply Z.eqb_eq in E401 | apply Z.eqb_neq in E401;
                               destruct ((200 <=? st) && (st <=? 299)) eqn:Eok].
  all: destruct js as [v|]; [destruct v as [ |bb|n|str|items|fields]|]; cbn.
  all: repeat match goal with |- _ /\ _ => split end.
  all: try reflexivity; try (intros; congruence); try (intros; discriminate).
  all: try (intros _ v d Hv Hd Ht; injection Hv as <-; cbn in Hd; try discriminate;
            injection Hd as Hd; try discriminate; subst;
            try rewrite Hd; cbn in *; try rewrite Ht; reflexivity).
  all: intros _ v d Hv Hd Ht; injection Hv as <-; cbn in Hd; injection Hd as <-;
    destruct (own "detail" fields) as [d0|]; cbn in *; try rewrite Ht; reflexivity.
Qed.

(** C2, as amended: in a browser, a 401 removes the stored token and user
    and sends the tab to the login page; whatever the status, the call ends
    with the answer and issues no further request.  A status outside 200-299
    (401 included) rejects with an [Error]: its message is the string form of
    the body's [detail] when the body is a JSON value, not [null], with a
    truthy [detail], and the generic message when the body is not JSON or is
    such a value with its [detail] missing or falsy.  A status in 200-299
    returns the parsed body (and rejects when the body does not parse). *)
Theorem apiRequest_settles {S : Type} (endpoint : string) (options : RequestInit)
        (w w' : World S) (b : Browser) (resp : Response) :
  window w' = Some b ->
  let called := eval (Api.apiRequest endpoint options) w in
  let after := resume (fst called) (Resolved resp) w' in
  snd called = w /\
  requested (fst called) = Some (Api.request_for w endpoint options) /\
  requested (fst after) = None /\
  (status resp = 401 -> snd after = with_window (Some (Api.logged_out b)) w') /\
  (status resp <> 401 -> snd after = w') /\
  (ok resp = false -> forall e, json resp = Abrupt e ->
   fst after = Threw (Error "Erro na requisição")) /\
  (ok resp = false -> forall v d, json resp = Normal v -> get v "detail" = Normal (Some d) ->
   truthy d = true -> fst after = Threw (Error (ToString d))) /\
  (ok resp = false -> forall v d, json resp = Normal v -> get v "detail" = Normal d ->
   truthy_val d = false -> fst after = Threw (Error "Erro na requisição")) /\
  (ok resp = true ->
   fst after = match json resp with
               | Normal v => Returned v
               | Abrupt e => Threw e
               end).
Proof.
  intros Hb called after. subst called after.
  destruct (eval_apiRequest endpoint options w) as (k & -> & Hk).
  cbn [fst snd requested resume]. rewrite (Hk (Resolved resp)).
  split; [reflexivity|]. split; [reflexivity|].
  exact (eval_apiRequest_response resp w' b Hb).
Qed.

Lemma apiRequest_settles_witness :
  let w := Sample.world tt Sample.session in
  let after := resume (fst (eval (Api.apiRequest "/salvar" no_options) w))
                      (Resolved Sample.expired) w in
  snd after = with_window (Some (Api.logged_out (Sample.browser Sample.session))) w /\
  fst after = Threw (Error "Token inválido").
Proof.
  intros w after.
  destruct (apiRequest_settles "/salvar" no_options w w (Sample.browser Sample.session)
              Sample.expired eq_refl)
    as (_ & _ & _ & H401 & _ & _ & Hdetail & _).
  split.
  - apply H401. reflexivity.
  - apply (Hdetail eq_refl _ _ eq_refl eq_refl eq_refl).
Defined.

(** C2, as stated, fails where the body carries a [detail] that is falsy:
    the answer 400 [{"detail": ""}] has the field, and the error raised
    carries the generic message, not the field. *)
Lemma apiRequest_empty_detail :
  let w := Sample.world tt Sample.session in
  let resp := {| status := 400; json := Normal (JObj [("detail", JStr "")]) |} in
  let after := resume (fst (eval (Api.apiRequest "/salvar" no_options) w)) (Resolved resp) w in
  ok resp = false /\
  get (JObj [("detail", JStr "")]) "detail" = Normal (Some (JStr "")) /\
  fst after = Threw (Error "Erro na requisição") /\
  fst after <> Threw (Error (ToString (JStr ""))).
Proof.
  cbn. repeat split. discriminate.
Qed.

(** A body that is the JSON value [null] is the one case the statement above
    leaves out: reading [detail] of it throws. *)
Example apiRequest_null_body :
  let w := Sample.world tt Sample.session in
  fst (resume (fst (eval (Api.apiRequest "/salvar" no_options) w))
              (Resolved {| status := 500; json := Normal JNull |}) w)
  = Threw (TypeError "Cannot read properties of null (reading 'detail')").
Proof. reflexivity. Qed.

(** ** Filter selector *)

Module FilterBarFacts.
Import FilterBar.

Lemma own_in_keys {A : Type} (d : string) (m : list (string * A)) (v : A) :
  own d m = Some v -> In d (map fst m).
Proof.
  induction m as [|[k x] m IH]; cbn; [discriminate|].
  destruct (k =? d)%string eqn:E.
  - apply String.eqb_eq in E. auto.
  - auto.
Qed.

Lemma includes_In (d : string) (discs : list string) :
  includes d discs = true <-> In d discs.
Proof.
  induction discs as [|x l IH]; cbn; [split; [discriminate|tauto]|].
  rewrite orb_true_iff, IH, String.eqb_eq. tauto.
Qed.

(** [scan] finds the first entry, in iteration order, whose list has the
    value. *)
Lemma scan_first (d : string) (areas : Mapping) (a : string) :
  scan d areas = Some a <->
  exists before discs after,
    areas = (before ++ (a, discs) :: after)%list /\
    includes d discs = true /\
    forall entry, In entry before -> includes d (snd entry) = false.
Proof.
  revert a. induction areas as [|[k l] m IH]; intros a; cbn.
  - split; [discriminate|]. intros (before & discs & after & H & _).
    destruct before; discriminate.
  - destruct (includes d l) eqn:E.
    + split.
      * intros [= <-]. exists [], l, m. repeat split; auto. intros ? [].
      * intros (before & discs & after & H & Hin & Hnot).
        destruct before as [|e before]; cbn in H.
        -- injection H as <- <- <-. reflexivity.
        -- injection H as <- _. specialize (Hnot (k, l) (or_introl eq_refl)).
           cbn in Hnot. congruence.
    + rewrite IH. split.
      * intros (before & discs & after & -> & Hin & Hnot).
        exists ((k, l) :: before), discs, after. repeat split; auto.
        intros entry [<-|H]; auto.
      * intros (before & discs & after & H & Hin & Hnot).
        destruct before as [|e before]; cbn in H.
        -- injection H as <- <- <-. congruence.
        -- injection H as <- ->. exists before, discs, after. repeat split; auto.
           intros entry He. apply Hnot. right. exact He.
Qed.

(** [areas[d]], by cases. *)
Lemma member_cases (d : string) (areas : Mapping) :
  (exists discs, own d areas = Some discs /\ member d areas = Entry discs) \/
  (own d areas = None /\ inherited d = true /\ member d areas = Inherited) \/
  (own d areas = None /\ inherited d = false /\ member d areas = Undefined).
Proof.
  unfold member. destruct (own d areas) as [discs|]; [left; eauto|].
  destruct (inherited d); auto.
Qed.

Lemma scan_in_keys (d : string) (areas : Mapping) (a : string) :
  scan d areas = Some a -> In a (keys areas).
Proof.
  rewrite scan_first. intros (before & discs & after & -> & _).
  unfold keys. rewrite map_app. apply in_or_app. right. left. reflexivity.
Qed.

(** The area selected is a key of the mapping, unless the stored value is
    no key and names an inherited member. *)
Lemma resolve_in_keys (d : string) (areas : Mapping) (a : string) :
  resolve d areas = Some a -> member d areas <> Inherited -> In a (keys areas).
Proof.
  unfold resolve.
  destruct (member_cases d areas) as [(discs & Ho & ->)|[(_ & _ & ->)|(_ & _ & ->)]]; cbn.
  - intros [= <-] _. eapply own_in_keys; eauto.
  - intros _ H. contradiction.
  - intros H _. eapply scan_in_keys; eauto.
Qed.


Lemma loadFilters_resolve (u : Usuario) (areas : Mapping) (s : State) :
  truthy_str (disciplina u) = true ->
  loadFilters (Some u) areas s =
  match resolve (disciplina u) areas with
  | Some a => setArea a (setAreasMapping areas s)
  | None => setAreasMapping areas s
  end.
Proof.
  intros H. unfold loadFilters, resolve. rewrite H.
  destruct (truthy_member (member (disciplina u) areas)); reflexivity.
Qed.

Lemma loadFilters_disciplinaId (usuario : option Usuario) (areas : Mapping) (s : State) :
  disciplinaId (loadFilters usuario areas s) = disciplinaId s.
Proof.
  unfold loadFilters. destruct usuario as [u|]; [|reflexivity].
  destruct (truthy_str (disciplina u)); [|reflexivity].
  destruct (truthy_member (member (disciplina u) areas)); [reflexivity|].
  destruct (scan (disciplina u) areas); reflexivity.
Qed.

(** What every enabled step keeps, every run keeps. *)
Lemma play_invariant (usuario : option Usuario) (P : Component -> Prop) :
  (forall c e, P c -> enabled usuario c e = true -> P (handle usuario e c)) ->
  forall events c c', P c -> play usuario events c = Some c' -> P c'.
Proof.
  intros Hstep events. induction events as [|e rest IH]; intros c c' Hc; cbn.
  - intros [= <-]. exact Hc.
  - destruct (enabled usuario c e) eqn:E; [|discriminate].
    apply IH. apply Hstep; assumption.
Qed.

Lemma offers_In (options : list Option) (val : string) :
  offers options val = true -> In val (map value options).
Proof.
  unfold offers. rewrite existsb_exists. intros (o & Ho & E).
  apply String.eqb_eq in E. subst. apply in_map. exact Ho.
Qed.

Lemma consistent_mount : consistent mount.
Proof. split; [reflexivity|]. left. reflexivity. Qed.

Lemma consistent_step (usuario : option Usuario) (c : Component) (e : Event) :
  consistent c -> enabled usuario c e = true -> consistent (handle usuario e c).
Proof.
  intros [Hinit Hin] He. destruct e as [areas|err|val|val]; cbn in He |- *.
  - split; cbn; [discriminate|]. left.
    rewrite loadFilters_disciplinaId, (Hinit He). reflexivity.
  - split; cbn; [discriminate|]. exact Hin.
  - destruct (loading_filters c) eqn:L.
    + rewrite (Hinit eq_refl) in He. cbn in He. discriminate.
    + split; cbn; [discriminate|].
      unfold onAreaChange. destruct (unrestricted usuario); [|exact Hin].
      left. reflexivity.
  - destruct (loading_filters c) eqn:L.
    + rewrite (Hinit eq_refl) in He. cbn in He. discriminate.
    + split; cbn; [discriminate|].
      right. unfold disciplinaOptions in He.
      destruct (disciplinasDaArea (state c)) as [discs| |] eqn:E; try discriminate.
      exists discs. split; [exact E|].
      apply offers_In in He. rewrite map_map in He. cbn in He. rewrite map_id in He.
      exact He.
Qed.

Lemma reachable_consistent (usuario : option Usuario) (c : Component) :
  reachable usuario c -> consistent c.
Proof.
  intros [events H].
  exact (play_invariant usuario consistent (consistent_step usuario) events mount c
           consistent_mount H).
Qed.

End FilterBarFacts.

Module SelectionFacts.
Import FilterBar.

Lemma own_none_keys {A : Type} (d : string) (m : list (string * A)) :
  own d m = None <-> ~ In d (map fst m).
Proof.
  induction m as [|[k x] m IH]; cbn; [tauto|].
  destruct (k =? d)%string eqn:E.
  - apply String.eqb_eq in E. split; [discriminate|]. intros H. exfalso. auto.
  - apply String.eqb_neq in E. rewrite IH. tauto.
Qed.



Lemma member_undefined (d : string) (areas : Mapping) :
  ~ In d (keys areas) -> inherited d = false -> member d areas = Undefined.
Proof.
  intros Hk Hi. unfold member. apply own_none_keys in Hk. rewrite Hk, Hi. reflexivity.
Qed.


(** What such a user is offered: the keys equal to the selected area. *)
Lemma restricted_options (u : Usuario) (s : State) :
  is_admin u = false ->
  truthy_str (disciplina u) = true ->
  areaOptions (Some u) s
  = map option_of (filter (fun a => (a =? area s)%string) (keys (areasMapping s))).
Proof.
  intros Hadm Hd. unfold areaOptions, unrestricted. rewrite Hd, Hadm. reflexivity.
Qed.

Lemma filter_eqb_absent (a : string) (l : list string) :
  ~ In a l -> filter (fun x => (x =? a)%string) l = [].
Proof.
  induction l as [|x l IH]; cbn; [reflexivity|]. intros H.
  destruct (x =? a)%string eqn:E.
  - apply String.eqb_eq in E. exfalso. auto.
  - apply IH. tauto.
Qed.



Lemma resolve_scan (d : string) (areas : Mapping) :
  ~ In d (keys areas) -> inherited d = false -> resolve d areas = scan d areas.
Proof.
  intros Hk Hi. unfold resolve. rewrite member_undefined by assumption. reflexivity.
Qed.


Lemma scan_absent (d : string) (areas : Mapping) :
  (forall entry, In entry areas -> ~ In d (snd entry)) -> scan d areas = None.
Proof.
  induction areas as [|[k l] m IH]; cbn; [reflexivity|]. intros H.
  destruct (includes d l) eqn:E.
  - apply FilterBarFacts.includes_In in E. exfalso. exact (H (k, l) (or_introl eq_refl) E).
  - apply IH. intros entry He. apply H. right. exact He.
Qed.

End SelectionFacts.




(** C4: a step of the filter selector that changes the selected area leaves
    the discipline empty; so every step keeps the selected discipline, when
    there is one, among the disciplines of the selected area, and it is so
    in every state the component reaches. *)
Theorem area_change_resets_discipline (usuario : option FilterBar.Usuario)
        (c : FilterBar.Component) (e : FilterBar.Event) :
  FilterBar.reachable usuario c ->
  FilterBar.enabled usuario c e = true ->
  let c' := FilterBar.handle usuario e c in
  (FilterBar.area (FilterBar.state c') <> FilterBar.area (FilterBar.state c) ->
   FilterBar.disciplinaId (FilterBar.state c') = "") /\
  (FilterBar.discipline_in_area (FilterBar.state c) ->
   FilterBar.discipline_in_area (FilterBar.state c')) /\
  FilterBar.discipline_in_area (FilterBar.state c) /\
  FilterBar.discipline_in_area (FilterBar.state c').
Proof.
  intros Hr He c'. pose proof (FilterBarFacts.reachable_consistent usuario c Hr) as Hc.
  pose proof (FilterBarFacts.consistent_step usuario c e Hc He) as [_ Hc'].
  split; [|split; [intros _; exact Hc'|split; [exact (proj2 Hc)|exact Hc']]].
  subst c'. destruct Hc as [Hinit _].
  destruct e as [areas|err|val|val]; cbn in He |- *.
  - intros _. rewrite FilterBarFacts.loadFilters_disciplinaId, (Hinit He). reflexivity.
  - intros H. contradiction.
  - unfold FilterBar.onAreaChange. destruct (FilterBar.unrestricted usuario); [reflexivity|].
    intros H. contradiction.
  - intros H. contradiction.
Qed.

Lemma area_change_resets_discipline_witness :
  let admin := {| FilterBar.id := 3; FilterBar.nome := "Lia"; FilterBar.email := "lia@escola.br";
                  FilterBar.disciplina := ""; FilterBar.is_admin := true;
                  FilterBar.ativo := true |} in
  let areas := [("Exatas", ["Matemática"; "Física"]); ("Humanas", ["História"])] in
  let c := {| FilterBar.state := {| FilterBar.area := "Exatas";
                                    FilterBar.disciplinaId := "Física";
                                    FilterBar.areasMapping := areas |};
              FilterBar.loading_filters := false |} in
  FilterBar.disciplinaId
    (FilterBar.state (FilterBar.handle (Some admin) (FilterBar.AreaPicked "Humanas") c)) = "".
Proof.
  intros admin areas c.
  assert (Hr : FilterBar.reachable (Some admin) c).
  { exists [FilterBar.Loaded areas; FilterBar.AreaPicked "Exatas";
            FilterBar.DisciplinaPicked "Física"]. reflexivity. }
  apply (proj1 (area_change_resets_discipline (Some admin) c
                  (FilterBar.AreaPicked "Humanas") Hr eq_refl)).
  discriminate.
Defined.

(** C8: with the mapping {"Exatas": ["Matemática", "Física"]} and a user,
    no administrator, whose stored value is "Matemática", the value is no
    key of the mapping and names no inherited member, the scan finds it
    under "Exatas", the selected area is "Exatas", the one area offered is
    "Exatas", and the discipline options are "Matemática", "Física" in that
    order, each with its name as value and as label. *)
Theorem legacy_area_scenario (u : FilterBar.Usuario) :
  FilterBar.disciplina u = "Matemática" ->
  FilterBar.is_admin u = false ->
  let s := FilterBar.loadFilters (Some u) Sample.exatas FilterBar.initial in
  Sample.exatas = [("Exatas", ["Matemática"; "Física"])] /\
  FilterBar.member "Matemática" Sample.exatas = FilterBar.Undefined /\
  FilterBar.scan "Matemática" Sample.exatas = Some "Exatas" /\
  FilterBar.area s = "Exatas" /\
  FilterBar.disciplinaId s = "" /\
  FilterBar.areaOptions (Some u) s
  = [{| FilterBar.value := "Exatas"; FilterBar.label := "Exatas" |}] /\
  FilterBar.disciplinaOptions s
  = Normal [{| FilterBar.value := "Matemática"; FilterBar.label := "Matemática" |};
            {| FilterBar.value := "Física"; FilterBar.label := "Física" |}].
Proof.
  intros Hd Hadm s. subst s.
  unfold FilterBar.areaOptions, FilterBar.unrestricted, FilterBar.loadFilters.
  rewrite Hd, Hadm. cbn. repeat split.
Qed.

Lemma legacy_area_scenario_witness :
  FilterBar.disciplinaOptions
    (FilterBar.loadFilters (Some Sample.professora) Sample.exatas FilterBar.initial)
  = Normal [{| FilterBar.value := "Matemática"; FilterBar.label := "Matemática" |};
            {| FilterBar.value := "Física"; FilterBar.label := "Física" |}].
Proof.
  apply (legacy_area_scenario Sample.professora eq_refl eq_refl).
Defined.

(** ** Classification page *)

Module ClassificarFacts.
Import Classificar.

(** The query string, by cases. *)
Lemma classificar_params_cases (a d : string) :
  params (Some a) (Some d)
  = if (a =? "")%string then
      if (d =? "")%string then ""
      else "?disciplina_id=" ++ form_encode d
    else
      if (d =? "")%string then "?area=" ++ form_encode a
      else "?area=" ++ form_encode a ++ String "&" ("disciplina_id=" ++ form_encode d).
Proof.
  unfold params, query, append_if, truthy_str.
  destruct (a =? "")%string, (d =? "")%string; reflexivity.
Qed.

Lemma classificar_fetchProxima (a d : option string) (w : World State) :
  run (fetchProxima a d) w
  = with_request (Api.request_for w ("/proxima" ++ params a d) no_options)
                 fetchProxima_settled
                 (with_page (refetching (page w)) w).
Proof.
  destruct w as [pg env win parse al co se wa un].
  destruct win as [b|]; reflexivity.
Qed.

Lemma classificar_handleSalvar (s : State) (w : World State) :
  truthy (moduloSelecionado s) = true -> questao s <> JNull ->
  run (handleSalvar s) w
  = with_request
      (Api.request_for w "/salvar"
         (post (classificacao_nova (questao s) (moduloSelecionado s) (observacao s))))
      (handleSalvar_settled s)
      (with_page (setSaving true (page w)) w).
Proof.
  intros Hm Hq. unfold handleSalvar. rewrite Hm. cbn [negb].
  rewrite !get_not_null by auto using truthy_not_null.
  destruct w as [pg env win parse al co se wa un].
  destruct win as [b|]; reflexivity.
Qed.

Lemma classificar_saved (s : State) (resp : Response) (v : JSON) (w : World State) :
  ok resp = true -> json resp = Normal v ->
  run (handleSalvar_settled s (Resolved resp)) w
  = with_page (setSaving false (refetching (page w)))
      (with_request
         (Api.request_for w
            ("/proxima" ++ params (Some (area s)) (Some (disciplinaFiltro s))) no_options)
         fetchProxima_settled w).
Proof.
  intros Hok Hv. unfold handleSalvar_settled.
  rewrite run_eval, eval_try_finally, eval_try_catch, eval_bind.
  rewrite (eval_settled_ok resp v w Hok Hv).
  cbn [eval]. rewrite classificar_fetchProxima.
  destruct w as [pg env win parse al co se wa un]. reflexivity.
Qed.

Lemma classificar_not_saved (s : State) (r : FetchResult) (err : JsError) (w : World State) :
  fst (eval (Api.settled r) w) = Threw err ->
  let w' := run (handleSalvar_settled s r) w in
  page w' = setSaving false (page w) /\
  alerts w' = (alerts w ++ [message err])%list /\
  sent w' = sent w /\
  waiting w' = waiting w.
Proof.
  intros Herr w'. subst w'. unfold handleSalvar_settled.
  rewrite run_eval, eval_try_finally, eval_try_catch, eval_bind.
  destruct (eval_settled_frame r w) as [_ [win Hw]].
  destruct (eval (Api.settled r) w) as [o wf]. cbn in Herr, Hw. subst o wf.
  destruct w as [pg env win0 parse al co se wa un]. cbn. repeat split.
Qed.

(** The answer to [fetchProxima]: the question is held, or the failure's
    message is; either way the page stops loading. *)
Lemma classificar_question_arrives (resp : Response) (data : JSON) (w : World State) :
  ok resp = true -> json resp = Normal data ->
  run (fetchProxima_settled (Resolved resp)) w
  = with_page (setLoading false (setQuestao data (page w))) w.
Proof.
  intros Hok Hv. unfold fetchProxima_settled.
  rewrite run_eval, eval_try_finally, eval_try_catch, eval_bind.
  rewrite (eval_settled_ok resp data w Hok Hv).
  destruct w as [pg env win parse al co se wa un]. reflexivity.
Qed.

Lemma classificar_no_question (r : FetchResult) (err : JsError) (w : World State) :
  fst (eval (Api.settled r) w) = Threw err ->
  page (run (fetchProxima_settled r) w)
  = setLoading false
      (setError (str_or (message err) "Nenhuma questão encontrada com esses filtros.")
                (page w)).
Proof.
  intros Herr. unfold fetchProxima_settled.
  rewrite run_eval, eval_try_finally, eval_try_catch, eval_bind.
  destruct (eval_settled_frame r w) as [_ [win Hw]].
  destruct (eval (Api.settled r) w) as [o wf]. cbn in Herr, Hw. subst o wf.
  destruct w as [pg env win0 parse al co se wa un]. reflexivity.
Qed.

Lemma salvar_enabled_selected (s : State) :
  salvar_enabled s = true ->
  truthy (moduloSelecionado s) = true /\ questao s <> JNull /\ saving s = false.
Proof.
  unfold salvar_enabled, card_shown.
  destruct (loading s), (truthy_str (error s)), (truthy (questao s)) eqn:Hq,
    (truthy (moduloSelecionado s)), (saving s); cbn; try discriminate.
  intros _. repeat split. apply truthy_not_null. exact Hq.
Qed.

Lemma classificar_onMount (s : State) (w : World State) :
  run (onMount s) w = run (fetchProxima (Some (area s)) (Some (disciplinaFiltro s))) w.
Proof. reflexivity. Qed.

Lemma classificar_onFilterChange (s : State) (a d : string) (w : World State) :
  (a =? area s)%string && (d =? disciplinaFiltro s)%string = false ->
  run (onFilterChange s a d) w
  = run (fetchProxima (Some a) (Some d))
        (with_page (setDisciplinaFiltro d (setArea a (page w))) w).
Proof.
  intros H. unfold onFilterChange.
  destruct ((a =? area s)%string && (d =? disciplinaFiltro s)%string); [discriminate|].
  cbn [call bind run exec]. reflexivity.
Qed.

End ClassificarFacts.

(** ** Verification page *)

Module VerificarFacts.
Import Verificar.

Lemma verificar_params_cases (a d : string) :
  params (Some a) (Some d)
  = if (a =? "")%string then
      if (d =? "")%string then ""
      else "?disciplina_id=" ++ form_encode d
    else
      if (d =? "")%string then "?area=" ++ form_encode a
      else "?area=" ++ form_encode a ++ String "&" ("disciplina_id=" ++ form_encode d).
Proof.
  unfold params, query, append_if, truthy_str.
  destruct (a =? "")%string, (d =? "")%string; reflexivity.
Qed.

Lemma verificar_fetchProxima (a d : option string) (w : World State) :
  run (fetchProxima a d) w
  = with_request (Api.request_for w ("/proxima-low-match" ++ params a d) no_options)
                 fetchProxima_settled
                 (with_page (refetching (page w)) w).
Proof.
  destruct w as [pg env win parse al co se wa un].
  destruct win as [b|]; reflexivity.
Qed.

Lemma verificar_handleConfirmar (s : State) (w : World State) :
  questao s <> JNull ->
  run (handleConfirmar s) w
  = with_request
      (Api.request_for w "/salvar" (post (confirmacao (questao s) (observacao s))))
      (save_settled s)
      (with_page (setSaving true (page w)) w).
Proof.
  intros Hq. unfold handleConfirmar.
  rewrite !get_not_null by auto.
  destruct w as [pg env win parse al co se wa un].
  destruct win as [b|]; reflexivity.
Qed.

Lemma verificar_handleSalvarCorrecao (s : State) (w : World State) :
  truthy (moduloSelecionado s) = true -> questao s <> JNull ->
  run (handleSalvarCorrecao s) w
  = with_request
      (Api.request_for w "/salvar"
         (post (correcao (questao s) (moduloSelecionado s) (observacao s))))
      (save_settled s)
      (with_page (setSaving true (page w)) w).
Proof.
  intros Hm Hq. unfold handleSalvarCorrecao. rewrite Hm. cbn [negb].
  rewrite !get_not_null by auto using truthy_not_null.
  destruct w as [pg env win parse al co se wa un].
  destruct win as [b|]; reflexivity.
Qed.

Lemma verificar_saved (s : State) (resp : Response) (v : JSON) (w : World State) :
  ok resp = true -> json resp = Normal v ->
  run (save_settled s (Resolved resp)) w
  = with_page (setSaving false (refetching (page w)))
      (with_request
         (Api.request_for w
            ("/proxima-low-match" ++ params (Some (area s)) (Some (disciplinaFiltro s)))
            no_options)
         fetchProxima_settled w).
Proof.
  intros Hok Hv. unfold save_settled.
  rewrite run_eval, eval_try_finally, eval_try_catch, eval_bind.
  rewrite (eval_settled_ok resp v w Hok Hv).
  cbn [eval]. rewrite verificar_fetchProxima.
  destruct w as [pg env win parse al co se wa un]. reflexivity.
Qed.

Lemma verificar_not_saved (s : State) (r : FetchResult) (err : JsError) (w : World State) :
  fst (eval (Api.settled r) w) = Threw err ->
  let w' := run (save_settled s r) w in
  page w' = setSaving false (page w) /\
  alerts w' = (alerts w ++ [message err])%list /\
  sent w' = sent w /\
  waiting w' = waiting w.
Proof.
  intros Herr w'. subst w'. unfold save_settled.
  rewrite run_eval, eval_try_finally, eval_try_catch, eval_bind.
  destruct (eval_settled_frame r w) as [_ [win Hw]].
  destruct (eval (Api.settled r) w) as [o wf]. cbn in Herr, Hw. subst o wf.
  destruct w as [pg env win0 parse al co se wa un]. cbn. repeat split.
Qed.

Lemma confirmar_enabled_questao (s : State) :
  confirmar_enabled s = true -> questao s <> JNull.
Proof.
  unfold confirmar_enabled, card_shown. rewrite !andb_true_iff.
  intros [[[_ H] _] _]. apply truthy_not_null. exact H.
Qed.

Lemma salvar_correcao_enabled_selected (s : State) :
  salvar_correcao_enabled s = true ->
  truthy (moduloSelecionado s) = true /\ questao s <> JNull /\ saving s = false.
Proof.
  unfold salvar_correcao_enabled, card_shown.
  destruct (loading s), (truthy_str (error s)), (truthy (questao s)) eqn:Hq,
    (isCorrecting s), (truthy (moduloSelecionado s)), (saving s); cbn; try discriminate.
  intros _. repeat split. apply truthy_not_null. exact Hq.
Qed.

(** "Voltar" and "Não, quero corrigir" switch the mode and nothing else:
    the observation stays and nothing is sent. *)
Lemma verificar_mode_switch (w : World State) :
  run onVoltar w = with_page (setIsCorrecting false (page w)) w /\
  run onCorrigir w = with_page (setIsCorrecting true (page w)) w /\
  observacao (page (run onVoltar w)) = observacao (page w) /\
  sent (run onVoltar w) = sent w.
Proof. destruct w. repeat split. Qed.

Lemma verificar_onFilterChange (s : State) (a d : string) (w : World State) :
  (a =? area s)%string && (d =? disciplinaFiltro s)%string = false ->
  run (onFilterChange s a d) w
  = run (fetchProxima (Some a) (Some d))
        (with_page (setDisciplinaFiltro d (setArea a (page w))) w).
Proof.
  intros H. unfold onFilterChange.
  destruct ((a =? area s)%string && (d =? disciplinaFiltro s)%string); [discriminate|].
  cbn [call bind run exec]. reflexivity.
Qed.

End VerificarFacts.

(** ** Decisions *)

(** C1: in every state, the two save handlers do nothing at all, and send
    nothing, when no module is selected ([null], or any falsy value), and
    their buttons are disabled then.  [handleConfirmar] has no such
    condition: for every state that holds a question, as every state that
    shows the confirm button does, it posts its decision, whatever the
    module selection, in a document with no module field. *)
Theorem module_required_to_save :
  (forall (s : Classificar.State) (w : World Classificar.State),
      truthy (Classificar.moduloSelecionado s) = false ->
      run (Classificar.handleSalvar s) w = w) /\
  (forall (s : Verificar.State) (w : World Verificar.State),
      truthy (Verificar.moduloSelecionado s) = false ->
      run (Verificar.handleSalvarCorrecao s) w = w) /\
  (forall (s : Verificar.State) (w : World Verificar.State),
      Verificar.questao s <> JNull ->
      let doc := Verificar.confirmacao (Verificar.questao s) (Verificar.observacao s) in
      sent (run (Verificar.handleConfirmar s) w)
      = (sent w ++ [Api.request_for w "/salvar" (Verificar.post doc)])%list /\
      prop doc "tipo_acao" = Some (JStr "confirmacao") /\
      prop doc "habilidade_modulo_id" = None /\
      prop doc "modulo_escolhido" = None /\
      prop doc "classificacao_trieduc" = None /\
      prop doc "descricao_assunto" = None) /\
  (forall s : Verificar.State,
      Verificar.confirmar_enabled s = true -> Verificar.questao s <> JNull) /\
  (forall s : Classificar.State,
      Classificar.salvar_enabled s = true ->
      truthy (Classificar.moduloSelecionado s) = true) /\
  (forall s : Verificar.State,
      Verificar.salvar_correcao_enabled s = true ->
      truthy (Verificar.moduloSelecionado s) = true).
Proof.
  split; [|split; [|split; [|split; [|split]]]].
  - intros s w H. unfold Classificar.handleSalvar. rewrite H. reflexivity.
  - intros s w H. unfold Verificar.handleSalvarCorrecao. rewrite H. reflexivity.
  - intros s w H doc. subst doc.
    rewrite VerificarFacts.verificar_handleConfirmar by exact H.
    split; [reflexivity|].
    unfold Verificar.confirmacao, JSON_stringify.
    destruct (prop (Verificar.questao s) "id"); cbn; repeat split.
  - exact VerificarFacts.confirmar_enabled_questao.
  - intros s H. apply ClassificarFacts.salvar_enabled_selected. exact H.
  - intros s H. apply VerificarFacts.salvar_correcao_enabled_selected. exact H.
Qed.

Lemma module_required_to_save_witness :
  sent (run (Verificar.handleConfirmar Sample.reviewing)
            (Sample.world Sample.reviewing Sample.session))
  = [Api.request_for (Sample.world Sample.reviewing Sample.session) "/salvar"
       (Verificar.post (JObj [("questao_id", JNum 42); ("tipo_acao", JStr "confirmacao");
                              ("observacao", JStr "")]))] /\
  run (Classificar.handleSalvar (Classificar.setModuloSelecionado JNull Sample.classifying))
      (Sample.world Sample.classifying Sample.session)
  = Sample.world Sample.classifying Sample.session.
Proof.
  destruct module_required_to_save as (Hsave & _ & Hconfirm & Hshown & _). split.
  - apply (Hconfirm Sample.reviewing (Sample.world Sample.reviewing Sample.session)).
    apply Hshown. reflexivity.
  - apply Hsave. reflexivity.
Defined.

(** C5: when the save request of any of the three handlers is answered with
    success, the page is loading again and the next question has been
    requested with the area and discipline of the render that submitted,
    whatever the page state has become in between.  The request goes to
    "/proxima" (to "/proxima-low-match" on the verification page) with the
    query string "?area=...&disciplina_id=..." of those two values, each
    form-encoded and each left out when empty. *)
Theorem save_refetches_with_submitted_filters :
  let filtered (a d : string) :=
    if (a =? "")%string then
      if (d =? "")%string then "" else "?disciplina_id=" ++ form_encode d
    else
      if (d =? "")%string then "?area=" ++ form_encode a
      else "?area=" ++ form_encode a ++ "&disciplina_id=" ++ form_encode d in
  (forall (s later : Classificar.State) (w : World Classificar.State) (resp : Response) (v : JSON),
      truthy (Classificar.moduloSelecionado s) = true ->
      Classificar.questao s <> JNull ->
      ok resp = true -> json resp = Normal v ->
      let w1 := run (Classificar.handleSalvar s) w in
      let w2 := settle (List.length (sent w)) (Resolved resp) (with_page later w1) in
      sent w2
      = (sent w ++
         [Api.request_for w "/salvar"
            (Classificar.post (Classificar.classificacao_nova
               (Classificar.questao s) (Classificar.moduloSelecionado s) (Classificar.observacao s)));
          Api.request_for w
            ("/proxima" ++ Classificar.params (Some (Classificar.area s))
                                             (Some (Classificar.disciplinaFiltro s)))
            no_options])%list /\
      page w2 = Classificar.setSaving false (Classificar.refetching later) /\
      Classificar.loading (page w2) = true /\
      map url (sent w2)
      = (map url (sent w) ++
         [(Api.base_url w ++ "/salvar")%string;
          (Api.base_url w ++ "/proxima"
             ++ filtered (Classificar.area s) (Classificar.disciplinaFiltro s))%string])%list) /\
  (forall (s later : Verificar.State) (w : World Verificar.State) (resp : Response) (v : JSON),
      Verificar.questao s <> JNull ->
      ok resp = true -> json resp = Normal v ->
      let w1 := run (Verificar.handleConfirmar s) w in
      let w2 := settle (List.length (sent w)) (Resolved resp) (with_page later w1) in
      sent w2
      = (sent w ++
         [Api.request_for w "/salvar"
            (Verificar.post (Verificar.confirmacao (Verificar.questao s) (Verificar.observacao s)));
          Api.request_for w
            ("/proxima-low-match" ++ Verificar.params (Some (Verificar.area s))
                                                       (Some (Verificar.disciplinaFiltro s)))
            no_options])%list /\
      page w2 = Verificar.setSaving false (Verificar.refetching later) /\
      Verificar.loading (page w2) = true /\
      map url (sent w2)
      = (map url (sent w) ++
         [(Api.base_url w ++ "/salvar")%string;
          (Api.base_url w ++ "/proxima-low-match"
             ++ filtered (Verificar.area s) (Verificar.disciplinaFiltro s))%string])%list) /\
  (forall (s later : Verificar.State) (w : World Verificar.State) (resp : Response) (v : JSON),
      truthy (Verificar.moduloSelecionado s) = true ->
      Verificar.questao s <> JNull ->
      ok resp = true -> json resp = Normal v ->
      let w1 := run (Verificar.handleSalvarCorrecao s) w in
      let w2 := settle (List.length (sent w)) (Resolved resp) (with_page later w1) in
      sent w2
      = (sent w ++
         [Api.request_for w "/salvar"
            (Verificar.post (Verificar.correcao
               (Verificar.questao s) (Verificar.moduloSelecionado s) (Verificar.observacao s)));
          Api.request_for w
            ("/proxima-low-match" ++ Verificar.params (Some (Verificar.area s))
                                                       (Some (Verificar.disciplinaFiltro s)))
            no_options])%list /\
      page w2 = Verificar.setSaving false (Verificar.refetching later) /\
      Verificar.loading (page w2) = true /\
      map url (sent w2)
      = (map url (sent w) ++
         [(Api.base_url w ++ "/salvar")%string;
          (Api.base_url w ++ "/proxima-low-match"
             ++ filtered (Verificar.area s) (Verificar.disciplinaFiltro s))%string])%list).
Proof.
  intros filtered.
  assert (Hc : forall a d, Classificar.params (Some a) (Some d) = filtered a d).
  { intros a d. rewrite ClassificarFacts.classificar_params_cases. reflexivity. }
  assert (Hv : forall a d, Verificar.params (Some a) (Some d) = filtered a d).
  { intros a d. rewrite VerificarFacts.verificar_params_cases. reflexivity. }
  assert (Hurls : forall (S : Type) (w : World S) (l : list Request) (p q : string)
                         (o : RequestInit),
             map url (l ++ [Api.request_for w p o; Api.request_for w q no_options])%list
             = (map url l ++ [(Api.base_url w ++ p)%string; (Api.base_url w ++ q)%string])%list).
  { intros S w l p q o. rewrite map_app. reflexivity. }
  split; [|split].
  - intros s later w resp v Hm Hq Hok Hj w1 w2.
    assert (Hsent : sent w2
      = (sent w ++
         [Api.request_for w "/salvar"
            (Classificar.post (Classificar.classificacao_nova
               (Classificar.questao s) (Classificar.moduloSelecionado s) (Classificar.observacao s)));
          Api.request_for w
            ("/proxima" ++ Classificar.params (Some (Classificar.area s))
                                             (Some (Classificar.disciplinaFiltro s)))
            no_options])%list /\
      page w2 = Classificar.setSaving false (Classificar.refetching later) /\
      Classificar.loading (page w2) = true).
    { subst w1 w2.
      rewrite ClassificarFacts.classificar_handleSalvar by assumption.
      rewrite (settle_latest _ _ (with_page _ w)).
      rewrite (ClassificarFacts.classificar_saved s resp v _ Hok Hj).
      destruct w as [pg env win parse al co se wa un]. cbn.
      rewrite <- app_assoc. repeat split. }
    destruct Hsent as (Hsent & Hpage & Hload).
    split; [exact Hsent|]. split; [exact Hpage|]. split; [exact Hload|].
    rewrite Hsent, Hurls, Hc. reflexivity.
  - intros s later w resp v Hq Hok Hj w1 w2.
    assert (Hsent : sent w2
      = (sent w ++
         [Api.request_for w "/salvar"
            (Verificar.post (Verificar.confirmacao (Verificar.questao s) (Verificar.observacao s)));
          Api.request_for w
            ("/proxima-low-match" ++ Verificar.params (Some (Verificar.area s))
                                                       (Some (Verificar.disciplinaFiltro s)))
            no_options])%list /\
      page w2 = Verificar.setSaving false (Verificar.refetching later) /\
      Verificar.loading (page w2) = true).
    { subst w1 w2.
      rewrite VerificarFacts.verificar_handleConfirmar by assumption.
      rewrite (settle_latest _ _ (with_page _ w)).
      rewrite (VerificarFacts.verificar_saved s resp v _ Hok Hj).
      destruct w as [pg env win parse al co se wa un]. cbn.
      rewrite <- app_assoc. repeat split. }
    destruct Hsent as (Hsent & Hpage & Hload).
    split; [exact Hsent|]. split; [exact Hpage|]. split; [exact Hload|].
    rewrite Hsent, Hurls, Hv. reflexivity.
  - intros s later w resp v Hm Hq Hok Hj w1 w2.
    assert (Hsent : sent w2
      = (sent w ++
         [Api.request_for w "/salvar"
            (Verificar.post (Verificar.correcao
               (Verificar.questao s) (Verificar.moduloSelecionado s) (Verificar.observacao s)));
          Api.request_for w
            ("/proxima-low-match" ++ Verificar.params (Some (Verificar.area s))
                                                       (Some (Verificar.disciplinaFiltro s)))
            no_options])%list /\
      page w2 = Verificar.setSaving false (Verificar.refetching later) /\
      Verificar.loading (page w2) = true).
    { subst w1 w2.
      rewrite VerificarFacts.verificar_handleSalvarCorrecao by assumption.
      rewrite (settle_latest _ _ (with_page _ w)).
      rewrite (VerificarFacts.verificar_saved s resp v _ Hok Hj).
      destruct w as [pg env win parse al co se wa un]. cbn.
      rewrite <- app_assoc. repeat split. }
    destruct Hsent as (Hsent & Hpage & Hload).
    split; [exact Hsent|]. split; [exact Hpage|]. split; [exact Hload|].
    rewrite Hsent, Hurls, Hv. reflexivity.
Qed.

Lemma save_refetches_with_submitted_filters_witness :
  (let w := Sample.world Sample.classifying Sample.session in
   let later := Classificar.setArea "Humanas" (Classificar.setSaving true Sample.classifying) in
   let w2 := settle 0 (Resolved Sample.saved)
                    (with_page later (run (Classificar.handleSalvar Sample.classifying) w)) in
   map url (sent w2)
   = ["http://localhost:8000/classificacao/salvar";
      "http://localhost:8000/classificacao/proxima?area=Exatas"] /\
   Classificar.loading (page w2) = true) /\
  (let w := Sample.world Sample.reviewing Sample.session in
   let later := Verificar.setDisciplinaFiltro "Física" (Verificar.setSaving true Sample.reviewing) in
   let w2 := settle 0 (Resolved Sample.saved)
                    (with_page later (run (Verificar.handleConfirmar Sample.reviewing) w)) in
   map url (sent w2)
   = ["http://localhost:8000/classificacao/salvar";
      "http://localhost:8000/classificacao/proxima-low-match?area=Exatas&disciplina_id=Matem%C3%A1tica"] /\
   Verificar.loading (page w2) = true) /\
  (let w := Sample.world Sample.correcting Sample.session in
   let later := Verificar.setArea "" (Verificar.setSaving true Sample.correcting) in
   let w2 := settle 0 (Resolved Sample.saved)
                    (with_page later (run (Verificar.handleSalvarCorrecao Sample.correcting) w)) in
   map url (sent w2)
   = ["http://localhost:8000/classificacao/salvar";
      "http://localhost:8000/classificacao/proxima-low-match?area=Exatas&disciplina_id=Matem%C3%A1tica"] /\
   Verificar.loading (page w2) = true).
Proof.
  pose proof save_refetches_with_submitted_filters as H. cbv zeta in H.
  destruct H as (Hsalvar & Hconfirmar & Hcorrecao).
  split; [|split].
  - intros w later w2.
    destruct (Hsalvar Sample.classifying later w Sample.saved (JObj [("ok", JBool true)])
                eq_refl ltac:(discriminate) eq_refl eq_refl) as (_ & _ & Hloading & Hurl).
    split; [|exact Hloading]. etransitivity; [exact Hurl|reflexivity].
  - intros w later w2.
    destruct (Hconfirmar Sample.reviewing later w Sample.saved (JObj [("ok", JBool true)])
                ltac:(discriminate) eq_refl eq_refl) as (_ & _ & Hloading & Hurl).
    split; [|exact Hloading]. etransitivity; [exact Hurl|reflexivity].
  - intros w later w2.
    destruct (Hcorrecao Sample.correcting later w Sample.saved (JObj [("ok", JBool true)])
                eq_refl ltac:(discriminate) eq_refl eq_refl) as (_ & _ & Hloading & Hurl).
    split; [|exact Hloading]. etransitivity; [exact Hurl|reflexivity].
Defined.

(** C6: when the save request of a handler fails, with whatever error, the
    error's message is shown in an alert and the page state is the one the
    answer found, with [saving] cleared and nothing else touched: question,
    module selection and observation stay, nothing more is sent. *)
Theorem failed_save_keeps_selection :
  (forall (s later : Classificar.State) (w : World Classificar.State)
          (r : FetchResult) (err : JsError),
      truthy (Classificar.moduloSelecionado s) = true ->
      Classificar.questao s <> JNull ->
      fst (eval (Api.settled r) w) = Threw err ->
      let w1 := run (Classificar.handleSalvar s) w in
      let w2 := settle (List.length (sent w)) r (with_page later w1) in
      alerts w2 = (alerts w ++ [message err])%list /\
      page w2 = Classificar.setSaving false later /\
      Classificar.questao (page w2) = Classificar.questao later /\
      Classificar.moduloSelecionado (page w2) = Classificar.moduloSelecionado later /\
      Classificar.observacao (page w2) = Classificar.observacao later /\
      Classificar.loading (page w2) = Classificar.loading later /\
      Classificar.saving (page w2) = false /\
      sent w2 = sent w1 /\
      waiting w2 = waiting w) /\
  (forall (s later : Verificar.State) (w : World Verificar.State)
          (r : FetchResult) (err : JsError),
      truthy (Verificar.moduloSelecionado s) = true ->
      Verificar.questao s <> JNull ->
      fst (eval (Api.settled r) w) = Threw err ->
      let w1 := run (Verificar.handleSalvarCorrecao s) w in
      let w2 := settle (List.length (sent w)) r (with_page later w1) in
      alerts w2 = (alerts w ++ [message err])%list /\
      page w2 = Verificar.setSaving false later /\
      Verificar.questao (page w2) = Verificar.questao later /\
      Verificar.moduloSelecionado (page w2) = Verificar.moduloSelecionado later /\
      Verificar.observacao (page w2) = Verificar.observacao later /\
      Verificar.loading (page w2) = Verificar.loading later /\
      Verificar.isCorrecting (page w2) = Verificar.isCorrecting later /\
      Verificar.saving (page w2) = false /\
      sent w2 = sent w1 /\
      waiting w2 = waiting w) /\
  (forall (s later : Verificar.State) (w : World Verificar.State)
          (r : FetchResult) (err : JsError),
      Verificar.questao s <> JNull ->
      fst (eval (Api.settled r) w) = Threw err ->
      let w1 := run (Verificar.handleConfirmar s) w in
      let w2 := settle (List.length (sent w)) r (with_page later w1) in
      alerts w2 = (alerts w ++ [message err])%list /\
      page w2 = Verificar.setSaving false later /\
      Verificar.questao (page w2) = Verificar.questao later /\
      Verificar.moduloSelecionado (page w2) = Verificar.moduloSelecionado later /\
      Verificar.observacao (page w2) = Verificar.observacao later /\
      Verificar.loading (page w2) = Verificar.loading later /\
      Verificar.isCorrecting (page w2) = Verificar.isCorrecting later /\
      Verificar.saving (page w2) = false /\
      sent w2 = sent w1 /\
      waiting w2 = waiting w).
Proof.
  split; [|split].
  - intros s later w r err Hm Hq Herr w1 w2. subst w1 w2.
    rewrite ClassificarFacts.classificar_handleSalvar by assumption.
    rewrite (settle_latest _ _ (with_page _ w)).
    match goal with |- context [run _ ?W] =>
      destruct (ClassificarFacts.classificar_not_saved s r err W
                  (eval_settled_outcome r w W err Herr)) as (Hp & Ha & Hs & Hw)
    end.
    rewrite Hp, Ha, Hs, Hw. destruct w. repeat split.
  - intros s later w r err Hm Hq Herr w1 w2. subst w1 w2.
    rewrite VerificarFacts.verificar_handleSalvarCorrecao by assumption.
    rewrite (settle_latest _ _ (with_page _ w)).
    match goal with |- context [run _ ?W] =>
      destruct (VerificarFacts.verificar_not_saved s r err W
                  (eval_settled_outcome r w W err Herr)) as (Hp & Ha & Hs & Hw)
    end.
    rewrite Hp, Ha, Hs, Hw. destruct w. repeat split.
  - intros s later w r err Hq Herr w1 w2. subst w1 w2.
    rewrite VerificarFacts.verificar_handleConfirmar by assumption.
    rewrite (settle_latest _ _ (with_page _ w)).
    match goal with |- context [run _ ?W] =>
      destruct (VerificarFacts.verificar_not_saved s r err W
                  (eval_settled_outcome r w W err Herr)) as (Hp & Ha & Hs & Hw)
    end.
    rewrite Hp, Ha, Hs, Hw. destruct w. repeat split.
Qed.

Lemma failed_save_keeps_selection_witness :
  let w := Sample.world Sample.correcting Sample.session in
  let w1 := run (Verificar.handleSalvarCorrecao Sample.correcting) w in
  let w2 := settle 0 (Resolved Sample.refused) (with_page (page w1) w1) in
  alerts w2 = ["Falha ao salvar"] /\ page w2 = Sample.correcting.
Proof.
  intros w w1 w2.
  destruct (proj1 (proj2 failed_save_keeps_selection) Sample.correcting (page w1) w
              (Resolved Sample.refused) (Error "Falha ao salvar")
              eq_refl ltac:(discriminate) eq_refl) as (Ha & Hp & _).
  split; [exact Ha|exact Hp].
Defined.

(** ** Skipping and filtering *)

(** C7: "Pular" and a change of filter put the page back to loading with
    its filter values kept (the new ones, for a change), with no question,
    no module and no observation held (and, on the verification page, in
    reviewing mode); the one request they issue is the GET of the next
    question, with no body, and a filter that is empty or omitted does not
    appear among its query parameters. *)
Theorem skip_and_filter_change_only_refetch :
  (forall (s : Classificar.State) (w : World Classificar.State),
      let w' := run (Classificar.onPular s) w in
      page w' = Classificar.refetching (page w) /\
      sent w'
      = (sent w ++
         [Api.request_for w
            ("/proxima" ++ Classificar.params (Some (Classificar.area s))
                                             (Some (Classificar.disciplinaFiltro s)))
            no_options])%list) /\
  (forall (s : Classificar.State) (w : World Classificar.State) (a d : string),
      (a =? Classificar.area s)%string && (d =? Classificar.disciplinaFiltro s)%string = false ->
      let w' := run (Classificar.onFilterChange s a d) w in
      page w'
      = Classificar.refetching
          (Classificar.setDisciplinaFiltro d (Classificar.setArea a (page w))) /\
      sent w'
      = (sent w ++
         [Api.request_for w ("/proxima" ++ Classificar.params (Some a) (Some d))
                          no_options])%list) /\
  (forall (s : Verificar.State) (w : World Verificar.State),
      let w' := run (Verificar.onPular s) w in
      page w' = Verificar.refetching (page w) /\
      sent w'
      = (sent w ++
         [Api.request_for w
            ("/proxima-low-match" ++ Verificar.params (Some (Verificar.area s))
                                                       (Some (Verificar.disciplinaFiltro s)))
            no_options])%list) /\
  (forall (s : Verificar.State) (w : World Verificar.State) (a d : string),
      (a =? Verificar.area s)%string && (d =? Verificar.disciplinaFiltro s)%string = false ->
      let w' := run (Verificar.onFilterChange s a d) w in
      page w'
      = Verificar.refetching
          (Verificar.setDisciplinaFiltro d (Verificar.setArea a (page w))) /\
      sent w'
      = (sent w ++
         [Api.request_for w ("/proxima-low-match" ++ Verificar.params (Some a) (Some d))
                          no_options])%list) /\
  (forall s : Classificar.State,
      let s' := Classificar.refetching s in
      Classificar.loading s' = true /\
      Classificar.area s' = Classificar.area s /\
      Classificar.disciplinaFiltro s' = Classificar.disciplinaFiltro s /\
      Classificar.questao s' = JNull /\
      Classificar.moduloSelecionado s' = JNull /\
      Classificar.observacao s' = "") /\
  (forall s : Verificar.State,
      let s' := Verificar.refetching s in
      Verificar.loading s' = true /\
      Verificar.area s' = Verificar.area s /\
      Verificar.disciplinaFiltro s' = Verificar.disciplinaFiltro s /\
      Verificar.questao s' = JNull /\
      Verificar.moduloSelecionado s' = JNull /\
      Verificar.observacao s' = "" /\
      Verificar.isCorrecting s' = false) /\
  (forall (S : Type) (w : World S) (endpoint : string),
      let rq := Api.request_for w endpoint no_options in
      url rq = Api.base_url w ++ endpoint /\ req_method rq = None /\ req_body rq = None) /\
  (forall a d : option string,
      Classificar.query a d = Verificar.query a d /\
      Classificar.params a d = Verificar.params a d /\
      ((a = None \/ a = Some "") -> own "area" (Classificar.query a d) = None) /\
      ((d = None \/ d = Some "") -> own "disciplina_id" (Classificar.query a d) = None) /\
      ((a = None \/ a = Some "") -> (d = None \/ d = Some "") ->
       Classificar.params a d = "") /\
      (forall x, a = Some x -> x <> "" -> own "area" (Classificar.query a d) = Some x) /\
      (forall y, d = Some y -> y <> "" ->
                 own "disciplina_id" (Classificar.query a d) = Some y)).
Proof.
  repeat match goal with |- _ /\ _ => split end.
  - intros s w w'. subst w'. unfold Classificar.onPular. cbn [run].
    rewrite ClassificarFacts.classificar_fetchProxima. destruct w; split; reflexivity.
  - intros s w a d H w'. subst w'.
    rewrite (ClassificarFacts.classificar_onFilterChange s a d w H).
    rewrite ClassificarFacts.classificar_fetchProxima. destruct w; split; reflexivity.
  - intros s w w'. subst w'. unfold Verificar.onPular. cbn [run].
    rewrite VerificarFacts.verificar_fetchProxima. destruct w; split; reflexivity.
  - intros s w a d H w'. subst w'.
    rewrite (VerificarFacts.verificar_onFilterChange s a d w H).
    rewrite VerificarFacts.verificar_fetchProxima. destruct w; split; reflexivity.
  - intros s s'. subst s'. repeat split.
  - intros s s'. subst s'. repeat split.
  - intros S w endpoint rq. subst rq. repeat split.
  - intros a d. split; [reflexivity|]. split; [reflexivity|].
    split; [|split; [|split; [|split]]].
    + intros [->| ->]; destruct d as [y|]; cbn; try reflexivity;
        destruct (truthy_str y); reflexivity.
    + intros [->| ->]; destruct a as [x|]; cbn; try reflexivity;
        destruct (truthy_str x); reflexivity.
    + intros [->| ->] [->| ->]; reflexivity.
    + intros x -> Hx. assert (T : truthy_str x = true).
      { unfold truthy_str. apply negb_true_iff. apply String.eqb_neq. exact Hx. }
      unfold Classificar.query, Classificar.append_if. rewrite T.
      destruct d as [y|]; [destruct (truthy_str y)|]; reflexivity.
    + intros y -> Hy. assert (T : truthy_str y = true).
      { unfold truthy_str. apply negb_true_iff. apply String.eqb_neq. exact Hy. }
      unfold Classificar.query, Classificar.append_if. rewrite T.
      destruct a as [x|]; [destruct (truthy_str x)|]; reflexivity.
Qed.

Lemma skip_and_filter_change_only_refetch_witness :
  let w := Sample.world Sample.correcting Sample.session in
  let w' := run (Verificar.onFilterChange Sample.correcting "Humanas" "") w in
  map url (sent w') = ["http://localhost:8000/classificacao/proxima-low-match?area=Humanas"] /\
  Verificar.isCorrecting (page w') = false /\
  Verificar.moduloSelecionado (page w') = JNull.
Proof.
  intros w w'.
  destruct skip_and_filter_change_only_refetch as (_ & _ & _ & Hchange & _).
  destruct (Hchange Sample.correcting w "Humanas" "" eq_refl) as [Hp Hs].
  fold w' in Hp, Hs. rewrite Hp, Hs. repeat split.
Defined.

(** ** Similarity badge *)

(** The product of a score between 0 and 1 with 100, rounded to binary64,
    is at most 100: what follows traces the rounding of [SFmul], which the
    primitive multiplication is specified by. *)

Module FloatFacts.

Lemma digits2_pos_lower (p : positive) : 2 ^ (Zpos (digits2_pos p) - 1) <= Zpos p.
Proof.
  assert (E : digits2_pos p = Pos.size p) by (induction p; cbn; congruence).
  rewrite E. pose proof (Pos.size_le p) as H.
  apply Pos2Z.pos_le_pos in H. rewrite Pos2Z.inj_pow, (Pos2Z.inj_xO p) in H.
  replace (Zpos (Pos.size p)) with (Z.succ (Zpos (Pos.size p) - 1)) in H by lia.
  rewrite Z.pow_succ_r in H by lia. lia.
Qed.

(** A mantissa below 100 * 2^(-E) has at most 7 - E digits. *)
Lemma Zdigits2_bound (P E : Z) :
  0 <= P -> E <= 0 -> P <= 100 * 2 ^ (- E) -> Zdigits2 P + E <= 7.
Proof.
  intros HP HE Hb. destruct P as [|p|p]; cbn [Zdigits2]; [lia| |lia].
  pose proof (digits2_pos_lower p) as Hd.
  assert (Hlt : 2 ^ (Zpos (digits2_pos p) - 1) < 2 ^ (7 - E)).
  { replace (7 - E) with (7 + - E) by lia. rewrite Z.pow_add_r by lia.
    change (2 ^ 7) with 128. assert (0 < 2 ^ (- E)) by (apply Z.pow_pos_nonneg; lia). lia. }
  apply Z.pow_lt_mono_r_iff in Hlt; lia.
Qed.

Lemma shr_1_nonneg (m : Z) (r s : bool) :
  0 <= m ->
  shr_1 {| shr_m := m; shr_r := r; shr_s := s |}
  = {| shr_m := m / 2; shr_r := Z.odd m; shr_s := r || s |}.
Proof.
  intros Hm. rewrite <- Z.div2_div.
  destruct m as [|[p|p|]|p]; try reflexivity. lia.
Qed.

Lemma shifted_step (P k : Z) (mrs : shr_record) :
  0 <= P -> Verificar.shifted P k mrs -> Verificar.shifted P (k + 1) (shr_1 mrs).
Proof.
  intros HP (Hk & Hm & Hex). destruct mrs as [m r s]. cbn in Hm, Hex.
  assert (Hpow : 0 < 2 ^ k) by (apply Z.pow_pos_nonneg; lia).
  rewrite shr_1_nonneg by (rewrite Hm; apply Z.div_pos; lia).
  assert (E2 : 2 ^ (k + 1) = 2 ^ k * 2) by (rewrite Z.pow_add_r by lia; reflexivity).
  split; [lia|]. cbn. split.
  - rewrite Hm, E2. apply Z.div_div; lia.
  - intros H0. rewrite E2 in H0. apply Z.mod_divide in H0; [|lia].
    destruct H0 as [c Hc].
    assert (HPk : P = (c * 2) * 2 ^ k) by lia.
    assert (Hmod : P mod 2 ^ k = 0) by (rewrite HPk; apply Z_mod_mult).
    destruct (Hex Hmod) as [-> ->].
    assert (Hdiv : m = c * 2) by (rewrite Hm, HPk; apply Z_div_mult; lia).
    split; [|reflexivity]. rewrite Hdiv, Z.odd_mul. cbn. apply andb_false_r.
Qed.

Lemma shifted_iter (P : Z) (p : positive) :
  0 <= P ->
  forall k mrs, Verificar.shifted P k mrs ->
                Verificar.shifted P (k + Zpos p) (iter_pos shr_1 p mrs).
Proof.
  intros HP. induction p as [p IH|p IH|]; intros k mrs H; cbn [iter_pos].
  - replace (k + Zpos p~1) with (k + 1 + Zpos p + Zpos p) by lia.
    apply IH, IH, shifted_step; assumption.
  - replace (k + Zpos p~0) with (k + Zpos p + Zpos p) by lia.
    apply IH, IH. assumption.
  - apply shifted_step; assumption.
Qed.

Lemma round_nearest_even_bounds (q : Z) (l : location) :
  q <= round_nearest_even q l <= q + 1.
Proof.
  destruct l as [|[ | | ]]; cbn; try lia. destruct (Z.even q); lia.
Qed.

(** One normalising shift with rounding to nearest keeps a mantissa that
    stands for at most 100 at most 100. *)
Lemma shr_fexp_bound (P E : Z) :
  0 <= P -> E <= -46 -> P <= 100 * 2 ^ (- E) ->
  forall mrs e', shr_fexp prec emax P E loc_Exact = (mrs, e') ->
  0 <= shr_m mrs /\
  e' <= -46 /\
  round_nearest_even (shr_m mrs) (loc_of_shr_record mrs) <= 100 * 2 ^ (- e').
Proof.
  intros HP HE Hb mrs e'. unfold shr_fexp, shr. cbn [shr_record_of_loc].
  pose proof (Zdigits2_bound P E HP ltac:(lia) Hb) as Hd.
  assert (Hf : fexp prec emax (Zdigits2 P + E) <= -46).
  { unfold fexp, emin, prec, emax. lia. }
  destruct (fexp prec emax (Zdigits2 P + E) - E) as [|p|p] eqn:En.
  - intros [= <- <-]. cbn [shr_m loc_of_shr_record round_nearest_even]. repeat split; lia.
  - intros [= <- <-].
    pose proof (shifted_iter P p HP 0 {| shr_m := P; shr_r := false; shr_s := false |}) as Hs.
    destruct Hs as (_ & Hm & Hex).
    { split; [lia|]. cbn. rewrite Z.div_1_r. split; [reflexivity|auto]. }
    rewrite Z.add_0_l in Hm, Hex.
    remember (iter_pos shr_1 p {| shr_m := P; shr_r := false; shr_s := false |}) as mrs
      eqn:Emrs. clear Emrs.
    assert (Hpow : 0 < 2 ^ Zpos p) by (apply Z.pow_pos_nonneg; lia).
    assert (Hq : 0 <= shr_m mrs) by (rewrite Hm; apply Z.div_pos; lia).
    split; [exact Hq|]. split; [lia|].
    set (B := 100 * 2 ^ (- (E + Zpos p))).
    assert (HB : 100 * 2 ^ (- E) = B * 2 ^ Zpos p).
    { unfold B. replace (- E) with (- (E + Zpos p) + Zpos p) by lia.
      rewrite Z.pow_add_r by lia. lia. }
    pose proof (Z.div_mod P (2 ^ Zpos p) ltac:(lia)) as Hdm.
    pose proof (Z.mod_pos_bound P (2 ^ Zpos p) Hpow) as Hr.
    destruct (Z.eq_dec (P mod 2 ^ Zpos p) 0) as [H0|H0].
    + destruct (Hex H0) as [Hrr Hss]. destruct mrs as [m r s].
      cbn [shr_m shr_r shr_s] in *. subst r s.
      cbn [loc_of_shr_record round_nearest_even]. fold B.
      rewrite H0, Z.add_0_r in Hdm.
      apply Z.mul_le_mono_pos_r with (p := 2 ^ Zpos p); [exact Hpow|]. rewrite Hm. lia.
    + pose proof (round_nearest_even_bounds (shr_m mrs) (loc_of_shr_record mrs)) as Hrn.
      assert (shr_m mrs < B).
      { apply Z.mul_lt_mono_pos_r with (p := 2 ^ Zpos p); [exact Hpow|]. rewrite Hm. lia. }
      fold B. lia.
  - intros [= <- <-]. cbn [shr_m loc_of_shr_record round_nearest_even]. repeat split; lia.
Qed.

Lemma binary_round_aux_bound (P E : Z) :
  0 <= P -> E <= -46 -> P <= 100 * 2 ^ (- E) ->
  (exists s, binary_round_aux prec emax false P E loc_Exact = S754_zero s) \/
  (exists m e, binary_round_aux prec emax false P E loc_Exact = S754_finite false m e /\
               e <= -46 /\ Zpos m <= 100 * 2 ^ (- e)).
Proof.
  intros HP HE Hb. unfold binary_round_aux.
  destruct (shr_fexp prec emax P E loc_Exact) as [mrs1 e1] eqn:E1.
  destruct (shr_fexp_bound P E HP HE Hb mrs1 e1 E1) as (Hm1 & He1 & Hr1).
  pose proof (round_nearest_even_bounds (shr_m mrs1) (loc_of_shr_record mrs1)) as Hrn.
  set (m1 := round_nearest_even (shr_m mrs1) (loc_of_shr_record mrs1)) in *.
  destruct (shr_fexp prec emax m1 e1 loc_Exact) as [mrs2 e2] eqn:E2.
  destruct (shr_fexp_bound m1 e1 ltac:(lia) He1 Hr1 mrs2 e2 E2) as (Hm2 & He2 & Hr2).
  pose proof (round_nearest_even_bounds (shr_m mrs2) (loc_of_shr_record mrs2)) as Hrn2.
  destruct (shr_m mrs2) as [|m|m] eqn:Em.
  - left. eauto.
  - right. assert (Hle : (e2 <=? emax - prec) = true).
    { apply Z.leb_le. unfold emax, prec. lia. }
    rewrite Hle. exists m, e2. repeat split; lia.
  - lia.
Qed.

(** The percentage of a score between 0 and 1 is an integer between 0 and
    100. *)
Lemma percentage_range (score : float) :
  (0 <=? score)%float = true -> (score <=? 1)%float = true ->
  exists z, Verificar.Math_round (score * 100)%float = Verificar.RInt z /\ 0 <= z <= 100.
Proof.
  rewrite !leb_spec. intros H0 H1. unfold Verificar.Math_round.
  rewrite mul_spec. pose proof (Prim2SF_valid score) as Hv.
  change (Prim2SF 0) with (S754_zero false) in H0.
  change (Prim2SF 1) with (S754_finite false 4503599627370496 (-52)) in H1.
  change (Prim2SF 100) with (S754_finite false 7036874417766400 (-46)).
  destruct (Prim2SF score) as [s|s| |s m e].
  - exists 0. split; [reflexivity|lia].
  - destruct s; discriminate.
  - discriminate.
  - destruct s; [discriminate H0|].
    unfold SF64mul, SFmul. cbn [xorb].
    (* the mantissa stands for at most 1 *)
    assert (Hm : e <= -52 /\ Zpos m <= 2 ^ (- e)).
    { cbn in Hv. apply andb_true_iff in Hv. destruct Hv as [Hc _].
      unfold canonical_mantissa in Hc. apply Z.eqb_eq in Hc.
      unfold fexp, emin, prec, emax in Hc.
      pose proof (digits2_pos_lower m) as Hd.
      assert (Hlt : Zpos m < 2 ^ 53).
      { destruct (Z_lt_le_dec (Zpos m) (2 ^ 53)) as [|Hge]; [assumption|].
        assert (2 ^ 53 <= Zpos m) by assumption.
        pose proof (Pos.size_gt m) as Hs.
        assert (Esz : digits2_pos m = Pos.size m) by (clear; induction m; cbn; congruence).
        apply Pos2Z.pos_lt_pos in Hs. rewrite Pos2Z.inj_pow in Hs. rewrite <- Esz in Hs.
        assert (2 ^ 53 < 2 ^ Zpos (digits2_pos m)) by lia.
        apply Z.pow_lt_mono_r_iff in H2; lia. }
      unfold SFleb, SFcompare in H1.
      destruct (e ?= -52) eqn:Ec.
      - apply Z.compare_eq in Ec. subst e. split; [lia|].
        rewrite Pos.compare_cont_spec in H1.
        assert (Hle : (m <= 4503599627370496)%positive).
        { apply Pos.compare_le_iff. intros Hgt. rewrite Hgt in H1. discriminate. }
        apply Pos2Z.pos_le_pos in Hle. change (2 ^ (- -52)) with 4503599627370496. lia.
      - assert (Hneg : e < -52) by exact Ec. split; [lia|].
        assert (2 ^ 53 <= 2 ^ (- e)) by (apply Z.pow_le_mono_r; lia). lia.
      - discriminate. }
    destruct Hm as [He Hm].
    destruct (binary_round_aux_bound (Zpos (m * 7036874417766400)) (e + -46))
      as [[s Hz]|(m2 & e2 & Hf & He2 & Hm2)].
    + lia.
    + lia.
    + replace (- (e + -46)) with (- e + 46) by lia. rewrite Z.pow_add_r by lia.
      rewrite Pos2Z.inj_mul. change (2 ^ 46) with 70368744177664. lia.
    + rewrite Hz. exists 0. split; [reflexivity|lia].
    + rewrite Hf. destruct e2 as [|p|p]; try lia.
      eexists. split; [reflexivity|].
      change (Zneg p) with (- Zpos p) in Hm2. rewrite Z.opp_involutive in Hm2.
      assert (Hpow : 0 < 2 ^ Zpos p) by (apply Z.pow_pos_nonneg; lia).
      rewrite Z.pow_add_r by lia. change (2 ^ 1) with 2. split.
      * apply Z.div_pos; lia.
      * assert ((2 * Zpos m2 + 2 ^ Zpos p) / (2 ^ Zpos p * 2) < 101); [|lia].
        apply Z.div_lt_upper_bound; lia.
Qed.

End FloatFacts.

Module RoundFacts.

(** [Math.round] of a finite number [n * 2^e] is the integer [z] with
    [z - 1/2 <= n * 2^e < z + 1/2]. *)
Lemma Math_round_nearest (x : float) (negative : bool) (m : positive) (e : Z) :
  Prim2SF x = S754_finite negative m e ->
  let n := if negative then Z.neg m else Z.pos m in
  exists z,
    Verificar.Math_round x = Verificar.RInt z /\
    (0 <= e -> z = n * 2 ^ e) /\
    (e < 0 -> (2 * z - 1) * 2 ^ (- e) <= 2 * n < (2 * z + 1) * 2 ^ (- e)).
Proof.
  intros Hx n. unfold Verificar.Math_round. rewrite Hx. fold n.
  eexists. split; [reflexivity|]. destruct e as [|p|p].
  - split; [intros _; lia|lia].
  - split; [intros _; reflexivity|lia].
  - split; [lia|]. intros _.
    change (- Z.neg p) with (Z.pos p).
    assert (Hp : 0 < 2 ^ Z.pos p) by (apply Z.pow_pos_nonneg; lia).
    assert (Hd : 2 ^ (Z.pos p + 1) = 2 * 2 ^ Z.pos p) by (rewrite Z.pow_add_r; lia).
    rewrite Hd.
    pose proof (Z.div_mod (2 * n + 2 ^ Z.pos p) (2 * 2 ^ Z.pos p) ltac:(lia)) as Hdm.
    pose proof (Z.mod_pos_bound (2 * n + 2 ^ Z.pos p) (2 * 2 ^ Z.pos p) ltac:(lia)) as Hb.
    set (z := (2 * n + 2 ^ Z.pos p) / (2 * 2 ^ Z.pos p)) in *.
    set (r := (2 * n + 2 ^ Z.pos p) mod (2 * 2 ^ Z.pos p)) in *.
    nia.
Qed.

End RoundFacts.

(** C9: the badge shows [Math.round(score * 100)] followed by a percent
    sign, the integer nearest to the product, half-way cases going up; its
    colours are those of the green tier (#166534 on #bbf7d0, border
    #4ade80) when that percentage is at least 80, of the yellow tier
    (#854d0e on #fef08a, border #facc15) when it is at least 60 and below
    80, and of the red tier (#991b1b on #fecaca, border #f87171) below 60:
    three styles that differ in every colour.  For a score between 0 and 1
    the percentage is an integer between 0 and 100, printed in digits.  The
    score 0.85 gives "85%" in green and 0.55 gives "55%" in red.  The
    decisions the page posts read of the question its [id] only: neither
    score nor tier reaches them. *)
Theorem match_badge_tiers :
  let green := {| Verificar.color := "#166534"; Verificar.bg := "#bbf7d0";
                  Verificar.borderColor := "#4ade80" |} in
  let yellow := {| Verificar.color := "#854d0e"; Verificar.bg := "#fef08a";
                   Verificar.borderColor := "#facc15" |} in
  let red := {| Verificar.color := "#991b1b"; Verificar.bg := "#fecaca";
                Verificar.borderColor := "#f87171" |} in
  (forall score : float,
      (0 <=? score)%float = true -> (score <=? 1)%float = true ->
      exists b z,
        Verificar.MatchBadge (Some score) = Some b /\
        Verificar.Math_round (score * 100)%float = Verificar.RInt z /\
        Verificar.pct b = Verificar.RInt z /\
        0 <= z <= 100 /\
        Verificar.text b = Some (Number_toString z ++ "%") /\
        (80 <= z -> Verificar.style b = green) /\
        (60 <= z < 80 -> Verificar.style b = yellow) /\
        (z < 60 -> Verificar.style b = red)) /\
  (forall score : float,
      let pct := Verificar.Math_round (score * 100)%float in
      exists b,
        Verificar.MatchBadge (Some score) = Some b /\
        Verificar.pct b = pct /\
        (Verificar.at_least pct 80 = true -> Verificar.style b = green) /\
        (Verificar.at_least pct 80 = false -> Verificar.at_least pct 60 = true ->
         Verificar.style b = yellow) /\
        (Verificar.at_least pct 60 = false -> Verificar.style b = red)) /\
  (forall (x : float) (negative : bool) (m : positive) (e : Z),
      Prim2SF x = S754_finite negative m e ->
      let n := if negative then Z.neg m else Z.pos m in
      exists z,
        Verificar.Math_round x = Verificar.RInt z /\
        (0 <= e -> z = n * 2 ^ e) /\
        (e < 0 -> (2 * z - 1) * 2 ^ (- e) <= 2 * n < (2 * z + 1) * 2 ^ (- e))) /\
  (forall z : Z,
      (Verificar.at_least (Verificar.RInt z) 80 = true <-> 80 <= z) /\
      (Verificar.at_least (Verificar.RInt z) 60 = true <-> 60 <= z)) /\
  (exists b, Verificar.MatchBadge (Some 0.85%float) = Some b /\
             Verificar.text b = Some "85%" /\ Verificar.style b = green) /\
  (exists b, Verificar.MatchBadge (Some 0.55%float) = Some b /\
             Verificar.text b = Some "55%" /\ Verificar.style b = red) /\
  (exists b, Verificar.MatchBadge (Some 0.795%float) = Some b /\
             Verificar.text b = Some "80%" /\ Verificar.style b = green) /\
  (exists b, Verificar.MatchBadge (Some 0.6%float) = Some b /\
             Verificar.text b = Some "60%" /\ Verificar.style b = yellow) /\
  (exists b, Verificar.MatchBadge (Some 0.594%float) = Some b /\
             Verificar.text b = Some "59%" /\ Verificar.style b = red) /\
  Verificar.MatchBadge None = None /\
  (Verificar.color green <> Verificar.color yellow /\
   Verificar.color yellow <> Verificar.color red /\
   Verificar.color green <> Verificar.color red /\
   Verificar.bg green <> Verificar.bg yellow /\
   Verificar.bg yellow <> Verificar.bg red /\
   Verificar.bg green <> Verificar.bg red /\
   Verificar.borderColor green <> Verificar.borderColor yellow /\
   Verificar.borderColor yellow <> Verificar.borderColor red /\
   Verificar.borderColor green <> Verificar.borderColor red) /\
  (forall (s : Verificar.State) (q q' : JSON) (w : World Verificar.State),
      q <> JNull -> q' <> JNull -> prop q "id" = prop q' "id" ->
      sent (run (Verificar.handleConfirmar (Verificar.setQuestao q s)) w)
      = sent (run (Verificar.handleConfirmar (Verificar.setQuestao q' s)) w) /\
      sent (run (Verificar.handleSalvarCorrecao (Verificar.setQuestao q s)) w)
      = sent (run (Verificar.handleSalvarCorrecao (Verificar.setQuestao q' s)) w)).
Proof.
  intros green yellow red.
  split; [|split; [|split; [|split; [|split; [|split; [|split; [|split; [|split;
    [|split; [|split]]]]]]]]]].
  - intros score H0 H1.
    destruct (FloatFacts.percentage_range score H0 H1) as (z & Hz & Hrange).
    eexists. exists z. split; [reflexivity|]. split; [exact Hz|].
    unfold Verificar.text. cbn [Verificar.pct Verificar.style]. rewrite Hz.
    split; [reflexivity|]. split; [exact Hrange|].
    assert (Hsafe : (Z.abs z <? 2 ^ 53) = true) by (apply Z.ltb_lt; lia).
    rewrite Hsafe. split; [reflexivity|]. cbn [Verificar.at_least].
    split; [|split].
    + intros H. apply Z.leb_le in H. rewrite H. reflexivity.
    + intros [Ha Hb]. apply Z.leb_le in Ha. apply Z.leb_gt in Hb. rewrite Ha, Hb. reflexivity.
    + intros H. assert (H80 : (80 <=? z) = false) by (apply Z.leb_gt; lia).
      apply Z.leb_gt in H. rewrite H, H80. reflexivity.
  - intros score pct. eexists. split; [reflexivity|]. cbn [Verificar.pct Verificar.style].
    fold pct. split; [reflexivity|].
    split; [intros ->; reflexivity|].
    split; [intros -> ->; reflexivity|].
    intros H. destruct (Verificar.at_least pct 80) eqn:E80; [|rewrite H; reflexivity].
    exfalso. destruct pct as [z| |[|]]; cbn in *; try discriminate.
    apply Z.leb_le in E80. apply Z.leb_gt in H. lia.
  - exact RoundFacts.Math_round_nearest.
  - intros z. cbn [Verificar.at_least]. rewrite !Z.leb_le. tauto.
  - eexists. split; [reflexivity|]. split; reflexivity.
  - eexists. split; [reflexivity|]. split; reflexivity.
  - eexists. split; [reflexivity|]. split; reflexivity.
  - eexists. split; [reflexivity|]. split; reflexivity.
  - eexists. split; [reflexivity|]. split; reflexivity.
  - reflexivity.
  - cbn. repeat split; discriminate.
  - intros s q q' w Hq Hq' Hid. split.
    + rewrite !VerificarFacts.verificar_handleConfirmar by (destruct s; assumption).
      destruct s; cbn. unfold Verificar.confirmacao. rewrite Hid. reflexivity.
    + destruct (truthy (Verificar.moduloSelecionado s)) eqn:Hm.
      * rewrite !VerificarFacts.verificar_handleSalvarCorrecao
          by (destruct s; assumption).
        destruct s; cbn. unfold Verificar.correcao. rewrite Hid. reflexivity.
      * unfold Verificar.handleSalvarCorrecao. destruct s; cbn in *. rewrite Hm. reflexivity.
Qed.

Lemma match_badge_tiers_witness :
  exists b, Verificar.MatchBadge (Some 0.62%float) = Some b /\
            Verificar.text b = Some "62%" /\
            Verificar.style b
            = {| Verificar.color := "#854d0e"; Verificar.bg := "#fef08a";
                 Verificar.borderColor := "#facc15" |}.
Proof.
  destruct (proj1 match_badge_tiers 0.62%float eq_refl eq_refl)
    as (b & z & Hb & Hz & _ & _ & Ht & _ & Hy & _).
  assert (Ez : z = 62).
  { assert (H : Verificar.RInt 62 = Verificar.RInt z) by exact Hz. congruence. }
  subst z. exists b. split; [exact Hb|]. split; [exact Ht|]. apply Hy. lia.
Defined.

(** * Further properties *)

(** ** Evaluation of tasks *)

Section TaskCalculus.
Context {S : Type}.

Lemma task_eval_bind {A B : Type} (p : Task S A) (f : A -> Task S B) (w : World S) :
  task_eval (task_bind p f) w =
  match task_eval p w with
  | (TReturned a, w1) => task_eval (f a) w1
  | (TThrew e, w1) => (TThrew e, w1)
  | (TSuspended rq k, w1) => (TSuspended rq (fun r => task_bind (k r) f), w1)
  end.
Proof.
  revert w. induction p as [a|e|X c k IH|rq k IH|q k IH]; intros w; cbn.
  - reflexivity.
  - reflexivity.
  - destruct (perform c w) as [x w1]. apply IH.
  - reflexivity.
  - apply IH.
Qed.

Lemma task_eval_try_catch {A : Type} (p : Task S A) (h : JsError -> Task S A) (w : World S) :
  task_eval (task_try_catch p h) w =
  match task_eval p w with
  | (TReturned a, w1) => (TReturned a, w1)
  | (TThrew e, w1) => task_eval (h e) w1
  | (TSuspended rq k, w1) => (TSuspended rq (fun r => task_try_catch (k r) h), w1)
  end.
Proof.
  revert w. induction p as [a|e|X c k IH|rq k IH|q k IH]; intros w; cbn.
  - reflexivity.
  - reflexivity.
  - destruct (perform c w) as [x w1]. apply IH.
  - reflexivity.
  - apply IH.
Qed.

Lemma task_eval_try_finally {A : Type} (p : Task S A) (final : Task S unit) (w : World S) :
  task_eval (task_try_finally p final) w =
  match task_eval p w with
  | (TReturned a, w1) => task_eval (task_bind final (fun _ => TRet a)) w1
  | (TThrew e, w1) => task_eval (task_bind final (fun _ => TThrow e)) w1
  | (TSuspended rq k, w1) => (TSuspended rq (fun r => task_try_finally (k r) final), w1)
  end.
Proof.
  revert w. induction p as [a|e|X c k IH|rq k IH|q k IH]; intros w; cbn.
  - reflexivity.
  - reflexivity.
  - destruct (perform c w) as [x w1]. apply IH.
  - reflexivity.
  - apply IH.
Qed.

(** A lifted function does what it does as an [Async]. *)
Lemma task_eval_lift {A : Type} (p : Async S A) (w : World S) :
  task_eval (lift p) w =
  match eval p w with
  | (Returned a, w1) => (TReturned a, w1)
  | (Threw e, w1) => (TThrew e, w1)
  | (Suspended rq k, w1) => (TSuspended rq (fun r => lift (k r)), w1)
  end.
Proof.
  revert w. induction p as [A a|A e|A X c k IH|A rq k IH|A q IHq k IH]; intros w; cbn.
  - reflexivity.
  - reflexivity.
  - destruct (exec c w) as [x w1]. apply IH.
  - reflexivity.
  - apply IH.
Qed.

End TaskCalculus.

(** The text of a document is never empty. *)
Lemma string_of_uint_nonempty (d : Decimal.uint) : NilZero.string_of_uint d <> "".
Proof. destruct d; cbn; discriminate. Qed.

Lemma Number_toString_nonempty (n : Z) : Number_toString n <> "".
Proof.
  unfold Number_toString, NilZero.string_of_int.
  destruct (Z.to_int n) as [d|d].
  - apply string_of_uint_nonempty.
  - discriminate.
Qed.

Lemma JSON_text_truthy (v : JSON) : truthy_str (JSON_text v) = true.
Proof.
  unfold truthy_str. apply negb_true_iff, String.eqb_neq.
  destruct v as [ |[]|n|s|items|fields]; cbn; try discriminate.
  apply Number_toString_nonempty.
Qed.

(** What [setAuth] and [clearAuth] do to a world. *)
Lemma eval_setAuth {S : Type} (token usuario : JsVal) (w : World S) (b : Browser) :
  window w = Some b ->
  task_eval (setAuth token usuario) w
  = (TReturned tt,
     with_window
       (Some {| localStorage :=
                  <["usuario" := match usuario with
                                 | Some u => JSON_text u
                                 | None => "undefined"
                                 end]> (<["token" := String_of token]> (localStorage b));
                location_href := location_href b |}) w).
Proof.
  destruct w as [pg env win parse al co se wa un]. cbn. intros ->. reflexivity.
Qed.

Lemma setAuth_stored_token {S : Type} (token usuario : JsVal) (w : World S) (b : Browser) :
  window w = Some b ->
  stored (snd (task_eval (setAuth token usuario) w)) "token" = Some (String_of token).
Proof.
  intros Hb. rewrite (eval_setAuth token usuario w b Hb).
  unfold stored. destruct w as [pg env win parse al co se wa un]. cbn. by simplify_map_eq.
Qed.

Lemma setAuth_frame {S : Type} (token usuario : JsVal) (w : World S) :
  exists win, snd (task_eval (setAuth token usuario) w) = with_window win w.
Proof.
  destruct w as [pg env win parse al co se wa un]. destruct win as [b|]; cbn; eauto.
Qed.

Lemma clearAuth_stored {S : Type} (w : World S) :
  stored (snd (eval Auth.clearAuth w)) "token" = None /\
  stored (snd (eval Auth.clearAuth w)) "usuario" = None.
Proof.
  destruct w as [pg env win parse al co se wa un]. destruct win as [b|]; [|split; reflexivity].
  unfold stored. cbn. split; by simplify_map_eq.
Qed.

Lemma clearAuth_frame {S : Type} (w : World S) :
  exists win, eval Auth.clearAuth w = (Returned tt, with_window win w).
Proof.
  destruct w as [pg env win parse al co se wa un]. destruct win as [b|]; cbn; eauto.
Qed.

(** ** Session store, written *)

(** X1: after [setAuth(token, usuario)] in a browser the store holds
    [String(token)] under "token", every key other than "token" and
    "usuario" is as it was, [getToken()] returns that string and
    [isAuthenticated()] is whether it is non-empty; a token that is
    [undefined] is stored as the text "undefined", and counts. *)
Theorem setAuth_then_read {S : Type} (token usuario : JsVal) (w : World S) (b : Browser) :
  window w = Some b ->
  let after := task_eval (setAuth token usuario) w in
  fst after = TReturned tt /\
  (exists b', snd after = with_window (Some b') w /\ location_href b' = location_href b) /\
  stored (snd after) "token" = Some (String_of token) /\
  (forall key, key <> "token" -> key <> "usuario" -> stored (snd after) key = stored w key) /\
  eval Auth.getToken (snd after) = (Returned (Some (String_of token)), snd after) /\
  eval Auth.isAuthenticated (snd after)
  = (Returned (truthy_str (String_of token)), snd after) /\
  (forall t, token = Some (JStr t) ->
             eval Auth.isAuthenticated (snd after) = (Returned (negb (t =? "")%string), snd after)) /\
  (token = None -> eval Auth.isAuthenticated (snd after) = (Returned true, snd after)).
Proof.
  intros Hb after. subst after. rewrite (eval_setAuth token usuario w b Hb).
  cbn [fst snd].
  set (b' := {| localStorage := _; location_href := location_href b |}).
  assert (Htoken : stored (with_window (Some b') w) "token" = Some (String_of token)).
  { unfold stored. cbn. subst b'. cbn. by simplify_map_eq. }
  assert (Hauth : eval Auth.isAuthenticated (with_window (Some b') w)
                  = (Returned (truthy_str (String_of token)), with_window (Some b') w)).
  { rewrite isAuthenticated_token, Htoken. reflexivity. }
  split; [reflexivity|]. split; [exists b'; split; reflexivity|].
  split; [exact Htoken|]. split.
  { intros key Ht Hu. unfold stored. rewrite Hb. cbn. subst b'. cbn.
    by simplify_map_eq. }
  split.
  { unfold stored in Htoken. destruct w as [pg env win parse al co se wa un].
    cbn in *. rewrite Htoken. reflexivity. }
  split; [exact Hauth|]. split.
  - intros t ->. exact Hauth.
  - intros ->. exact Hauth.
Qed.

Lemma setAuth_then_read_witness :
  let w := Scene.world tt [("tema", "claro")] [] in
  let after := task_eval (setAuth (Some (JStr "abc")) (Some Scene.ana)) w in
  eval Auth.getToken (snd after) = (Returned (Some "abc"), snd after) /\
  stored (snd after) "tema" = Some "claro".
Proof.
  intros w after.
  destruct (setAuth_then_read (Some (JStr "abc")) (Some Scene.ana) w
              (Sample.browser [("tema", "claro")]) eq_refl)
    as (_ & _ & _ & Hframe & Htoken & _).
  split; [exact Htoken|].
  fold after in Hframe.
  rewrite (Hframe "tema") by discriminate. reflexivity.
Defined.

Lemma eval_getUsuario_stored {S : Type} (w : World S) (text : string) :
  stored w "usuario" = Some text -> truthy_str text = true ->
  eval Auth.getUsuario w
  = (Returned (match JSON_parse w text with Normal v => v | Abrupt _ => JNull end), w).
Proof.
  unfold stored. destruct w as [pg env win parse al co se wa un].
  destruct win as [b|]; [|discriminate]. cbn [window]. intros Hs Ht.
  unfold Auth.getUsuario. cbn [call bind eval exec window attempt negb]. rewrite Hs.
  cbn [eval bind]. rewrite Ht. cbn [negb try_catch attempt eval exec JSON_parse].
  destruct (parse text); reflexivity.
Qed.

(** X2: [getUsuario()] gives back the document [setAuth] stored, wherever
    the host's parser reads the text of that document back; a user that is
    [undefined] is stored as the text "undefined", which is no JSON, and
    [getUsuario()] returns [null] then. *)
Theorem setAuth_getUsuario_round_trip {S : Type} (token : JsVal) (w : World S) (b : Browser) :
  window w = Some b ->
  (forall u, JSON_parse w (JSON_text u) = Normal u ->
     let after := snd (task_eval (setAuth token (Some u)) w) in
     stored after "usuario" = Some (JSON_text u) /\
     eval Auth.getUsuario after = (Returned u, after)) /\
  (forall e, JSON_parse w "undefined" = Abrupt e ->
     let after := snd (task_eval (setAuth token None) w) in
     stored after "usuario" = Some "undefined" /\
     eval Auth.getUsuario after = (Returned JNull, after)).
Proof.
  intros Hb. split.
  - intros u Hparse after. subst after.
    rewrite (eval_setAuth token (Some u) w b Hb). cbn [snd].
    match goal with |- context [with_window ?B w] => set (w1 := with_window B w) end.
    assert (Hs : stored w1 "usuario" = Some (JSON_text u)).
    { unfold stored, w1. destruct w as [pg env win parse al co se wa un]. cbn. by simplify_map_eq. }
    split; [exact Hs|].
    rewrite (eval_getUsuario_stored w1 _ Hs (JSON_text_truthy u)).
    replace (JSON_parse w1) with (JSON_parse w) by (destruct w; reflexivity).
    rewrite Hparse. reflexivity.
  - intros e Hparse after. subst after.
    rewrite (eval_setAuth token None w b Hb). cbn [snd].
    match goal with |- context [with_window ?B w] => set (w1 := with_window B w) end.
    assert (Hs : stored w1 "usuario" = Some "undefined").
    { unfold stored, w1. destruct w as [pg env win parse al co se wa un]. cbn. by simplify_map_eq. }
    split; [exact Hs|].
    rewrite (eval_getUsuario_stored w1 _ Hs eq_refl).
    replace (JSON_parse w1) with (JSON_parse w) by (destruct w; reflexivity).
    rewrite Hparse. reflexivity.
Qed.

Lemma setAuth_getUsuario_round_trip_witness :
  let w := Scene.world tt [] [Scene.ana] in
  let after := snd (task_eval (setAuth (Some (JStr "abc")) (Some Scene.ana)) w) in
  eval Auth.getUsuario after = (Returned Scene.ana, after) /\
  eval Auth.getUsuario (snd (task_eval (setAuth (Some (JStr "abc")) None) w))
  = (Returned JNull, snd (task_eval (setAuth (Some (JStr "abc")) None) w)).
Proof.
  intros w after.
  destruct (setAuth_getUsuario_round_trip (Some (JStr "abc")) w (Sample.browser []) eq_refl)
    as [Hsome Hnone].
  split.
  - apply (Hsome Scene.ana). reflexivity.
  - apply (Hnone (mkError "SyntaxError" "Unexpected token")). reflexivity.
Defined.

(** X3: [clearAuth()] never throws and removes exactly the two entries:
    afterwards [getToken()] and [getUsuario()] return [null],
    [isAuthenticated()] is false, every other key is as it was, a second
    [clearAuth()] changes nothing, and what [setAuth] had written is gone;
    outside a browser it does nothing. *)
Theorem clearAuth_forgets {S : Type} (w : World S) :
  let after := eval Auth.clearAuth w in
  fst after = Returned tt /\
  stored (snd after) "token" = None /\
  stored (snd after) "usuario" = None /\
  (forall key, key <> "token" -> key <> "usuario" -> stored (snd after) key = stored w key) /\
  eval Auth.getToken (snd after) = (Returned None, snd after) /\
  eval Auth.getUsuario (snd after) = (Returned JNull, snd after) /\
  eval Auth.isAuthenticated (snd after) = (Returned false, snd after) /\
  eval Auth.clearAuth (snd after) = after /\
  (window w = None -> snd after = w) /\
  (forall token usuario,
      snd (eval Auth.clearAuth (snd (task_eval (setAuth token usuario) w))) = snd after).
Proof.
  intros after. subst after.
  destruct w as [pg env win parse al co se wa un]. destruct win as [b|].
  - unfold stored. cbn.
    repeat match goal with |- _ /\ _ => split end.
    + reflexivity.
    + by simplify_map_eq.
    + by simplify_map_eq.
    + intros key Ht Hu. by simplify_map_eq.
    + replace (delete "usuario" (delete "token" (localStorage b)) !! "token")
        with (@None string) by (by simplify_map_eq). reflexivity.
    + replace (delete "usuario" (delete "token" (localStorage b)) !! "usuario")
        with (@None string) by (by simplify_map_eq). reflexivity.
    + replace (delete "usuario" (delete "token" (localStorage b)) !! "token")
        with (@None string) by (by simplify_map_eq). reflexivity.
    + assert (E : delete "usuario" (delete "token"
                    (delete "usuario" (delete "token" (localStorage b))))
                  = delete "usuario" (delete "token" (localStorage b))).
      { apply map_eq. intros k.
        destruct (decide (k = "token")) as [->|];
          [|destruct (decide (k = "usuario")) as [->|]]; by simplify_map_eq. }
      rewrite E. reflexivity.
    + discriminate.
    + intros token usuario.
      match goal with |- context [delete "usuario" (delete "token" (insert ?k1 ?v1 ?m))] =>
        assert (E : delete "usuario" (delete "token" (insert k1 v1 m))
                    = delete "usuario" (delete "token" (localStorage b)))
      end.
      { apply map_eq. intros k.
        destruct (decide (k = "token")) as [->|];
          [|destruct (decide (k = "usuario")) as [->|]]; by simplify_map_eq. }
      rewrite E. reflexivity.
  - cbn. repeat match goal with |- _ /\ _ => split end; auto.
Qed.

Lemma clearAuth_forgets_witness :
  let w := Scene.world tt [("token", "abc"); ("tema", "claro")] [] in
  stored (snd (eval Auth.clearAuth w)) "tema" = Some "claro" /\
  snd (eval Auth.clearAuth (Scene.server tt)) = Scene.server tt.
Proof.
  intros w. split.
  - destruct (clearAuth_forgets w) as (_ & _ & _ & Hframe & _).
    rewrite (Hframe "tema") by discriminate. reflexivity.
  - destruct (clearAuth_forgets (Scene.server tt)) as (_ & _ & _ & _ & _ & _ & _ & _ & Hs & _).
    apply Hs. reflexivity.
Defined.

(** ** API gateway client: the request *)

Lemma own_assign (o : list (string * string)) (k v h : string) :
  own h (assign o k v) = if (k =? h)%string then Some v else own h o.
Proof.
  induction o as [|[k' v'] rest IH]; cbn.
  - reflexivity.
  - destruct (k' =? k)%string eqn:E; cbn.
    + apply String.eqb_eq in E. subst k'. destruct (k =? h)%string; reflexivity.
    + destruct (k' =? h)%string eqn:E'.
      * apply String.eqb_eq in E'. subst k'.
        rewrite String.eqb_sym in E. rewrite E. reflexivity.
      * exact IH.
Qed.

Lemma own_app {A : Type} (h : string) (l1 l2 : list (string * A)) :
  own h (l1 ++ l2) = match own h l1 with Some v => Some v | None => own h l2 end.
Proof.
  induction l1 as [|[k v] rest IH]; cbn; [reflexivity|].
  destruct (k =? h)%string; [reflexivity|exact IH].
Qed.

(** In a spread, the last value given for a key is the one kept. *)
Lemma own_spread (o extra : list (string * string)) (h : string) :
  own h (spread o extra)
  = match own h (rev extra) with
    | Some v => Some v
    | None => own h o
    end.
Proof.
  unfold spread. revert o. induction extra as [|[k v] rest IH]; intros o; cbn.
  - reflexivity.
  - rewrite IH, own_app, own_assign. cbn.
    destruct (own h (rev rest)); [reflexivity|].
    destruct (k =? h)%string; reflexivity.
Qed.

(** X4: [apiRequest] issues one request and waits for it.  The URL is
    the base ([NEXT_PUBLIC_API_URL], or the local default when that is unset
    or empty) followed by the endpoint; method and body are the caller's;
    a header is the caller's when the caller gave it, and otherwise
    "Authorization" is "Bearer " and the stored token, when one is stored
    and not empty, "Content-Type" is "application/json", and there is no
    other. *)
Theorem apiRequest_request {S : Type} (endpoint : string) (options : RequestInit)
        (w : World S) :
  exists rq k,
    eval (Api.apiRequest endpoint options) w = (Suspended rq k, w) /\
    url rq = match process_env w "NEXT_PUBLIC_API_URL" with
             | Some u => if (u =? "")%string then "http://localhost:8000/classificacao" else u
             | None => "http://localhost:8000/classificacao"
             end ++ endpoint /\
    req_method rq = method options /\
    req_body rq = body options /\
    forall h : string,
      own h (req_headers rq)
      = match own h (rev (match headers options with Some given => given | None => [] end)) with
        | Some v => Some v
        | None =>
            if (h =? "Authorization")%string then
              match stored w "token" with
              | Some t => if (t =? "")%string then None else Some ("Bearer " ++ t)
              | None => None
              end
            else if (h =? "Content-Type")%string then Some "application/json"
            else None
        end.
Proof.
  destruct (eval_apiRequest endpoint options w) as (k & Hk & _).
  exists (Api.request_for w endpoint options), k.
  split; [exact Hk|]. split.
  { cbn. unfold Api.base_url, str_or, truthy_str.
    destruct (process_env w "NEXT_PUBLIC_API_URL") as [u|]; [|reflexivity].
    destruct (u =? "")%string; reflexivity. }
  split; [reflexivity|]. split; [reflexivity|].
  intros h. cbn [Api.request_for req_headers]. rewrite !own_spread.
  destruct (own h (rev _)) as [v|]; [reflexivity|].
  unfold Api.bearer, truthy_str.
  destruct (String.eqb_spec h "Authorization") as [->|Ha].
  { destruct (stored w "token") as [t|]; [destruct (t =? "")%string|]; reflexivity. }
  assert (Ea : ("Authorization" =? h)%string = false).
  { apply String.eqb_neq. congruence. }
  rewrite (String.eqb_sym h "Content-Type").
  destruct (stored w "token") as [t|]; [destruct (t =? "")%string|];
    cbn [negb rev app own]; rewrite ?Ea; reflexivity.
Qed.

(** X5: a network failure leaves [apiRequest] rejected with the very
    error of [fetch] and the world as it found it: the session is kept.
    Outside a browser no answer changes anything either, a 401 included, and
    every status outside 200-299 still rejects. *)
Theorem apiRequest_failure_keeps_session {S : Type} (endpoint : string)
        (options : RequestInit) (w w' : World S) :
  let called := eval (Api.apiRequest endpoint options) w in
  (forall e, resume (fst called) (Rejected e) w' = (Threw e, w')) /\
  (window w' = None ->
   forall resp,
     snd (resume (fst called) (Resolved resp) w') = w' /\
     (ok resp = false -> exists e, fst (resume (fst called) (Resolved resp) w') = Threw e)).
Proof.
  intros called. subst called.
  destruct (eval_apiRequest endpoint options w) as (k & -> & Hk).
  cbn [fst snd resume]. split.
  - intros e. rewrite Hk. reflexivity.
  - intros Hw resp. rewrite Hk.
    destruct w' as [pg env win parse al co se wa un]. cbn in Hw. subst win.
    destruct resp as [st js].
    unfold Api.settled, Api.apiRequest_response, ok. cbn [bind status json].
    destruct (st =? 401); cbn;
      destruct (negb ((200 <=? st) && (st <=? 299))) eqn:E; cbn;
      destruct js as [[ | | | | | ]|]; cbn; (split; [reflexivity|]);
      intros Hok; try (rewrite Hok in E; discriminate); eauto.
Qed.

Lemma apiRequest_failure_keeps_session_witness :
  let w := Scene.server tt in
  snd (resume (fst (eval (Api.apiRequest "/stats" no_options) w)) (Resolved Sample.expired) w)
  = w.
Proof.
  intros w.
  apply (proj2 (apiRequest_failure_keeps_session "/stats" no_options w w) eq_refl
               Sample.expired).
Defined.

(** ** Route guards *)

Lemma run_home (w : World (Routed unit)) :
  run Home.onMount w
  = with_page (router_push (match stored w "token" with
                            | Some t => if (t =? "")%string then "/login" else "/classificar"
                            | None => "/login"
                            end) (page w)) w.
Proof.
  unfold Home.onMount. rewrite run_eval, eval_bind, isAuthenticated_token.
  unfold truthy_str.
  destruct (stored w "token") as [t|]; [destruct (t =? "")%string|];
    destruct w; reflexivity.
Qed.

Lemma run_appLayout (w : World (Routed bool)) :
  run AppLayout.onMount w
  = with_page (match stored w "token" with
               | Some t => if (t =? "")%string then router_push "/login" (page w)
                           else AppLayout.setAuthorized true (page w)
               | None => router_push "/login" (page w)
               end) w.
Proof.
  unfold AppLayout.onMount. rewrite run_eval, eval_bind, isAuthenticated_token.
  unfold truthy_str.
  destruct (stored w "token") as [t|]; [destruct (t =? "")%string|];
    destruct w; reflexivity.
Qed.

(** X6: the home page pushes exactly one route and does nothing else:
    "/classificar" when a non-empty token is stored, "/login" otherwise; so
    it opens the classification page right after [setAuth] with a token, and
    the login page after [clearAuth]. *)
Theorem home_redirects (w : World (Routed unit)) :
  let w' := run Home.onMount w in
  (exists dest, w' = with_page (router_push dest (page w)) w /\
                (dest = "/classificar" \/ dest = "/login") /\
                (dest = "/classificar" <->
                 exists t, stored w "token" = Some t /\ t <> "")) /\
  (forall (token usuario : JsVal) (b : Browser),
      window w = Some b -> String_of token <> "" ->
      pushed (page (run Home.onMount (snd (task_eval (setAuth token usuario) w))))
      = (pushed (page w) ++ ["/classificar"])%list) /\
  pushed (page (run Home.onMount (snd (eval Auth.clearAuth w))))
  = (pushed (page w) ++ ["/login"])%list.
Proof.
  intros w'. subst w'. split; [|split].
  - rewrite run_home. eexists. split; [reflexivity|].
    destruct (stored w "token") as [t|]; [destruct (String.eqb_spec t "")|].
    + split; [auto|]. split; [discriminate|]. intros (t' & Ht & Hne). congruence.
    + split; [auto|]. split; [eauto|reflexivity].
    + split; [auto|]. split; [discriminate|]. intros (t' & Ht & _). discriminate.
  - intros token usuario b Hb Hne.
    rewrite run_home, (setAuth_stored_token token usuario w b Hb).
    destruct (String.eqb_spec (String_of token) ""); [contradiction|].
    destruct (setAuth_frame token usuario w) as [win' ->].
    destruct w; reflexivity.
  - rewrite run_home, (proj1 (clearAuth_stored w)).
    destruct (clearAuth_frame w) as [win' ->].
    destruct w; reflexivity.
Qed.

Lemma home_redirects_witness :
  let w := Scene.world {| cells := tt; pushed := [] |} [] [] in
  pushed (page (run Home.onMount (snd (task_eval (setAuth (Some (JStr "abc")) None) w))))
  = ["/classificar"].
Proof.
  intros w.
  apply (proj1 (proj2 (home_redirects w)) (Some (JStr "abc")) None (Sample.browser []) eq_refl).
  discriminate.
Defined.

Lemma stored_window {S T : Type} (w : World S) (g : World T) (key : string) :
  window g = window w -> stored g key = stored w key.
Proof. unfold stored. intros ->. reflexivity. Qed.

(** X7: mounted with [authorized] false, [AppLayout] ends authorized
    exactly when a non-empty token is stored, and then renders the page
    without pushing a route; otherwise it stays on "Verificando acesso..."
    and pushes "/login".  It touches nothing else.  A browser in which
    [apiRequest] has met a 401 is refused. *)
Theorem appLayout_guards (w : World (Routed bool)) :
  page w = AppLayout.initial ->
  let w' := run AppLayout.onMount w in
  w' = with_page (page w') w /\
  (cells (page w') = true <-> exists t, stored w "token" = Some t /\ t <> "") /\
  (cells (page w') = true ->
   AppLayout.render (cells (page w')) = AppLayout.Children /\ pushed (page w') = []) /\
  (cells (page w') = false ->
   AppLayout.render (cells (page w')) = AppLayout.Verificando /\
   pushed (page w') = ["/login"]) /\
  (forall (S : Type) (endpoint : string) (options : RequestInit) (v v' : World S)
          (b : Browser) (resp : Response),
      window v' = Some b -> status resp = 401 ->
      window w = window (snd (resume (fst (eval (Api.apiRequest endpoint options) v))
                                     (Resolved resp) v')) ->
      cells (page w') = false).
Proof.
  intros Hp w'. subst w'. rewrite run_appLayout, Hp.
  assert (Hcases :
            (exists t, stored w "token" = Some t /\ t <> "") \/
            (stored w "token" = None \/ stored w "token" = Some "")).
  { destruct (stored w "token") as [t|]; [|auto].
    destruct (String.eqb_spec t ""); [subst; auto|eauto]. }
  split; [|split; [|split; [|split]]].
  - destruct w as [pg env win parse al co se wa un]. reflexivity.
  - destruct Hcases as [(t & Ht & Hne)|[Ht|Ht]]; rewrite Ht.
    + destruct (String.eqb_spec t ""); [contradiction|].
      destruct w as [pg env win parse al co se wa un]. cbn. split; eauto.
    + destruct w as [pg env win parse al co se wa un]. cbn.
      split; [discriminate|]. intros (t & Hc & _). discriminate.
    + destruct w as [pg env win parse al co se wa un]. cbn.
      split; [discriminate|]. intros (t & Hc & Hne). congruence.
  - destruct Hcases as [(t & Ht & Hne)|[Ht|Ht]]; rewrite Ht.
    + destruct (String.eqb_spec t ""); [contradiction|].
      destruct w as [pg env win parse al co se wa un]. cbn. auto.
    + destruct w as [pg env win parse al co se wa un]. cbn. discriminate.
    + destruct w as [pg env win parse al co se wa un]. cbn. discriminate.
  - destruct Hcases as [(t & Ht & Hne)|[Ht|Ht]]; rewrite Ht.
    + destruct (String.eqb_spec t ""); [contradiction|].
      destruct w as [pg env win parse al co se wa un]. cbn. discriminate.
    + destruct w as [pg env win parse al co se wa un]. cbn. auto.
    + destruct w as [pg env win parse al co se wa un]. cbn. auto.
  - intros S endpoint options v v' b resp Hb H401 Hw.
    destruct (eval_apiRequest endpoint options v) as (k & Hk & Hs).
    rewrite Hk in Hw. cbn [fst resume] in Hw. rewrite Hs in Hw.
    destruct (eval_apiRequest_response resp v' b Hb) as (_ & Hout & _).
    unfold Api.settled in Hw. cbn [bind] in Hw. rewrite (Hout H401) in Hw.
    assert (Ht : stored w "token" = None).
    { unfold stored. rewrite Hw. destruct v' as [pg env win parse al co se wa un].
      cbn. by simplify_map_eq. }
    rewrite Ht. destruct w as [pg env win parse al co se wa un]. reflexivity.
Qed.

Lemma appLayout_guards_witness :
  let w := Scene.world AppLayout.initial [("token", "abc")] [] in
  cells (page (run AppLayout.onMount w)) = true.
Proof.
  intros w. apply (proj1 (proj2 (appLayout_guards w eq_refl))).
  exists "abc". split; [reflexivity|discriminate].
Defined.

Lemma run_handleLogout (w : World (Routed JSON)) :
  exists win,
    eval Auth.clearAuth w = (Returned tt, with_window win w) /\
    run Sidebar.handleLogout w
    = with_page (router_push "/login" (page w)) (with_window win w).
Proof.
  destruct (clearAuth_frame w) as [win' Hw]. exists win'. split; [exact Hw|].
  unfold Sidebar.handleLogout. rewrite run_eval, eval_bind, Hw.
  destruct w; reflexivity.
Qed.

(** X8: "Sair" removes the token and the user from the store, leaves
    the other keys and the sidebar's own state alone, sends nothing and
    pushes "/login"; in the browser it leaves, [AppLayout] and the home page
    both go to "/login". *)
Theorem logout_ends_session (w : World (Routed JSON)) :
  let w' := run Sidebar.handleLogout w in
  pushed (page w') = (pushed (page w) ++ ["/login"])%list /\
  cells (page w') = cells (page w) /\
  stored w' "token" = None /\
  stored w' "usuario" = None /\
  (forall key, key <> "token" -> key <> "usuario" -> stored w' key = stored w key) /\
  sent w' = sent w /\
  (forall g : World (Routed bool),
      window g = window w' ->
      run AppLayout.onMount g = with_page (router_push "/login" (page g)) g) /\
  (forall g : World (Routed unit),
      window g = window w' ->
      run Home.onMount g = with_page (router_push "/login" (page g)) g).
Proof.
  intros w'. subst w'.
  destruct (run_handleLogout w) as (win & Hclear & ->).
  pose proof (clearAuth_stored w) as [Ht Hu].
  rewrite Hclear in Ht, Hu. cbn [snd] in Ht, Hu.
  assert (Hs : forall key, stored (with_page (router_push "/login" (page w)) (with_window win w)) key
                           = stored (with_window win w) key) by reflexivity.
  repeat match goal with |- _ /\ _ => split end.
  - destruct w; reflexivity.
  - destruct w; reflexivity.
  - rewrite Hs. exact Ht.
  - rewrite Hs. exact Hu.
  - intros key Hk1 Hk2. rewrite Hs.
    destruct w as [pg env win0 parse al co se wa un]. destruct win0 as [b|]; cbn in Hclear.
    + injection Hclear as <-. unfold stored. cbn. by simplify_map_eq.
    + injection Hclear as <-. reflexivity.
  - destruct w; reflexivity.
  - intros g Hg. rewrite run_appLayout.
    rewrite (stored_window _ g "token" Hg), Hs, Ht. reflexivity.
  - intros g Hg. rewrite run_home.
    rewrite (stored_window _ g "token" Hg), Hs, Ht. reflexivity.
Qed.

Lemma logout_ends_session_witness :
  let w := Scene.world Sidebar.initial [("token", "abc"); ("tema", "claro")] [] in
  let w' := run Sidebar.handleLogout w in
  stored w' "tema" = Some "claro" /\
  pushed (page (run AppLayout.onMount (Scene.world AppLayout.initial [("tema", "claro")] [])))
  = ["/login"].
Proof.
  intros w w'. subst w'.
  destruct (logout_ends_session w) as (_ & _ & _ & _ & Hframe & _ & Hguard & _).
  split.
  - rewrite (Hframe "tema") by discriminate. reflexivity.
  - rewrite (Hguard (Scene.world AppLayout.initial [("tema", "claro")] [])).
    + reflexivity.
    + reflexivity.
Defined.

(** ** Sidebar *)

Lemma eval_getUsuario {S : Type} (w : World S) :
  eval Auth.getUsuario w
  = (Returned match stored w "usuario" with
              | Some text =>
                  if (text =? "")%string then JNull
                  else match JSON_parse w text with
                       | Normal v => v
                       | Abrupt _ => JNull
                       end
              | None => JNull
              end, w).
Proof.
  unfold stored. destruct w as [pg env win parse al co se wa un].
  destruct win as [b|]; [|reflexivity]. cbn.
  destruct (localStorage b !! "usuario") as [text|]; cbn; [|reflexivity].
  unfold truthy_str. destruct (text =? "")%string; cbn; [reflexivity|].
  destruct (parse text); reflexivity.
Qed.

Lemma run_sidebar_onMount (w : World (Routed JSON)) :
  run Sidebar.onMount w
  = with_page (Sidebar.setUsuario (fst (match eval Auth.getUsuario w with
                                        | (Returned u, _) => (u, tt)
                                        | _ => (JNull, tt)
                                        end)) (page w)) w.
Proof.
  unfold Sidebar.onMount. rewrite run_eval, eval_bind, eval_getUsuario.
  destruct w; reflexivity.
Qed.

(** X9: the sidebar reads the stored user once, at mount, and pushes
    or sends nothing.  It renders nothing when no user is stored or the
    stored text does not parse; for a stored document that is truthy it
    shows the document's [nome], "Admin" when [is_admin] is truthy and the
    [disciplina] otherwise, and the three links in their order, a link
    active exactly when its path is the current one, so at most one. *)
Theorem sidebar_shows_stored_user (w : World (Routed JSON)) (pathname : string) :
  let w' := run Sidebar.onMount w in
  let view := Sidebar.render (cells (page w')) pathname in
  pushed (page w') = pushed (page w) /\
  sent w' = sent w /\
  (stored w "usuario" = None -> view = None) /\
  (forall text e, stored w "usuario" = Some text -> JSON_parse w text = Abrupt e ->
                  view = None) /\
  (forall text u,
      stored w "usuario" = Some text -> JSON_parse w text = Normal u ->
      truthy u = false -> view = None) /\
  (forall text u,
      stored w "usuario" = Some text -> text <> "" -> JSON_parse w text = Normal u ->
      truthy u = true ->
      exists aside,
        view = Some aside /\
        Sidebar.heading aside = prop u "nome" /\
        (truthy_val (prop u "is_admin") = true -> Sidebar.caption aside = Some (JStr "Admin")) /\
        (truthy_val (prop u "is_admin") = false ->
         Sidebar.caption aside = prop u "disciplina") /\
        map (fun l => Sidebar.path (fst l)) (Sidebar.links aside)
        = ["/classificar"; "/verificar"; "/stats"] /\
        (forall l, In l (Sidebar.links aside) ->
                   (snd l = true <-> Sidebar.path (fst l) = pathname)) /\
        (List.length (filter snd (Sidebar.links aside)) <= 1)%nat).
Proof.
  intros w' view. subst w' view.
  rewrite run_sidebar_onMount, eval_getUsuario. cbn [fst].
  split; [destruct w; reflexivity|]. split; [destruct w; reflexivity|].
  split; [|split; [|split]].
  - intros ->. destruct w; reflexivity.
  - intros text e -> Hp. rewrite Hp. destruct w; cbn.
    destruct (text =? "")%string; reflexivity.
  - intros text u -> Hp Ht. rewrite Hp.
    assert (E : Sidebar.render u pathname = None).
    { unfold Sidebar.render. rewrite Ht. reflexivity. }
    destruct w; cbn. destruct (text =? "")%string; [reflexivity|exact E].
  - intros text u -> Hne Hp Ht. rewrite Hp.
    destruct (String.eqb_spec text ""); [contradiction|].
    replace (cells (page (with_page (Sidebar.setUsuario u (page w)) w))) with u
      by (destruct w; reflexivity).
    unfold Sidebar.render. rewrite Ht. cbn [negb]. eexists. split; [reflexivity|].
    cbn [Sidebar.heading Sidebar.caption Sidebar.links].
    split; [reflexivity|]. split; [intros ->; reflexivity|]. split; [intros ->; reflexivity|].
    split; [reflexivity|]. split.
    + intros l Hl. cbn in Hl.
      destruct Hl as [<-|[<-|[<-|[]]]]; cbn [fst snd Sidebar.path];
        rewrite String.eqb_eq; split; congruence.
    + cbn [Sidebar.menuItems map filter snd Sidebar.path].
      destruct (String.eqb_spec pathname "/classificar") as [E1|];
        destruct (String.eqb_spec pathname "/verificar") as [E2|];
        destruct (String.eqb_spec pathname "/stats") as [E3|];
        try (rewrite E1 in *; discriminate); try (rewrite E2 in *; discriminate);
        cbn; lia.
Qed.

Lemma sidebar_shows_stored_user_witness :
  let w := Scene.world Sidebar.initial [("usuario", JSON_text Scene.ana)] [Scene.ana] in
  exists aside,
    Sidebar.render (cells (page (run Sidebar.onMount w))) "/verificar" = Some aside /\
    Sidebar.heading aside = Some (JStr "Ana") /\
    Sidebar.caption aside = Some (JStr "Exatas").
Proof.
  intros w.
  destruct (sidebar_shows_stored_user w "/verificar") as (_ & _ & _ & _ & _ & Hu).
  destruct (Hu (JSON_text Scene.ana) Scene.ana eq_refl ltac:(discriminate) eq_refl eq_refl)
    as (aside & Hv & Hh & _ & Hc & _).
  exists aside. split; [exact Hv|]. split; [exact Hh|]. apply Hc. reflexivity.
Defined.

(** ** Login and registration *)

(** What the gateway leaves in the store: an entry as it was, or none. *)
Lemma settled_store {S : Type} (r : FetchResult) (w : World S) (key : string) :
  stored (snd (eval (Api.settled r) w)) key = stored w key \/
  stored (snd (eval (Api.settled r) w)) key = None.
Proof.
  destruct w as [pg env win parse al co se wa un].
  destruct r as [e|[st js]]; [left; reflexivity|].
  unfold Api.settled, Api.apiRequest_response, ok. cbn [bind status json].
  destruct (st =? 401); destruct win as [b|]; cbn;
    destruct (negb ((200 <=? st) && (st <=? 299))); cbn;
    destruct js as [[ | | | | | ]|]; cbn; auto.
  all: unfold stored; cbn;
    destruct (decide (key = "token")) as [->|];
    [|destruct (decide (key = "usuario")) as [->|]];
    solve [right; by simplify_map_eq | left; by simplify_map_eq].
Qed.


Module LoginFacts.
Import Login.

Lemma login_handleSubmit (s : State) (w : World (Routed State)) :
  task_eval (handleSubmit s) w
  = (TSuspended (Api.request_for w "/login"
                   {| method := Some "POST"; headers := None;
                      body := Some (credentials s) |})
                handleSubmit_settled,
     with_page (set_cells (setError "") (set_cells (setLoading true) (page w))) w).
Proof.
  destruct w as [pg env win parse al co se wa un].
  destruct win as [b|]; reflexivity.
Qed.

Lemma login_settled (r : FetchResult) (w : World (Routed State)) :
  task_eval (handleSubmit_settled r) w
  = match eval (Api.settled r) w with
    | (Returned data, w1) =>
        match get data "access_token" with
        | Normal access_token =>
            let w2 := snd (task_eval (setAuth access_token (prop data "usuario")) w1) in
            (TReturned tt,
             with_page (set_cells (setLoading false)
                          (router_push "/classificar" (page w2))) w2)
        | Abrupt err =>
            (TReturned tt,
             with_page (set_cells (setLoading false)
                (set_cells (setError (str_or (message err)
                              "Falha no login. Verifique suas credenciais."))
                           (page w1))) w1)
        end
    | (Threw err, w1) =>
        (TReturned tt,
         with_page (set_cells (setLoading false)
            (set_cells (setError (str_or (message err)
                          "Falha no login. Verifique suas credenciais."))
                       (page w1))) w1)
    | (Suspended rq k, w1) => task_eval (handleSubmit_settled r) w
    end.
Proof.
  destruct (eval (Api.settled r) w) as [[data|err|rq k] w1] eqn:E; [| |reflexivity].
  - unfold handleSubmit_settled.
    rewrite task_eval_try_finally, task_eval_try_catch, task_eval_bind, task_eval_lift, E.
    destruct data as [ |bb|n|str|items|fields];
      destruct w1 as [pg env win parse al co se wa un]; destruct win as [b|]; reflexivity.
  - unfold handleSubmit_settled.
    rewrite task_eval_try_finally, task_eval_try_catch, task_eval_bind, task_eval_lift, E.
    destruct w1 as [pg env win parse al co se wa un]. reflexivity.
Qed.

End LoginFacts.

(** X10: [handleSubmit] of the login form posts the e-mail and the
    password of its render to "/login", with the button disabled while it
    waits.  When the answer is a success whose body is not [null], the token
    and the user of the body are stored as [setAuth] stores them, the other
    keys stay, "/classificar" is pushed, [loading] is cleared, nothing more
    is sent, and [isAuthenticated()] is whether the stored token is
    non-empty. *)
Theorem login_stores_session (s : Login.State) (w w' : World (Routed Login.State))
        (b : Browser) (resp : Response) (data : JSON) :
  window w' = Some b ->
  ok resp = true -> json resp = Normal data -> data <> JNull ->
  let called := task_eval (Login.handleSubmit s) w in
  let after := task_resume (fst called) (Resolved resp) w' in
  task_requested (fst called)
  = Some (Api.request_for w "/login"
            {| method := Some "POST"; headers := None;
               body := Some (JObj [("email", JStr (Login.email s));
                                   ("senha", JStr (Login.senha s))]) |}) /\
  snd called
  = with_page (set_cells (Login.setError "") (set_cells (Login.setLoading true) (page w))) w /\
  Login.submit_enabled (cells (page (snd called))) = false /\
  fst after = TReturned tt /\
  stored (snd after) "token" = Some (String_of (prop data "access_token")) /\
  stored (snd after) "usuario" = Some (match prop data "usuario" with
                                       | Some u => JSON_text u
                                       | None => "undefined"
                                       end) /\
  (forall key, key <> "token" -> key <> "usuario" -> stored (snd after) key = stored w' key) /\
  page (snd after)
  = set_cells (Login.setLoading false) (router_push "/classificar" (page w')) /\
  sent (snd after) = sent w' /\
  eval Auth.isAuthenticated (snd after)
  = (Returned (truthy_str (String_of (prop data "access_token"))), snd after).
Proof.
  intros Hb Hok Hjs Hnull called after. subst called after.
  rewrite LoginFacts.login_handleSubmit. cbn [fst snd task_requested task_resume].
  rewrite LoginFacts.login_settled, (eval_settled_ok resp data w' Hok Hjs).
  rewrite (get_not_null data "access_token" Hnull).
  rewrite (eval_setAuth _ _ w' b Hb). cbn [snd].
  match goal with |- context [with_window (Some ?B) w'] => set (b' := B) end.
  assert (Hst : forall key p, stored (with_page p (with_window (Some b') w')) key
                              = localStorage b' !! key) by reflexivity.
  split; [reflexivity|]. split; [reflexivity|].
  split; [destruct w; reflexivity|]. split; [reflexivity|].
  rewrite !Hst, isAuthenticated_token, Hst.
  assert (Ht : localStorage b' !! "token" = Some (String_of (prop data "access_token"))).
  { subst b'. cbn. by simplify_map_eq. }
  split; [exact Ht|]. split; [subst b'; cbn; by simplify_map_eq|]. split.
  { intros key H1 H2. rewrite Hst. unfold stored. rewrite Hb. subst b'. cbn.
    by simplify_map_eq. }
  split; [destruct w'; reflexivity|]. split; [destruct w'; reflexivity|].
  rewrite Ht. reflexivity.
Qed.

Lemma login_stores_session_witness :
  let w := Scene.world Login.initial [] [Scene.ana] in
  let s := Login.setSenha "segredo" (Login.setEmail "ana@escola.br" (cells Login.initial)) in
  let after := task_resume (fst (task_eval (Login.handleSubmit s) w))
                           (Resolved Scene.welcome)
                           (with_page (set_cells (Login.setLoading true) Login.initial) w) in
  stored (snd after) "token" = Some "abc" /\
  pushed (page (snd after)) = ["/classificar"] /\
  Login.loading (cells (page (snd after))) = false.
Proof.
  intros w s after.
  destruct (login_stores_session s w
              (with_page (set_cells (Login.setLoading true) Login.initial) w)
              (Sample.browser []) Scene.welcome
              (JObj [("access_token", JStr "abc"); ("usuario", Scene.ana)])
              eq_refl eq_refl eq_refl ltac:(discriminate))
    as (_ & _ & _ & _ & Ht & _ & _ & Hp & _).
  fold after in Ht, Hp. split; [exact Ht|]. rewrite Hp. split; reflexivity.
Defined.

(** X11: when the login request fails, [handleSubmit] still returns:
    the form shows the error's message, or the fallback text when the
    message is empty, so never an empty one; [loading] is cleared, no route
    is pushed, nothing is sent, and no entry is written to the store (an
    entry is as it was, or removed by the gateway).  A success whose body is
    [null] ends the same way, with the TypeError of reading its
    [access_token]. *)
Theorem login_failure_shows_message (s : Login.State) (w w' : World (Routed Login.State))
        (r : FetchResult) :
  let after := task_resume (fst (task_eval (Login.handleSubmit s) w)) r w' in
  let fallback := "Falha no login. Verifique suas credenciais." in
  (forall err,
      fst (eval (Api.settled r) w') = Threw err ->
      fst after = TReturned tt /\
      cells (page (snd after))
      = Login.setLoading false
          (Login.setError (if (message err =? "")%string then fallback else message err)
                          (cells (page w'))) /\
      Login.error (cells (page (snd after))) <> "" /\
      pushed (page (snd after)) = pushed (page w') /\
      sent (snd after) = sent w' /\
      (forall key, stored (snd after) key = stored w' key \/ stored (snd after) key = None)) /\
  (fst (eval (Api.settled r) w') = Returned JNull ->
   fst after = TReturned tt /\
   Login.error (cells (page (snd after)))
   = "Cannot read properties of null (reading 'access_token')" /\
   Login.loading (cells (page (snd after))) = false /\
   pushed (page (snd after)) = pushed (page w') /\
   (forall key, stored (snd after) key = stored w' key \/ stored (snd after) key = None)).
Proof.
  intros after fallback. subst after fallback.
  rewrite LoginFacts.login_handleSubmit. cbn [fst task_resume].
  rewrite LoginFacts.login_settled.
  pose proof (settled_store r w') as Hstore.
  destruct (eval_settled_frame r w') as [_ [win Hw]].
  destruct (eval (Api.settled r) w') as [o wf]. cbn [fst snd] in *. subst wf.
  split.
  - intros err ->. cbn [fst snd]. split; [reflexivity|]. split.
    { unfold str_or, truthy_str. destruct w'; cbn.
      destruct (message err =? "")%string; reflexivity. }
    split.
    { unfold str_or, truthy_str. destruct w'; cbn.
      destruct (String.eqb_spec (message err) ""); [discriminate|assumption]. }
    split; [destruct w'; reflexivity|]. split; [destruct w'; reflexivity|].
    intros key. exact (Hstore key).
  - intros ->. cbn [get fst snd].
    split; [reflexivity|]. split; [destruct w'; reflexivity|].
    split; [destruct w'; reflexivity|]. split; [destruct w'; reflexivity|].
    intros key. exact (Hstore key).
Qed.

Lemma login_failure_shows_message_witness :
  let w := Scene.world Login.initial [] [] in
  let after := task_resume (fst (task_eval (Login.handleSubmit (cells Login.initial)) w))
                           (Resolved Scene.denied) w in
  Login.error (cells (page (snd after))) = "Email ou senha incorretos" /\
  pushed (page (snd after)) = [].
Proof.
  intros w after.
  destruct (proj1 (login_failure_shows_message (cells Login.initial) w w
                     (Resolved Scene.denied))
                  (Error "Email ou senha incorretos") eq_refl)
    as (_ & Hc & _ & Hp & _).
  fold after in Hc, Hp. rewrite Hc, Hp. split; reflexivity.
Defined.

Module CadastroFacts.
Import Cadastro.

Lemma cadastro_handleSubmit (s : State) (w : World (Routed State)) :
  disciplina s <> "" ->
  task_eval (handleSubmit s) w
  = (TSuspended (Api.request_for w "/cadastro"
                   {| method := Some "POST"; headers := None;
                      body := Some (registration s) |})
                handleSubmit_settled,
     with_page (set_cells (setError "") (set_cells (setLoading true) (page w))) w).
Proof.
  intros Hd. unfold handleSubmit.
  assert (T : truthy_str (disciplina s) = true).
  { unfold truthy_str. apply negb_true_iff, String.eqb_neq. exact Hd. }
  rewrite T. cbn [negb].
  destruct w as [pg env win parse al co se wa un].
  destruct win as [b|]; reflexivity.
Qed.

Lemma cadastro_refused (s : State) (w : World (Routed State)) :
  disciplina s = "" ->
  task_eval (handleSubmit s) w
  = (TReturned tt,
     with_page (set_cells (setLoading false)
                  (set_cells (setError "Selecione uma disciplina")
                     (set_cells (setError "") (set_cells (setLoading true) (page w))))) w).
Proof.
  intros Hd. unfold handleSubmit. rewrite Hd.
  destruct w as [pg env win parse al co se wa un]. reflexivity.
Qed.

Lemma cadastro_settled (r : FetchResult) (w : World (Routed State)) :
  task_eval (handleSubmit_settled r) w
  = match eval (Api.settled r) w with
    | (Returned data, w1) =>
        match get data "access_token" with
        | Normal access_token =>
            let w2 := snd (task_eval (setAuth access_token (prop data "usuario")) w1) in
            (TReturned tt,
             with_page (set_cells (setLoading false)
                          (router_push "/classificar" (page w2))) w2)
        | Abrupt err =>
            (TReturned tt,
             with_page (set_cells (setLoading false)
                (set_cells (setError (str_or (message err) "Erro ao realizar cadastro."))
                           (page w1))) w1)
        end
    | (Threw err, w1) =>
        (TReturned tt,
         with_page (set_cells (setLoading false)
            (set_cells (setError (str_or (message err) "Erro ao realizar cadastro."))
                       (page w1))) w1)
    | (Suspended rq k, w1) => task_eval (handleSubmit_settled r) w
    end.
Proof.
  destruct (eval (Api.settled r) w) as [[data|err|rq k] w1] eqn:E; [| |reflexivity].
  - unfold handleSubmit_settled.
    rewrite task_eval_try_finally, task_eval_try_catch, task_eval_bind, task_eval_lift, E.
    destruct data as [ |bb|n|str|items|fields];
      destruct w1 as [pg env win parse al co se wa un]; destruct win as [b|]; reflexivity.
  - unfold handleSubmit_settled.
    rewrite task_eval_try_finally, task_eval_try_catch, task_eval_bind, task_eval_lift, E.
    destruct w1 as [pg env win parse al co se wa un]. reflexivity.
Qed.

Lemma cadastro_play_invariant (P : Component -> Prop) :
  (forall c e, P c -> enabled c e = true -> P (handle e c)) ->
  forall events c c', P c -> play events c = Some c' -> P c'.
Proof.
  intros Hstep events. induction events as [|e rest IH]; intros c c' Hc Hplay; cbn in Hplay.
  - injection Hplay as <-. exact Hc.
  - destruct (enabled c e) eqn:He; [|discriminate].
    eapply IH; [|exact Hplay]. apply Hstep; assumption.
Qed.

Lemma area_offered_step (c : Component) (e : Event) :
  area_offered c -> enabled c e = true -> area_offered (handle e c).
Proof.
  intros [Hin Hempty] He.
  destruct e as [areas|err|v|v|v|val|v|v]; cbn in He |- *;
    try (split; cbn; assumption).
  - split; cbn; [|discriminate]. left.
    destruct Hin as [Hin|Hin]; [exact Hin|].
    rewrite (Hempty He) in Hin. contradiction.
  - split; cbn; [exact Hin|discriminate].
  - split; cbn; [|exact Hempty]. right.
    apply FilterBarFacts.offers_In in He. unfold areaOptions in He.
    rewrite map_map in He. cbn in He. rewrite map_id in He. exact He.
Qed.

Lemma area_offered_play (events : list Event) (c : Component) :
  play events mount = Some c -> area_offered c.
Proof.
  apply (cadastro_play_invariant area_offered area_offered_step).
  split; [left; reflexivity|reflexivity].
Qed.

Lemma no_area_without_mapping (err : JsError) (events : list Event) (c : Component) :
  play (LoadFailed err :: events) mount = Some c -> disciplina (state c) = "".
Proof.
  cbn [play enabled mount loading_filters]. intros Hplay.
  set (P := fun c : Component =>
              loading_filters c = false /\ areasMapping (state c) = [] /\
              disciplina (state c) = "").
  assert (HP : P c).
  { eapply (cadastro_play_invariant P); [| |exact Hplay].
    - intros c0 e (Hl & Hm & Hd) He.
      destruct e as [areas|err0|v|v|v|val|v|v]; cbn in He |- *; unfold P; cbn;
        try (rewrite Hl in He; discriminate);
        try (unfold areaOptions in He; rewrite Hm in He; discriminate); auto.
    - unfold P. cbn. auto. }
  exact (proj2 (proj2 HP)).
Qed.

End CadastroFacts.

(** X12: with no area selected, [handleSubmit] of the registration
    form sends nothing, pushes nothing, touches no storage, and leaves the
    message "Selecione uma disciplina" with [loading] cleared.  In every
    state the form reaches from its mount, a request it sends is the POST of
    "/cadastro" with the four fields, its [disciplina] a key of the mapping
    loaded; and when the mapping could not be loaded, no submission sends
    anything. *)
Theorem cadastro_requires_area :
  (forall (s : Cadastro.State) (w : World (Routed Cadastro.State)),
      Cadastro.disciplina s = "" ->
      let after := task_eval (Cadastro.handleSubmit s) w in
      fst after = TReturned tt /\
      task_requested (fst after) = None /\
      cells (page (snd after))
      = Cadastro.setLoading false
          (Cadastro.setError "Selecione uma disciplina" (cells (page w))) /\
      pushed (page (snd after)) = pushed (page w) /\
      window (snd after) = window w /\
      sent (snd after) = sent w) /\
  (forall (events : list Cadastro.Event) (c : Cadastro.Component)
          (w : World (Routed Cadastro.State)) (rq : Request),
      Cadastro.play events Cadastro.mount = Some c ->
      task_requested (fst (task_eval (Cadastro.handleSubmit (Cadastro.state c)) w)) = Some rq ->
      In (Cadastro.disciplina (Cadastro.state c))
         (FilterBar.keys (Cadastro.areasMapping (Cadastro.state c))) /\
      rq = Api.request_for w "/cadastro"
             {| method := Some "POST"; headers := None;
                body := Some (JObj [("nome", JStr (Cadastro.nome (Cadastro.state c)));
                                    ("email", JStr (Cadastro.email (Cadastro.state c)));
                                    ("senha", JStr (Cadastro.senha (Cadastro.state c)));
                                    ("disciplina",
                                     JStr (Cadastro.disciplina (Cadastro.state c)))]) |}) /\
  (forall (err : JsError) (events : list Cadastro.Event) (c : Cadastro.Component)
          (w : World (Routed Cadastro.State)),
      Cadastro.play (Cadastro.LoadFailed err :: events) Cadastro.mount = Some c ->
      task_requested (fst (task_eval (Cadastro.handleSubmit (Cadastro.state c)) w)) = None).
Proof.
  split; [|split].
  - intros s w Hd after. subst after.
    rewrite (CadastroFacts.cadastro_refused s w Hd). cbn [fst snd task_requested].
    destruct w as [pg env win parse al co se wa un]. repeat split.
  - intros events c w rq Hplay Hrq.
    destruct (String.eqb_spec (Cadastro.disciplina (Cadastro.state c)) "") as [Hd|Hd].
    + rewrite (CadastroFacts.cadastro_refused _ w Hd) in Hrq. discriminate.
    + rewrite (CadastroFacts.cadastro_handleSubmit _ w Hd) in Hrq.
      cbn [fst task_requested] in Hrq. injection Hrq as <-.
      split; [|reflexivity].
      destruct (CadastroFacts.area_offered_play events c Hplay) as [[H|H] _];
        [contradiction|exact H].
  - intros err events c w Hplay.
    rewrite (CadastroFacts.cadastro_refused _ w
               (CadastroFacts.no_area_without_mapping err events c Hplay)).
    reflexivity.
Qed.

Lemma cadastro_requires_area_witness :
  let w := Scene.world {| cells := Cadastro.initial; pushed := [] |} [] [] in
  Cadastro.error (cells (page (snd (task_eval (Cadastro.handleSubmit Cadastro.initial) w))))
  = "Selecione uma disciplina" /\
  sent (snd (task_eval (Cadastro.handleSubmit Cadastro.initial) w)) = [].
Proof.
  intros w.
  destruct (proj1 cadastro_requires_area Cadastro.initial w eq_refl)
    as (_ & _ & Hc & _ & _ & Hs).
  rewrite Hc, Hs. split; reflexivity.
Defined.

(** X13: a registration with an area selected always comes back with
    [loading] cleared and nothing more sent.  On a success whose body is not
    [null] the token and the user are stored as [setAuth] stores them and
    "/classificar" is pushed; on a failure the form shows the error's
    message, or "Erro ao realizar cadastro." when it is empty, and no entry
    is written to the store. *)
Theorem cadastro_settles (s : Cadastro.State) (w w' : World (Routed Cadastro.State))
        (r : FetchResult) :
  Cadastro.disciplina s <> "" ->
  let called := task_eval (Cadastro.handleSubmit s) w in
  let after := task_resume (fst called) r w' in
  snd called
  = with_page (set_cells (Cadastro.setError "")
                 (set_cells (Cadastro.setLoading true) (page w))) w /\
  fst after = TReturned tt /\
  Cadastro.loading (cells (page (snd after))) = false /\
  sent (snd after) = sent w' /\
  (forall (b : Browser) (resp : Response) (data : JSON),
      window w' = Some b -> r = Resolved resp ->
      ok resp = true -> json resp = Normal data -> data <> JNull ->
      stored (snd after) "token" = Some (String_of (prop data "access_token")) /\
      stored (snd after) "usuario" = Some (match prop data "usuario" with
                                           | Some u => JSON_text u
                                           | None => "undefined"
                                           end) /\
      page (snd after)
      = set_cells (Cadastro.setLoading false) (router_push "/classificar" (page w'))) /\
  (forall err,
      fst (eval (Api.settled r) w') = Threw err ->
      page (snd after)
      = set_cells (Cadastro.setLoading false)
          (set_cells (Cadastro.setError
                        (if (message err =? "")%string then "Erro ao realizar cadastro."
                         else message err)) (page w')) /\
      (forall key, stored (snd after) key = stored w' key \/ stored (snd after) key = None)).
Proof.
  intros Hd called after. subst called after.
  rewrite (CadastroFacts.cadastro_handleSubmit s w Hd). cbn [fst snd task_resume].
  rewrite CadastroFacts.cadastro_settled.
  pose proof (settled_store r w') as Hstore.
  destruct (eval_settled_frame r w') as [Hreq [win Hw]].
  split; [reflexivity|].
  destruct (eval (Api.settled r) w') as [o wf] eqn:E. cbn [fst snd] in *. subst wf.
  destruct o as [data|err|rq k]; [| |discriminate].
  - destruct (get data "access_token") as [token|err] eqn:G.
    + destruct (setAuth_frame token (prop data "usuario") (with_window win w')) as [win' Hw'].
      cbv zeta. rewrite Hw'.
      split; [reflexivity|]. split; [destruct w'; reflexivity|].
      split; [destruct w'; reflexivity|]. split; [|intros err; discriminate].
      intros b resp data0 Hb -> Hok Hjs Hnull.
      rewrite (eval_settled_ok resp data0 w' Hok Hjs) in E. injection E as <- Hwin.
      rewrite (get_not_null data0 "access_token" Hnull) in G. injection G as <-.
      rewrite <- Hwin in Hw'. rewrite (eval_setAuth _ _ w' b Hb) in Hw'. cbn [snd] in Hw'.
      rewrite <- Hwin, <- Hw'.
      split; [unfold stored; destruct w'; cbn; by simplify_map_eq|].
      split; [unfold stored; destruct w'; cbn; by simplify_map_eq|].
      destruct w'; reflexivity.
    + split; [reflexivity|]. split; [destruct w'; reflexivity|].
      split; [destruct w'; reflexivity|]. split; [|intros err0; discriminate].
      intros b resp data0 Hb -> Hok Hjs Hnull.
      rewrite (eval_settled_ok resp data0 w' Hok Hjs) in E. injection E as <- Hwin.
      rewrite (get_not_null data0 "access_token" Hnull) in G. discriminate.
  - split; [reflexivity|]. split; [destruct w'; reflexivity|].
    split; [destruct w'; reflexivity|]. split.
    + intros b resp data0 Hb -> Hok Hjs Hnull.
      rewrite (eval_settled_ok resp data0 w' Hok Hjs) in E. discriminate.
    + intros err0 [= <-]. split.
      * unfold str_or, truthy_str. destruct w'; cbn.
        destruct (message err =? "")%string; reflexivity.
      * intros key. exact (Hstore key).
Qed.

Lemma cadastro_settles_witness :
  let s := Cadastro.setDisciplina "Exatas" Cadastro.initial in
  let w := Scene.world {| cells := s; pushed := [] |} [] [] in
  let after := task_resume (fst (task_eval (Cadastro.handleSubmit s) w))
                           (Resolved Scene.welcome) w in
  stored (snd after) "token" = Some "abc" /\ pushed (page (snd after)) = ["/classificar"].
Proof.
  intros s w after.
  destruct (cadastro_settles s w w (Resolved Scene.welcome) ltac:(discriminate))
    as (_ & _ & _ & _ & Hok & _).
  destruct (Hok (Sample.browser []) Scene.welcome
                (JObj [("access_token", JStr "abc"); ("usuario", Scene.ana)])
                eq_refl eq_refl eq_refl eq_refl ltac:(discriminate)) as (Ht & _ & Hp).
  fold after in Ht, Hp. rewrite Ht, Hp. split; reflexivity.
Defined.

(** ** Statistics page *)

Module StatsFacts.
Import Stats.

Lemma stats_onMount (w : World State) :
  run onMount w = with_request (Api.request_for w "/stats" no_options) loadStats_settled w.
Proof.
  destruct w as [pg env win parse al co se wa un].
  destruct win as [b|]; reflexivity.
Qed.

Lemma stats_settled (r : FetchResult) (w : World State) :
  run (loadStats_settled r) w
  = match eval (Api.settled r) w with
    | (Returned data, w1) => with_page (setLoading false (setStats data (page w1))) w1
    | (Threw err, w1) => with_page (setLoading false (page w1)) (with_console err w1)
    | (Suspended rq k, w1) => run (loadStats_settled r) w
    end.
Proof.
  destruct (eval (Api.settled r) w) as [[data|err|rq k] w1] eqn:E; [| |reflexivity].
  - unfold loadStats_settled.
    rewrite run_eval, eval_try_finally, eval_try_catch, eval_bind, E.
    destruct w1 as [pg env win parse al co se wa un]. reflexivity.
  - unfold loadStats_settled.
    rewrite run_eval, eval_try_finally, eval_try_catch, eval_bind, E.
    destruct w1 as [pg env win parse al co se wa un]. reflexivity.
Qed.

End StatsFacts.

(** X14: the statistics page sends the one GET of "/stats" at mount,
    and whatever the answer, and whatever the state has become meanwhile,
    the page stops loading, nothing is thrown past [loadStats], no alert is
    shown and nothing waits.  A success stores the body; a failure leaves
    [stats] as it was and logs the error to the console, so that a page
    that never had statistics shows 0, 0 and "Nenhuma atividade
    registrada". *)
Theorem loadStats_always_ends (w : World Stats.State) (later : Stats.State) (r : FetchResult) :
  let w1 := run Stats.onMount w in
  let w2 := settle (List.length (sent w)) r (with_page later w1) in
  page w1 = page w /\
  sent w2 = (sent w ++ [Api.request_for w "/stats" no_options])%list /\
  Stats.loading (page w2) = false /\
  Stats.render (page w2) <> None /\
  alerts w2 = alerts w /\
  unhandled w2 = unhandled w /\
  waiting w2 = waiting w /\
  (forall resp data,
      r = Resolved resp -> ok resp = true -> json resp = Normal data ->
      Stats.stats (page w2) = data /\ console w2 = console w) /\
  (forall err,
      fst (eval (Api.settled r) w) = Threw err ->
      Stats.stats (page w2) = Stats.stats later /\
      console w2 = (console w ++ [err])%list /\
      (Stats.stats later = JNull ->
       Stats.render (page w2)
       = Some {| Stats.manuais := JNum 0; Stats.pendentes := JNum 0;
                 Stats.nenhuma := true |})).
Proof.
  intros w1 w2. subst w1 w2.
  rewrite StatsFacts.stats_onMount.
  rewrite (settle_latest _ _ w later r).
  rewrite StatsFacts.stats_settled.
  match goal with |- context [eval (Api.settled r) ?W] => set (W0 := W) end.
  destruct (eval_settled_frame r W0) as [Hreq [win Hw]].
  pose proof (eval_settled_outcome r w W0) as Hout.
  assert (Hok : forall resp data, r = Resolved resp -> ok resp = true ->
                                  json resp = Normal data ->
                                  fst (eval (Api.settled r) W0) = Returned data).
  { intros resp data -> H1 H2. rewrite (eval_settled_ok resp data W0 H1 H2). reflexivity. }
  destruct (eval (Api.settled r) W0) as [o wf]. cbn [fst snd] in *. subst wf.
  destruct o as [data|err|rq k]; [| |discriminate].
  - subst W0. destruct w as [pg env win0 parse al co se wa un]. cbn.
    repeat match goal with |- _ /\ _ => split end; try reflexivity; try discriminate.
    + intros resp data0 H1 H2 H3. specialize (Hok resp data0 H1 H2 H3).
      injection Hok as <-. split; reflexivity.
    + intros err Herr. specialize (Hout err Herr). discriminate.
  - subst W0. destruct w as [pg env win0 parse al co se wa un]. cbn.
    repeat match goal with |- _ /\ _ => split end; try reflexivity; try discriminate.
    + intros resp data0 H1 H2 H3. specialize (Hok resp data0 H1 H2 H3). discriminate.
    + intros err0 Herr. specialize (Hout err0 Herr). injection Hout as <-.
      split; [reflexivity|]. split; [reflexivity|].
      intros Hnull. unfold Stats.render, Stats.total_manuais, Stats.total_pendentes,
        Stats.sem_atividade. cbn. rewrite Hnull. reflexivity.
Qed.

Lemma loadStats_always_ends_witness :
  let w := Scene.world Stats.initial [] [] in
  let w2 := settle 0 (Resolved Sample.refused) (with_page Stats.initial (run Stats.onMount w)) in
  console w2 = [Error "Falha ao salvar"] /\
  Stats.render (page w2)
  = Some {| Stats.manuais := JNum 0; Stats.pendentes := JNum 0; Stats.nenhuma := true |}.
Proof.
  intros w w2.
  destruct (loadStats_always_ends w Stats.initial (Resolved Sample.refused))
    as (_ & _ & _ & _ & _ & _ & _ & _ & Hfail).
  destruct (Hfail (Error "Falha ao salvar") eq_refl) as (_ & Hc & Hr).
  split; [exact Hc|]. apply Hr. reflexivity.
Defined.

(** ** Filter selector and its dropdowns *)




Module SelectorFacts.
Import FilterBar.

Lemma shown_offered (l : list string) (v placeholder : string) :
  In v l -> Dropdown.shown (map option_of l) v placeholder = v.
Proof.
  unfold Dropdown.shown, Dropdown.selectedOption.
  induction l as [|x rest IH]; intros Hin; [contradiction|]. cbn.
  destruct (String.eqb_spec x v) as [->|Hne]; [reflexivity|].
  destruct Hin as [Hx|Hin]; [contradiction|]. apply IH. exact Hin.
Qed.

Lemma shown_missing (options : list Option) (v placeholder : string) :
  ~ In v (map value options) -> Dropdown.shown options v placeholder = placeholder.
Proof.
  unfold Dropdown.shown, Dropdown.selectedOption.
  induction options as [|x rest IH]; intros Hin; [reflexivity|]. cbn.
  destruct (String.eqb_spec (value x) v) as [E|Hne];
    [exfalso; apply Hin; left; exact E|].
  apply IH. intros H. apply Hin. right. exact H.
Qed.

Lemma values_option_of (l : list string) : map value (map option_of l) = l.
Proof. rewrite map_map. cbn. apply map_id. Qed.

Lemma inherited_In (d : string) : inherited d = true <-> In d Object_prototype.
Proof.
  unfold inherited. rewrite existsb_exists. split.
  - intros (k & Hk & E). apply String.eqb_eq in E. subst. exact Hk.
  - intros H. exists d. split; [exact H|apply String.eqb_refl].
Qed.

Lemma not_inherited_In (d : string) : inherited d = false <-> ~ In d Object_prototype.
Proof.
  rewrite <- inherited_In. destruct (inherited d); split; congruence.
Qed.

(** The selected area, when there is one, is a key of the mapping, or the
    stored value where that names an inherited member. *)
Lemma area_known (usuario : option Usuario) (c : Component) :
  reachable usuario c ->
  area (state c) = "" \/
  In (area (state c)) (keys (areasMapping (state c))) \/
  exists u, usuario = Some u /\ area (state c) = disciplina u /\
            inherited (disciplina u) = true.
Proof.
  intros [events Hplay].
  set (P := fun c : Component =>
              (loading_filters c = true -> state c = initial) /\
              (area (state c) = "" \/
               In (area (state c)) (keys (areasMapping (state c))) \/
               exists u, usuario = Some u /\ area (state c) = disciplina u /\
                         inherited (disciplina u) = true)).
  assert (HP : P c).
  { eapply (FilterBarFacts.play_invariant usuario P); [| |exact Hplay].
    - intros c0 e [Hinit Ha] He. destruct e as [areas|err|val|val]; cbn in He |- *.
      + split; cbn; [discriminate|]. rewrite (Hinit He).
        unfold loadFilters. destruct usuario as [u|]; cbn; [|auto].
        destruct (truthy_str (disciplina u)) eqn:T; cbn; [|auto].
        destruct (FilterBarFacts.member_cases (disciplina u) areas)
          as [(discs & Ho & ->)|[(_ & Hi & ->)|(_ & _ & ->)]]; cbn.
        * right. left. eapply FilterBarFacts.own_in_keys. exact Ho.
        * right. right. exists u. auto.
        * destruct (scan (disciplina u) areas) as [a|] eqn:Sc; cbn; [|auto].
          right. left. eapply FilterBarFacts.scan_in_keys. exact Sc.
      + split; cbn; [discriminate|]. exact Ha.
      + destruct (loading_filters c0) eqn:L.
        * rewrite (Hinit eq_refl) in He. cbn in He. discriminate.
        * split; cbn; [discriminate|].
          unfold onAreaChange. destruct (unrestricted usuario) eqn:U; [|exact Ha].
          cbn. right. left. apply FilterBarFacts.offers_In in He.
          unfold areaOptions in He. rewrite map_map in He. cbn in He. rewrite map_id in He.
          apply filter_In in He. exact (proj1 He).
      + split; cbn; [|exact Ha]. intros L. rewrite (Hinit L) in He. cbn in He. discriminate.
    - split; [reflexivity|left; reflexivity]. }
  exact (proj2 HP).
Qed.

(** The render throws exactly where the selected area is no key and names
    an inherited member. *)
Lemma render_throws (s : State) (e : JsError) :
  disciplinaOptions s = Abrupt e ->
  area s <> "" /\ ~ In (area s) (keys (areasMapping s)) /\ inherited (area s) = true.
Proof.
  unfold disciplinaOptions, disciplinasDaArea.
  destruct (truthy_str (area s)) eqn:T; [|discriminate].
  destruct (FilterBarFacts.member_cases (area s) (areasMapping s))
    as [(discs & _ & ->)|[(Ho & Hi & ->)|(_ & _ & ->)]]; try discriminate.
  intros _. split; [|split; [|exact Hi]].
  - intros E. rewrite E in T. discriminate.
  - apply SelectionFacts.own_none_keys. exact Ho.
Qed.

Lemma render_options (s : State) (options : list Option) :
  disciplinaOptions s = Normal options ->
  exists discs, disciplinasDaArea s = Entry discs /\ options = map option_of discs.
Proof.
  unfold disciplinaOptions. destruct (disciplinasDaArea s) as [discs| |]; try discriminate.
  intros [= <-]. eauto.
Qed.

Lemma render_normal_key (s : State) (options : list Option) :
  disciplinaOptions s = Normal options ->
  inherited (area s) = true -> area s <> "" ->
  In (area s) (keys (areasMapping s)).
Proof.
  unfold disciplinaOptions, disciplinasDaArea. intros H Hi Hne.
  assert (T : truthy_str (area s) = true).
  { unfold truthy_str. apply negb_true_iff, String.eqb_neq. exact Hne. }
  rewrite T in H.
  destruct (FilterBarFacts.member_cases (area s) (areasMapping s))
    as [(discs & Ho & E)|[(_ & _ & E)|(_ & Hn & _)]].
  - eapply FilterBarFacts.own_in_keys. exact Ho.
  - rewrite E in H. discriminate.
  - congruence.
Qed.

(** With no area selected there is no discipline to pick. *)
Lemma no_area_no_discipline (s : State) :
  area s = "" -> disciplinaOptions s = Normal [].
Proof. intros E. unfold disciplinaOptions, disciplinasDaArea. rewrite E. reflexivity. Qed.

End SelectorFacts.

(** X16: in every state the filter selector reaches, if the render
    does not throw, each dropdown shows what is selected: the area's name
    when an area is selected, the discipline's name when a discipline is;
    with nothing selected it shows its placeholder (unless an option is
    named by the empty string).  The render throws only where the selected
    area is the user's stored value, names a member inherited from
    [Object.prototype] and is no key of the mapping. *)
Theorem dropdowns_show_selection (usuario : option FilterBar.Usuario)
        (c : FilterBar.Component) :
  FilterBar.reachable usuario c ->
  let s := FilterBar.state c in
  (forall options,
      FilterBar.disciplinaOptions s = Normal options ->
      (FilterBar.area s <> "" ->
       Dropdown.shown (FilterBar.areaOptions usuario s) (FilterBar.area s) "Selecione a Área"
       = FilterBar.area s) /\
      (FilterBar.disciplinaId s <> "" ->
       Dropdown.shown options (FilterBar.disciplinaId s) "Todas as disciplinas da área"
       = FilterBar.disciplinaId s) /\
      (FilterBar.area s = "" -> ~ In "" (FilterBar.keys (FilterBar.areasMapping s)) ->
       Dropdown.shown (FilterBar.areaOptions usuario s) (FilterBar.area s) "Selecione a Área"
       = "Selecione a Área") /\
      (FilterBar.disciplinaId s = "" -> ~ In "" (map FilterBar.value options) ->
       Dropdown.shown options (FilterBar.disciplinaId s) "Todas as disciplinas da área"
       = "Todas as disciplinas da área")) /\
  (forall e,
      FilterBar.disciplinaOptions s = Abrupt e ->
      exists u, usuario = Some u /\
                FilterBar.area s = FilterBar.disciplina u /\
                In (FilterBar.disciplina u) FilterBar.Object_prototype /\
                ~ In (FilterBar.disciplina u) (FilterBar.keys (FilterBar.areasMapping s))).
Proof.
  intros Hr s. subst s.
  pose proof (SelectorFacts.area_known usuario c Hr) as Ha.
  pose proof (proj2 (FilterBarFacts.reachable_consistent usuario c Hr)) as Hd.
  split.
  - intros options Hopt.
    destruct (SelectorFacts.render_options _ _ Hopt) as (discs & Hdiscs & ->).
    split; [|split; [|split]].
    + intros Hne. unfold FilterBar.areaOptions. apply SelectorFacts.shown_offered.
      apply filter_In. split; [|rewrite String.eqb_refl; apply orb_true_r].
      destruct Ha as [Ha|[Ha|(u & _ & Hu & Hi)]]; [contradiction|exact Ha|].
      apply (SelectorFacts.render_normal_key _ _ Hopt); [|exact Hne].
      rewrite Hu. exact Hi.
    + intros Hne. apply SelectorFacts.shown_offered.
      destruct Hd as [Hd|(discs' & Hd & Hin)]; [contradiction|].
      rewrite Hdiscs in Hd. injection Hd as <-. exact Hin.
    + intros He Hno. rewrite He. apply SelectorFacts.shown_missing.
      unfold FilterBar.areaOptions. rewrite SelectorFacts.values_option_of.
      intros Hin. apply filter_In in Hin. exact (Hno (proj1 Hin)).
    + intros He Hno. rewrite He. apply SelectorFacts.shown_missing. exact Hno.
  - intros e He. destruct (SelectorFacts.render_throws _ _ He) as (Hne & Hk & Hi).
    destruct Ha as [Ha|[Ha|(u & Hu & Hau & _)]]; [contradiction|contradiction|].
    exists u. rewrite <- Hau. split; [exact Hu|]. split; [reflexivity|].
    split; [apply SelectorFacts.inherited_In; exact Hi|exact Hk].
Qed.

Lemma dropdowns_show_selection_witness :
  let s := FilterBar.onDisciplinaChange "Física"
             (FilterBar.loadFilters (Some Sample.professora) Sample.exatas FilterBar.initial) in
  Dropdown.shown (FilterBar.areaOptions (Some Sample.professora) s) (FilterBar.area s)
                 "Selecione a Área" = "Exatas" /\
  Dropdown.shown [{| FilterBar.value := "Matemática"; FilterBar.label := "Matemática" |};
                  {| FilterBar.value := "Física"; FilterBar.label := "Física" |}]
                 (FilterBar.disciplinaId s) "Todas as disciplinas da área" = "Física".
Proof.
  intros s.
  assert (Hr : FilterBar.reachable (Some Sample.professora)
                 {| FilterBar.state := s; FilterBar.loading_filters := false |}).
  { exists [FilterBar.Loaded Sample.exatas; FilterBar.DisciplinaPicked "Física"].
    reflexivity. }
  destruct (proj1 (dropdowns_show_selection (Some Sample.professora) _ Hr) _ eq_refl)
    as (Ha & Hd & _).
  split.
  - apply Ha. discriminate.
  - apply Hd. discriminate.
Defined.

Module NotifyFacts.

(** While no step changes the selection, the effect does not run again. *)
Lemma notified_none (usuario : option FilterBar.Usuario) (P : FilterBar.Component -> Prop) :
  (forall c e, P c -> FilterBar.enabled usuario c e = true ->
               P (FilterBar.handle usuario e c) /\
               FilterBar.changed (FilterBar.state c)
                                 (FilterBar.state (FilterBar.handle usuario e c)) = false) ->
  forall events c, P c -> FilterBar.notified usuario events c = [].
Proof.
  intros Hstep events. induction events as [|e rest IH]; intros c Hc; cbn; [reflexivity|].
  destruct (FilterBar.enabled usuario c e) eqn:E; [|reflexivity].
  destruct (Hstep c e Hc E) as [Hc' Hsame]. rewrite Hsame, (IH _ Hc').
  destruct (FilterBar.disciplinaOptions _); reflexivity.
Qed.

Lemma classificar_mount_request (a0 : string) (w : World Classificar.State) :
  a0 <> "" ->
  map url (sent (run (Classificar.onMount (Classificar.initial a0)) w))
  = (map url (sent w)
     ++ [(Api.base_url w ++ "/proxima?area=" ++ form_encode a0)%string])%list.
Proof.
  intros Hne. rewrite ClassificarFacts.classificar_onMount.
  rewrite ClassificarFacts.classificar_fetchProxima.
  cbn [Classificar.initial Classificar.area Classificar.disciplinaFiltro].
  rewrite ClassificarFacts.classificar_params_cases.
  apply String.eqb_neq in Hne. rewrite Hne. cbn [String.eqb].
  destruct w as [pg env win parse al co se wa un]. cbn. rewrite map_app. reflexivity.
Qed.

Lemma classificar_unfiltered (p : Classificar.State) (w : World Classificar.State) :
  Classificar.area p <> "" \/ Classificar.disciplinaFiltro p <> "" ->
  let w' := run (Classificar.onFilterChange p "" "") w in
  map url (sent w') = (map url (sent w) ++ [(Api.base_url w ++ "/proxima")%string])%list /\
  Classificar.area (page w') = "" /\
  Classificar.disciplinaFiltro (page w') = "" /\
  Classificar.loading (page w') = true.
Proof.
  intros Hne w'. subst w'.
  rewrite ClassificarFacts.classificar_onFilterChange.
  - rewrite ClassificarFacts.classificar_fetchProxima.
    destruct w as [pg env win parse al co se wa un]. cbn. rewrite map_app.
    repeat split.
  - apply andb_false_iff.
    destruct Hne as [H|H]; [left|right]; apply String.eqb_neq; congruence.
Qed.

Lemma classificar_unnotified (p : Classificar.State) (w : World Classificar.State) :
  Classificar.area p = "" -> Classificar.disciplinaFiltro p = "" ->
  sent (run (Classificar.onFilterChange p "" "") w) = sent w.
Proof.
  intros Ha Hd. unfold Classificar.onFilterChange. rewrite Ha, Hd.
  destruct w as [pg env win parse al co se wa un]. reflexivity.
Qed.

Lemma verificar_mount_request (a0 : string) (w : World Verificar.State) :
  a0 <> "" ->
  map url (sent (run (Verificar.onMount (Verificar.initial a0)) w))
  = (map url (sent w)
     ++ [(Api.base_url w ++ "/proxima-low-match?area=" ++ form_encode a0)%string])%list.
Proof.
  intros Hne. unfold Verificar.onMount. cbn [run].
  rewrite VerificarFacts.verificar_fetchProxima.
  cbn [Verificar.initial Verificar.area Verificar.disciplinaFiltro].
  rewrite VerificarFacts.verificar_params_cases.
  apply String.eqb_neq in Hne. rewrite Hne. cbn [String.eqb].
  destruct w as [pg env win parse al co se wa un]. cbn. rewrite map_app. reflexivity.
Qed.

Lemma verificar_unfiltered (p : Verificar.State) (w : World Verificar.State) :
  Verificar.area p <> "" \/ Verificar.disciplinaFiltro p <> "" ->
  let w' := run (Verificar.onFilterChange p "" "") w in
  map url (sent w')
  = (map url (sent w) ++ [(Api.base_url w ++ "/proxima-low-match")%string])%list /\
  Verificar.area (page w') = "" /\
  Verificar.disciplinaFiltro (page w') = "" /\
  Verificar.loading (page w') = true.
Proof.
  intros Hne w'. subst w'.
  rewrite VerificarFacts.verificar_onFilterChange.
  - rewrite VerificarFacts.verificar_fetchProxima.
    destruct w as [pg env win parse al co se wa un]. cbn. rewrite map_app.
    repeat split.
  - apply andb_false_iff.
    destruct Hne as [H|H]; [left|right]; apply String.eqb_neq; congruence.
Qed.

Lemma verificar_unnotified (p : Verificar.State) (w : World Verificar.State) :
  Verificar.area p = "" -> Verificar.disciplinaFiltro p = "" ->
  sent (run (Verificar.onFilterChange p "" "") w) = sent w.
Proof.
  intros Ha Hd. unfold Verificar.onFilterChange. rewrite Ha, Hd.
  destruct w as [pg env win parse al co se wa un]. reflexivity.
Qed.

End NotifyFacts.

(** X17: for a user, no administrator, whose stored value is no key
    of the mapping, no name of an inherited member and in no list of the
    mapping, the selector never leaves the empty selection: area and
    discipline stay empty whatever is clicked, no discipline is offered, no
    area either unless one is named by the empty string, and the selector
    hands the pair ("", "") to [onFilterChange] once, at its mount, and
    nothing afterwards.  The page itself is mounted with the stored value
    as its area: its first request carries that value as the area filter,
    and the selector's notification then makes it request the next question
    again, with no filter, and clears its area. *)
Theorem unresolved_area_means_no_filter (u : FilterBar.Usuario) (areas : FilterBar.Mapping)
        (events : list FilterBar.Event) (c : FilterBar.Component) :
  FilterBar.is_admin u = false ->
  FilterBar.disciplina u <> "" ->
  ~ In (FilterBar.disciplina u) (FilterBar.keys areas) ->
  ~ In (FilterBar.disciplina u) FilterBar.Object_prototype ->
  (forall entry, In entry areas -> ~ In (FilterBar.disciplina u) (snd entry)) ->
  FilterBar.play (Some u) (FilterBar.Loaded areas :: events) FilterBar.mount = Some c ->
  let d := FilterBar.disciplina u in
  let s := FilterBar.state c in
  FilterBar.area s = "" /\
  FilterBar.disciplinaId s = "" /\
  (forall o, In o (FilterBar.areaOptions (Some u) s) ->
             o = {| FilterBar.value := ""; FilterBar.label := "" |}) /\
  (~ In "" (FilterBar.keys areas) -> FilterBar.areaOptions (Some u) s = []) /\
  FilterBar.disciplinaOptions s = Normal [] /\
  FilterBar.notifications (Some u) (FilterBar.Loaded areas :: events) = [("", "")] /\
  (forall w : World Classificar.State,
      map url (sent (run (Classificar.onMount (Classificar.initial d)) w))
      = (map url (sent w)
         ++ [(Api.base_url w ++ "/proxima?area=" ++ form_encode d)%string])%list) /\
  (forall (p : Classificar.State) (w : World Classificar.State),
      Classificar.area p = d ->
      let w' := run (Classificar.onFilterChange p (FilterBar.area s)
                                                (FilterBar.disciplinaId s)) w in
      map url (sent w') = (map url (sent w) ++ [(Api.base_url w ++ "/proxima")%string])%list /\
      Classificar.area (page w') = "" /\
      Classificar.disciplinaFiltro (page w') = "") /\
  (forall w : World Verificar.State,
      map url (sent (run (Verificar.onMount (Verificar.initial d)) w))
      = (map url (sent w)
         ++ [(Api.base_url w ++ "/proxima-low-match?area=" ++ form_encode d)%string])%list) /\
  (forall (p : Verificar.State) (w : World Verificar.State),
      Verificar.area p = d ->
      let w' := run (Verificar.onFilterChange p (FilterBar.area s)
                                               (FilterBar.disciplinaId s)) w in
      map url (sent w')
      = (map url (sent w) ++ [(Api.base_url w ++ "/proxima-low-match")%string])%list /\
      Verificar.area (page w') = "" /\
      Verificar.disciplinaFiltro (page w') = "").
Proof.
  intros Hadm Hd Hk Hproto Hlists Hplay d s. subst s.
  assert (T : truthy_str d = true).
  { unfold truthy_str. apply negb_true_iff, String.eqb_neq. exact Hd. }
  assert (Hres : FilterBar.resolve d areas = None).
  { rewrite (SelectionFacts.resolve_scan d areas Hk)
      by (apply SelectorFacts.not_inherited_In; exact Hproto).
    apply SelectionFacts.scan_absent. exact Hlists. }
  set (P := fun c : FilterBar.Component =>
              FilterBar.loading_filters c = false /\
              FilterBar.area (FilterBar.state c) = "" /\
              FilterBar.disciplinaId (FilterBar.state c) = "" /\
              FilterBar.areasMapping (FilterBar.state c) = areas).
  assert (Hstep : forall c0 e, P c0 -> FilterBar.enabled (Some u) c0 e = true ->
                    P (FilterBar.handle (Some u) e c0) /\
                    FilterBar.changed (FilterBar.state c0)
                                      (FilterBar.state (FilterBar.handle (Some u) e c0)) = false).
  { intros c0 e (Hl & Ha & Hdi & Hm) He. destruct e as [m|err|val|val]; cbn in He.
    - rewrite Hl in He. discriminate.
    - rewrite Hl in He. discriminate.
    - cbn [FilterBar.handle FilterBar.state].
      unfold P, FilterBar.onAreaChange, FilterBar.unrestricted, FilterBar.changed.
      fold d. rewrite T, Hadm. cbn. rewrite !String.eqb_refl. auto.
    - rewrite (SelectorFacts.no_area_no_discipline _ Ha) in He. discriminate. }
  assert (Hfirst : P (FilterBar.handle (Some u) (FilterBar.Loaded areas) FilterBar.mount)).
  { unfold P. cbn [FilterBar.handle FilterBar.state FilterBar.loading_filters].
    rewrite FilterBarFacts.loadFilters_resolve by exact T. fold d. rewrite Hres. cbn. auto. }
  cbn [FilterBar.play FilterBar.enabled FilterBar.mount FilterBar.loading_filters] in Hplay.
  assert (HP : P c).
  { eapply (FilterBarFacts.play_invariant (Some u) P); [| |exact Hplay].
    - intros c0 e Hc0 He. exact (proj1 (Hstep c0 e Hc0 He)).
    - exact Hfirst. }
  destruct HP as (_ & Ha & Hdi & Hm).
  assert (Hopts : FilterBar.areaOptions (Some u) (FilterBar.state c)
                  = map FilterBar.option_of
                        (filter (fun a => (a =? "")%string) (FilterBar.keys areas))).
  { rewrite SelectionFacts.restricted_options by assumption. rewrite Ha, Hm. reflexivity. }
  rewrite Ha, Hdi.
  split; [reflexivity|]. split; [reflexivity|]. split.
  { intros o Ho. rewrite Hopts in Ho. apply in_map_iff in Ho.
    destruct Ho as (a & <- & Hin). apply filter_In in Hin.
    destruct Hin as [_ E]. apply String.eqb_eq in E. subst a. reflexivity. }
  split.
  { intros Hno. rewrite Hopts, SelectionFacts.filter_eqb_absent by exact Hno. reflexivity. }
  split; [apply SelectorFacts.no_area_no_discipline; exact Ha|].
  split.
  { unfold FilterBar.notifications.
    cbn [FilterBar.notified FilterBar.enabled FilterBar.mount FilterBar.loading_filters].
    destruct Hfirst as (Hl1 & Ha1 & Hd1 & Hm1).
    rewrite (SelectorFacts.no_area_no_discipline _ Ha1).
    unfold FilterBar.changed. rewrite Ha1, Hd1. cbn [FilterBar.initial FilterBar.area
      FilterBar.disciplinaId FilterBar.mount FilterBar.state String.eqb andb negb app].
    rewrite (NotifyFacts.notified_none (Some u) P Hstep); [reflexivity|].
    unfold P. auto. }
  split; [intros w; apply NotifyFacts.classificar_mount_request; exact Hd|].
  split.
  { intros p w Hp w'.
    destruct (NotifyFacts.classificar_unfiltered p w) as (H1 & H2 & H3 & _).
    - left. rewrite Hp. exact Hd.
    - auto. }
  split; [intros w; apply NotifyFacts.verificar_mount_request; exact Hd|].
  intros p w Hp w'.
  destruct (NotifyFacts.verificar_unfiltered p w) as (H1 & H2 & H3 & _).
  - left. rewrite Hp. exact Hd.
  - auto.
Qed.

Lemma unresolved_area_means_no_filter_witness :
  let u := {| FilterBar.id := 2; FilterBar.nome := "Rui"; FilterBar.email := "rui@escola.br";
              FilterBar.disciplina := "Ciências"; FilterBar.is_admin := false;
              FilterBar.ativo := true |} in
  let areas := [("Humanas", ["História"; "Geografia"])] in
  let w := Sample.world (Classificar.initial "Ciências") Sample.session in
  let w1 := run (Classificar.onMount (Classificar.initial "Ciências")) w in
  let w2 := run (Classificar.onFilterChange (page w1) "" "") w1 in
  FilterBar.notifications (Some u) [FilterBar.Loaded areas] = [("", "")] /\
  map url (sent w1) = ["http://localhost:8000/classificacao/proxima?area=Ci%C3%AAncias"] /\
  map url (sent w2) = ["http://localhost:8000/classificacao/proxima?area=Ci%C3%AAncias";
                       "http://localhost:8000/classificacao/proxima"] /\
  Classificar.area (page w2) = "".
Proof.
  intros u areas w w1 w2.
  assert (Hk : ~ In (FilterBar.disciplina u) (FilterBar.keys areas)).
  { cbn. intros [H|[]]. discriminate. }
  assert (Hp : ~ In (FilterBar.disciplina u) FilterBar.Object_prototype).
  { cbn. intuition discriminate. }
  assert (Hl : forall entry, In entry areas -> ~ In (FilterBar.disciplina u) (snd entry)).
  { intros entry [<-|[]]. cbn. intuition discriminate. }
  destruct (unresolved_area_means_no_filter u areas [] _ eq_refl ltac:(discriminate)
              Hk Hp Hl eq_refl) as (_ & _ & _ & _ & _ & Hn & Hmount & Hnotify & _).
  split; [exact Hn|]. split; [exact (Hmount w)|].
  destruct (Hnotify (page w1) w1 eq_refl) as (Hurl & Harea & _).
  split; [|exact Harea].
  etransitivity; [exact Hurl|]. reflexivity.
Defined.

(** X18: when the mapping cannot be loaded the selector stays as it
    was mounted, for every user: nothing is selected, nothing can be picked
    and no second answer is taken, both dropdowns are without options (the
    open menu shows its notice, the closed control its placeholder), and
    the selector hands the pair ("", "") to [onFilterChange] once, at its
    mount.  A page mounted with a stored area has requested its first
    question with that area as filter; the notification makes it request
    again with no filter and clears its area. *)
Theorem failed_filter_load_leaves_no_filter (usuario : option FilterBar.Usuario)
        (err : JsError) (events : list FilterBar.Event) (c : FilterBar.Component) :
  FilterBar.play usuario (FilterBar.LoadFailed err :: events) FilterBar.mount = Some c ->
  let s := FilterBar.state c in
  s = FilterBar.initial /\
  (forall e, FilterBar.enabled usuario c e = false) /\
  FilterBar.areaOptions usuario s = [] /\
  FilterBar.disciplinaOptions s = Normal [] /\
  Dropdown.menu true (FilterBar.areaOptions usuario s) = Some ([], true) /\
  Dropdown.shown (FilterBar.areaOptions usuario s) (FilterBar.area s) "Selecione a Área"
  = "Selecione a Área" /\
  FilterBar.notifications usuario (FilterBar.LoadFailed err :: events) = [("", "")] /\
  (forall (a0 : string) (w : World Classificar.State),
      a0 <> "" -> page w = Classificar.initial a0 ->
      let w1 := run (Classificar.onMount (Classificar.initial a0)) w in
      let w2 := run (Classificar.onFilterChange (page w1) (FilterBar.area s)
                                                (FilterBar.disciplinaId s)) w1 in
      map url (sent w2)
      = (map url (sent w)
         ++ [(Api.base_url w ++ "/proxima?area=" ++ form_encode a0)%string;
             (Api.base_url w ++ "/proxima")%string])%list /\
      Classificar.area (page w2) = "" /\
      Classificar.disciplinaFiltro (page w2) = "") /\
  (forall (a0 : string) (w : World Verificar.State),
      a0 <> "" -> page w = Verificar.initial a0 ->
      let w1 := run (Verificar.onMount (Verificar.initial a0)) w in
      let w2 := run (Verificar.onFilterChange (page w1) (FilterBar.area s)
                                               (FilterBar.disciplinaId s)) w1 in
      map url (sent w2)
      = (map url (sent w)
         ++ [(Api.base_url w ++ "/proxima-low-match?area=" ++ form_encode a0)%string;
             (Api.base_url w ++ "/proxima-low-match")%string])%list /\
      Verificar.area (page w2) = "" /\
      Verificar.disciplinaFiltro (page w2) = "").
Proof.
  intros Hplay s. subst s.
  set (P := fun c : FilterBar.Component =>
              FilterBar.loading_filters c = false /\ FilterBar.state c = FilterBar.initial).
  assert (Hnone : forall c0 e, P c0 -> FilterBar.enabled usuario c0 e = false).
  { intros c0 e (Hl & Hs). destruct e as [m|err0|val|val]; cbn.
    - exact Hl.
    - exact Hl.
    - rewrite Hs. reflexivity.
    - rewrite Hs. reflexivity. }
  assert (Hstep : forall c0 e, P c0 -> FilterBar.enabled usuario c0 e = true ->
                    P (FilterBar.handle usuario e c0) /\
                    FilterBar.changed (FilterBar.state c0)
                                      (FilterBar.state (FilterBar.handle usuario e c0)) = false).
  { intros c0 e Hc0 He. rewrite (Hnone c0 e Hc0) in He. discriminate. }
  assert (Hfirst : P (FilterBar.handle usuario (FilterBar.LoadFailed err) FilterBar.mount)).
  { split; reflexivity. }
  cbn [FilterBar.play FilterBar.enabled FilterBar.mount FilterBar.loading_filters] in Hplay.
  assert (HP : P c).
  { eapply (FilterBarFacts.play_invariant usuario P); [| |exact Hplay].
    - intros c0 e Hc0 He. exact (proj1 (Hstep c0 e Hc0 He)).
    - exact Hfirst. }
  pose proof (Hnone c) as Hdis. destruct HP as [Hl Hs]. rewrite Hs.
  split; [reflexivity|]. split; [intros e; apply Hdis; split; assumption|].
  split; [reflexivity|]. split; [reflexivity|]. split; [reflexivity|].
  split; [reflexivity|]. split.
  { unfold FilterBar.notifications.
    cbn [FilterBar.notified FilterBar.enabled FilterBar.mount FilterBar.loading_filters
         FilterBar.handle FilterBar.state].
    change (FilterBar.disciplinaOptions FilterBar.initial) with (Normal (@nil FilterBar.Option)).
    cbn [FilterBar.changed FilterBar.initial FilterBar.area FilterBar.disciplinaId
         String.eqb andb negb app].
    rewrite (NotifyFacts.notified_none usuario P Hstep); [reflexivity|exact Hfirst]. }
  split.
  - intros a0 w Hne Hpage w1 w2.
    pose proof (NotifyFacts.classificar_mount_request a0 w Hne) as Hm. fold w1 in Hm.
    assert (Hw1 : Api.base_url w1 = Api.base_url w /\ Classificar.area (page w1) = a0).
    { subst w1. rewrite ClassificarFacts.classificar_onMount,
        ClassificarFacts.classificar_fetchProxima.
      destruct w as [pg env win parse al co se wa un]. cbn in Hpage. subst pg.
      split; reflexivity. }
    destruct Hw1 as [Hb Ha1].
    destruct (NotifyFacts.classificar_unfiltered (page w1) w1) as (Hu & Ha & Hd & _).
    { left. rewrite Ha1. exact Hne. }
    subst w2. cbn [FilterBar.initial FilterBar.area FilterBar.disciplinaId].
    split; [|split; assumption].
    rewrite Hu, Hm, Hb, <- app_assoc. reflexivity.
  - intros a0 w Hne Hpage w1 w2.
    pose proof (NotifyFacts.verificar_mount_request a0 w Hne) as Hm. fold w1 in Hm.
    assert (Hw1 : Api.base_url w1 = Api.base_url w /\ Verificar.area (page w1) = a0).
    { subst w1. unfold Verificar.onMount. cbn [run].
      rewrite VerificarFacts.verificar_fetchProxima.
      destruct w as [pg env win parse al co se wa un]. cbn in Hpage. subst pg.
      split; reflexivity. }
    destruct Hw1 as [Hb Ha1].
    destruct (NotifyFacts.verificar_unfiltered (page w1) w1) as (Hu & Ha & Hd & _).
    { left. rewrite Ha1. exact Hne. }
    subst w2. cbn [FilterBar.initial FilterBar.area FilterBar.disciplinaId].
    split; [|split; assumption].
    rewrite Hu, Hm, Hb, <- app_assoc. reflexivity.
Qed.

Lemma failed_filter_load_leaves_no_filter_witness :
  let w := Sample.world (Verificar.initial "Exatas") Sample.session in
  let w1 := run (Verificar.onMount (Verificar.initial "Exatas")) w in
  let w2 := run (Verificar.onFilterChange (page w1) "" "") w1 in
  FilterBar.notifications (Some Sample.professora)
                          [FilterBar.LoadFailed (Error "Failed to fetch")] = [("", "")] /\
  map url (sent w2) = ["http://localhost:8000/classificacao/proxima-low-match?area=Exatas";
                       "http://localhost:8000/classificacao/proxima-low-match"] /\
  Verificar.area (page w2) = "".
Proof.
  intros w w1 w2.
  destruct (failed_filter_load_leaves_no_filter (Some Sample.professora)
              (Error "Failed to fetch") []
              {| FilterBar.state := FilterBar.initial; FilterBar.loading_filters := false |}
              eq_refl) as (_ & _ & _ & _ & _ & _ & Hn & _ & Hv).
  split; [exact Hn|].
  destruct (Hv "Exatas" w ltac:(discriminate) eq_refl) as (Hurl & Ha & _).
  split; [|exact Ha]. etransitivity; [exact Hurl|reflexivity].
Defined.

(** ** What a render of a review page reads *)

Lemma eval_review_usuario {S : Type} (w : World S) :
  eval Review.usuario w
  = match window w with
    | None => (Returned JNull, w)
    | Some _ =>
        match JSON_parse w (match stored w "usuario" with
                            | Some text => if (text =? "")%string then "{}" else text
                            | None => "{}"
                            end) with
        | Normal v => (Returned v, w)
        | Abrupt e => (Threw e, w)
        end
    end.
Proof.
  unfold stored. destruct w as [pg env win parse al co se wa un].
  destruct win as [b|]; [|reflexivity]. cbn.
  destruct (localStorage b !! "usuario") as [text|]; cbn.
  - unfold str_or, truthy_str. destruct (text =? "")%string; cbn;
      match goal with |- context [parse ?t] => destruct (parse t) end; reflexivity.
  - destruct (parse "{}"); reflexivity.
Qed.

(** X19: what a render of a review page reads from the store.  On the
    server [usuario] is [null]; in a browser with no stored user, or an
    empty one, it is the empty object; a stored text that parses gives its
    document, as [getUsuario()] does; a stored text that does not parse
    makes the render throw the parser's error, where [getUsuario()] returns
    [null].  So a render throws after a [setAuth] without a user, and after
    a [setAuth] with a user whose [disciplina] is a string the page starts
    with that area; without a user, or without an area, it starts
    with none. *)
Theorem render_reads_usuario {S : Type} (w : World S) :
  (window w = None -> eval Review.usuario w = (Returned JNull, w)) /\
  (forall b, window w = Some b ->
             stored w "usuario" = None \/ stored w "usuario" = Some "" ->
             JSON_parse w "{}" = Normal (JObj []) ->
             eval Review.usuario w = (Returned (JObj []), w)) /\
  (forall text u, stored w "usuario" = Some text -> text <> "" ->
                  JSON_parse w text = Normal u ->
                  eval Review.usuario w = (Returned u, w) /\
                  eval Auth.getUsuario w = (Returned u, w)) /\
  (forall text e, stored w "usuario" = Some text -> text <> "" ->
                  JSON_parse w text = Abrupt e ->
                  eval Review.usuario w = (Threw e, w) /\
                  eval Auth.getUsuario w = (Returned JNull, w)) /\
  (forall token b e, window w = Some b -> JSON_parse w "undefined" = Abrupt e ->
                     let w' := snd (task_eval (setAuth token None) w) in
                     eval Review.usuario w' = (Threw e, w')) /\
  (forall token b u d, window w = Some b -> JSON_parse w (JSON_text u) = Normal u ->
                       prop u "disciplina" = Some (JStr d) ->
                       let w' := snd (task_eval (setAuth token (Some u)) w) in
                       eval Review.usuario w' = (Returned u, w') /\
                       Review.area0 u = JStr d) /\
  Review.area0 JNull = JStr "" /\
  Review.area0 (JObj []) = JStr "" /\
  (forall u d, prop u "disciplina" = Some (JStr d) -> Review.area0 u = JStr d).
Proof.
  rewrite eval_review_usuario.
  repeat match goal with |- _ /\ _ => split end.
  - intros ->. reflexivity.
  - intros b -> [-> | ->] Hp; cbn; rewrite Hp; reflexivity.
  - intros text u Hs Hne Hp. unfold stored in Hs.
    destruct (window w) as [b|] eqn:Hw; [|discriminate]. 
    assert (Hs' : stored w "usuario" = Some text) by (unfold stored; rewrite Hw; exact Hs).
    rewrite Hs'. destruct (String.eqb_spec text ""); [contradiction|]. rewrite Hp.
    split; [reflexivity|].
    rewrite (eval_getUsuario_stored w text Hs'), Hp; [reflexivity|].
    unfold truthy_str. apply negb_true_iff, String.eqb_neq. assumption.
  - intros text e Hs Hne Hp. unfold stored in Hs.
    destruct (window w) as [b|] eqn:Hw; [|discriminate]. 
    assert (Hs' : stored w "usuario" = Some text) by (unfold stored; rewrite Hw; exact Hs).
    rewrite Hs'. destruct (String.eqb_spec text ""); [contradiction|]. rewrite Hp.
    split; [reflexivity|].
    rewrite (eval_getUsuario_stored w text Hs'), Hp; [reflexivity|].
    unfold truthy_str. apply negb_true_iff, String.eqb_neq. assumption.
  - intros token b e Hb Hp w'. subst w'.
    rewrite (eval_setAuth token None w b Hb). cbn [snd].
    rewrite eval_review_usuario.
    destruct w as [pg env win parse al co se wa un]. cbn in Hb, Hp. subst win.
    unfold stored. cbn [window with_window localStorage JSON_parse].
    replace (<["usuario" := "undefined"]> (<["token" := String_of token]> (localStorage b))
               !! "usuario") with (Some "undefined") by (by simplify_map_eq).
    cbn. rewrite Hp. reflexivity.
  - intros token b u d Hb Hp Hd w'. subst w'.
    rewrite (eval_setAuth token (Some u) w b Hb). cbn [snd].
    rewrite eval_review_usuario.
    destruct w as [pg env win parse al co se wa un]. cbn in Hb, Hp. subst win.
    unfold stored. cbn [window with_window localStorage JSON_parse].
    replace (<["usuario" := JSON_text u]> (<["token" := String_of token]> (localStorage b))
               !! "usuario") with (Some (JSON_text u)) by (by simplify_map_eq).
    pose proof (JSON_text_truthy u) as T. unfold truthy_str in T.
    apply negb_true_iff in T. rewrite T, Hp. split; [reflexivity|].
    unfold Review.area0, optional, or_else.
    destruct u; cbn in Hd |- *; try discriminate. rewrite Hd. cbn.
    destruct d; reflexivity.
  - reflexivity.
  - reflexivity.
  - intros u d Hd. unfold Review.area0, optional, or_else.
    destruct u; cbn in Hd |- *; try discriminate. rewrite Hd. cbn.
    destruct d; reflexivity.
Qed.

Lemma render_reads_usuario_witness :
  let w := Scene.world tt [("usuario", "{oops")] [] in
  eval Review.usuario w = (Threw (mkError "SyntaxError" "Unexpected token"), w) /\
  eval Auth.getUsuario w = (Returned JNull, w).
Proof.
  intros w.
  destruct (render_reads_usuario w) as (_ & _ & _ & Hbad & _).
  apply (Hbad "{oops" (mkError "SyntaxError" "Unexpected token")).
  - reflexivity.
  - discriminate.
  - reflexivity.
Defined.

Module ScreenFacts.

Lemma verificar_question_arrives (resp : Response) (data : JSON) (w : World Verificar.State) :
  ok resp = true -> json resp = Normal data ->
  run (Verificar.fetchProxima_settled (Resolved resp)) w
  = with_page (Verificar.setLoading false (Verificar.setQuestao data (page w))) w.
Proof.
  intros Hok Hv. unfold Verificar.fetchProxima_settled.
  rewrite run_eval, eval_try_finally, eval_try_catch, eval_bind.
  rewrite (eval_settled_ok resp data w Hok Hv).
  destruct w as [pg env win parse al co se wa un]. reflexivity.
Qed.

Lemma verificar_no_question (r : FetchResult) (err : JsError) (w : World Verificar.State) :
  fst (eval (Api.settled r) w) = Threw err ->
  page (run (Verificar.fetchProxima_settled r) w)
  = Verificar.setLoading false
      (Verificar.setError (str_or (message err)
                                  "Nenhuma questão de baixa similaridade pendente.")
                          (page w)).
Proof.
  intros Herr. unfold Verificar.fetchProxima_settled.
  rewrite run_eval, eval_try_finally, eval_try_catch, eval_bind.
  destruct (eval_settled_frame r w) as [_ [win Hw]].
  destruct (eval (Api.settled r) w) as [o wf]. cbn in Herr, Hw. subst o wf.
  destruct w as [pg env win0 parse al co se wa un]. reflexivity.
Qed.

(** The message a failed fetch leaves is not empty. *)
Lemma shown_message (msg fallback : string) :
  fallback <> "" ->
  str_or msg fallback = (if (msg =? "")%string then fallback else msg) /\
  truthy_str (str_or msg fallback) = true.
Proof.
  intros Hf. unfold str_or, truthy_str.
  destruct (String.eqb_spec msg "") as [E|E]; cbn; split; try reflexivity.
  - apply negb_true_iff, String.eqb_neq. exact Hf.
  - apply negb_true_iff, String.eqb_neq. exact E.
Qed.

Section Card.
Variable positive : JSON -> Completion bool.

(** What the module list shows for an array without [null]. *)
Lemma each_modulo (ms : list JSON) :
  Forall (fun m => m <> JNull) ms ->
  exists views,
    each ClassificarCard.modulo_item ms = Normal views /\
    map ClassificarCard.picked views = ms /\
    map ClassificarCard.key views = map (fun m => prop m "id") ms /\
    map ClassificarCard.modulo views = map (fun m => prop m "modulo") ms /\
    map ClassificarCard.descricao views = map (fun m => prop m "descricao") ms.
Proof.
  induction 1 as [|m ms Hm _ (views & He & Hp & Hk & Hn & Hd)].
  - exists []. repeat split.
  - cbn [each]. rewrite He. unfold ClassificarCard.modulo_item, get.
    destruct m; try contradiction;
      (eexists; split; [reflexivity|]; cbn; rewrite Hp, Hk, Hn, Hd; repeat split).
Qed.

(** A [null] among the modules makes the list throw. *)
Lemma each_modulo_null (ms : list JSON) :
  In JNull ms -> exists e, each ClassificarCard.modulo_item ms = Abrupt e.
Proof.
  induction ms as [|m ms IH]; [intros []|]. intros [->|Hin]; cbn.
  - eexists. reflexivity.
  - destruct (ClassificarCard.modulo_item m); [|eexists; reflexivity].
    destruct (IH Hin) as [e ->]. eexists. reflexivity.
Qed.

Lemma each_alternativa (alts : list JSON) :
  Forall (fun a => a <> JNull) alts ->
  exists views,
    each ClassificarCard.alternativa alts = Normal views /\
    map ClassificarCard.correta views = map (fun a => truthy_val (prop a "correta")) alts /\
    map ClassificarCard.conteudo views
    = map (fun a => or_val (prop a "conteudo_html") (prop a "conteudo")) alts.
Proof.
  induction 1 as [|a alts Ha _ (views & He & Hc & Hd)].
  - exists []. repeat split.
  - cbn [each]. rewrite He. unfold ClassificarCard.alternativa, get.
    destruct a; try contradiction;
      (eexists; split; [reflexivity|]; cbn; rewrite Hc, Hd; repeat split).
Qed.

(** The alternatives of a question that has none, or has an array of
    them. *)
Lemma alternativas_none (q : JSON) :
  truthy_val (prop q "alternativas") = false ->
  ClassificarCard.alternativas positive q = Normal [].
Proof.
  unfold ClassificarCard.alternativas, truthy_val.
  destruct (prop q "alternativas") as [alts|]; [|reflexivity]. intros ->. reflexivity.
Qed.

Lemma alternativas_array (q : JSON) (alts : list JSON) :
  prop q "alternativas" = Some (JArr alts) ->
  ClassificarCard.alternativas positive q = each ClassificarCard.alternativa alts.
Proof.
  unfold ClassificarCard.alternativas. intros ->. cbn.
  destruct alts; reflexivity.
Qed.

(** Without an array of modules there is no card. *)
Lemma card_needs_modules (q : JSON) :
  (forall ms, prop q "modulos_possiveis" <> Some (JArr ms)) ->
  exists e, ClassificarCard.card positive q = Abrupt e.
Proof.
  intros Hno. unfold ClassificarCard.card.
  destruct (ClassificarCard.alternativas positive q); [|eexists; reflexivity].
  unfold array_map.
  destruct (prop q "modulos_possiveis") as [[| | | |ms|]|]; try (eexists; reflexivity).
  exfalso. exact (Hno ms eq_refl).
Qed.

End Card.

End ScreenFacts.

(** X20: when the answer to [fetchProxima] arrives, either page
    stops loading.  After a failure it shows the error panel, never the
    card, with the error's message, or the page's fallback text when the
    message is empty, so never an empty text.  After a success with a falsy
    body it shows nothing but that body.  After a success with a truthy
    body the classification page builds the card from it.  It shows the
    card when [modulos_possiveis] is an array without [null] and
    [alternativas] is falsy or an array without [null]: the modules and the
    alternatives are listed in the order of the arrays.  Where
    [modulos_possiveis] is no array, or holds a [null], the render
    throws. *)
Theorem fetch_outcome_on_screen (positive : JSON -> Completion bool) :
  (forall (r : FetchResult) (err : JsError) (w : World Classificar.State),
      fst (eval (Api.settled r) w) = Threw err ->
      let s := page (run (Classificar.fetchProxima_settled r) w) in
      let msg := if (message err =? "")%string
                 then "Nenhuma questão encontrada com esses filtros." else message err in
      Classificar.loading s = false /\
      ClassificarCard.render positive s = Normal (Review.ErrorPanel msg) /\
      msg <> "" /\ Classificar.card_shown s = false) /\
  (forall (resp : Response) (data : JSON) (w : World Classificar.State),
      ok resp = true -> json resp = Normal data -> Classificar.error (page w) = "" ->
      let s := page (run (Classificar.fetchProxima_settled (Resolved resp)) w) in
      Classificar.loading s = false /\
      (truthy data = false ->
       ClassificarCard.render positive s = Normal (Review.Falsy data)) /\
      (truthy data = true ->
       (forall ms, prop data "modulos_possiveis" <> Some (JArr ms)) ->
       exists e, ClassificarCard.render positive s = Abrupt e) /\
      (forall ms,
          prop data "modulos_possiveis" = Some (JArr ms) -> In JNull ms ->
          exists e, ClassificarCard.render positive s = Abrupt e) /\
      (forall ms alts,
          prop data "modulos_possiveis" = Some (JArr ms) ->
          Forall (fun m => m <> JNull) ms ->
          (truthy_val (prop data "alternativas") = false /\ alts = [] \/
           prop data "alternativas" = Some (JArr alts) /\
           Forall (fun a => a <> JNull) alts) ->
          exists view,
            ClassificarCard.render positive s = Normal (Review.Card view) /\
            ClassificarCard.disciplina_nome view = prop data "disciplina_nome" /\
            ClassificarCard.habilidade_descricao view = prop data "habilidade_descricao" /\
            ClassificarCard.id view = prop data "id" /\
            ClassificarCard.enunciado view
            = (if truthy_val (prop data "enunciado_html") then prop data "enunciado_html"
               else prop data "enunciado") /\
            map ClassificarCard.picked (ClassificarCard.modulos view) = ms /\
            map ClassificarCard.modulo (ClassificarCard.modulos view)
            = map (fun m => prop m "modulo") ms /\
            map ClassificarCard.descricao (ClassificarCard.modulos view)
            = map (fun m => prop m "descricao") ms /\
            map ClassificarCard.correta (ClassificarCard.alternativas_listed view)
            = map (fun a => truthy_val (prop a "correta")) alts /\
            map ClassificarCard.conteudo (ClassificarCard.alternativas_listed view)
            = map (fun a => if truthy_val (prop a "conteudo_html")
                            then prop a "conteudo_html" else prop a "conteudo") alts)) /\
  (forall (V : Type) (card : JSON -> Completion V)
          (r : FetchResult) (err : JsError) (w : World Verificar.State),
      fst (eval (Api.settled r) w) = Threw err ->
      let s := page (run (Verificar.fetchProxima_settled r) w) in
      let msg := if (message err =? "")%string
                 then "Nenhuma questão de baixa similaridade pendente." else message err in
      Verificar.loading s = false /\
      Review.screen (Verificar.loading s) (Verificar.error s) (Verificar.questao s) card
      = Normal (Review.ErrorPanel msg) /\
      msg <> "" /\ Verificar.card_shown s = false) /\
  (forall (V : Type) (card : JSON -> Completion V)
          (resp : Response) (data : JSON) (w : World Verificar.State),
      ok resp = true -> json resp = Normal data -> Verificar.error (page w) = "" ->
      truthy data = false ->
      let s := page (run (Verificar.fetchProxima_settled (Resolved resp)) w) in
      Verificar.loading s = false /\
      Review.screen (Verificar.loading s) (Verificar.error s) (Verificar.questao s) card
      = Normal (Review.Falsy data)).
Proof.
  split; [|split; [|split]].
  - intros r err w Herr s msg. subst s msg.
    rewrite (ClassificarFacts.classificar_no_question r err w Herr).
    destruct (ScreenFacts.shown_message (message err)
                "Nenhuma questão encontrada com esses filtros." ltac:(discriminate))
      as [Hmsg Ht].
    rewrite Hmsg in Ht.
    unfold ClassificarCard.render, Review.screen, Classificar.card_shown.
    cbn [Classificar.loading Classificar.error Classificar.questao Classificar.setLoading
         Classificar.setError negb andb]. rewrite Hmsg, Ht. cbn [negb andb].
    split; [reflexivity|]. split; [reflexivity|]. split; [|reflexivity].
    destruct (String.eqb_spec (message err) ""); [discriminate|assumption].
  - intros resp data w Hok Hjs He s. subst s.
    rewrite (ClassificarFacts.classificar_question_arrives resp data w Hok Hjs).
    assert (Hr : ClassificarCard.render positive
                   (page (with_page (Classificar.setLoading false
                                       (Classificar.setQuestao data (page w))) w))
                 = if truthy data
                   then match ClassificarCard.card positive data with
                        | Normal view => Normal (Review.Card view)
                        | Abrupt e => Abrupt e
                        end
                   else Normal (Review.Falsy data)).
    { destruct w as [pg env win parse al co se wa un]. cbn in He |- *.
      unfold ClassificarCard.render, Review.screen. cbn. rewrite He. reflexivity. }
    rewrite Hr. clear Hr.
    split; [destruct w; reflexivity|].
    split; [intros ->; reflexivity|]. split; [|split].
    + intros -> Hno. destruct (ScreenFacts.card_needs_modules positive data Hno) as [e ->].
      eexists. reflexivity.
    + intros ms Hms Hnull.
      assert (Ht : truthy data = true) by (destruct data; try discriminate; reflexivity).
      rewrite Ht. unfold ClassificarCard.card.
      destruct (ClassificarCard.alternativas positive data); [|eexists; reflexivity].
      rewrite Hms. cbn [array_map].
      destruct (ScreenFacts.each_modulo_null ms Hnull) as [e ->]. eexists. reflexivity.
    + intros ms alts Hms Hok_ms Halts.
      assert (Ht : truthy data = true) by (destruct data; try discriminate; reflexivity).
      rewrite Ht. unfold ClassificarCard.card.
      destruct (ScreenFacts.each_modulo ms Hok_ms) as (mviews & Hm & Hp & _ & Hn & Hd).
      assert (Ha : exists aviews,
                 ClassificarCard.alternativas positive data = Normal aviews /\
                 map ClassificarCard.correta aviews
                 = map (fun a => truthy_val (prop a "correta")) alts /\
                 map ClassificarCard.conteudo aviews
                 = map (fun a => or_val (prop a "conteudo_html") (prop a "conteudo")) alts).
      { destruct Halts as [[Hf ->]|[Harr Hall]].
        - exists []. rewrite (ScreenFacts.alternativas_none positive data Hf). repeat split.
        - rewrite (ScreenFacts.alternativas_array positive data alts Harr).
          exact (ScreenFacts.each_alternativa alts Hall). }
      destruct Ha as (aviews & -> & Hc & Hco).
      rewrite Hms. cbn [array_map]. rewrite Hm.
      eexists. split; [reflexivity|]. cbn. repeat split; assumption.
  - intros V card r err w Herr s msg. subst s msg.
    rewrite (ScreenFacts.verificar_no_question r err w Herr).
    destruct (ScreenFacts.shown_message (message err)
                "Nenhuma questão de baixa similaridade pendente." ltac:(discriminate))
      as [Hmsg Ht].
    rewrite Hmsg in Ht.
    unfold Review.screen, Verificar.card_shown.
    cbn [Verificar.loading Verificar.error Verificar.questao Verificar.setLoading
         Verificar.setError negb andb]. rewrite Hmsg, Ht. cbn [negb andb].
    split; [reflexivity|]. split; [reflexivity|]. split; [|reflexivity].
    destruct (String.eqb_spec (message err) ""); [discriminate|assumption].
  - intros V card resp data w Hok Hjs He Hf s. subst s.
    rewrite (ScreenFacts.verificar_question_arrives resp data w Hok Hjs).
    destruct w as [pg env win parse al co se wa un]. cbn in He |- *.
    unfold Review.screen. rewrite He, Hf. split; reflexivity.
Qed.

Lemma fetch_outcome_on_screen_witness :
  let positive := fun _ : JSON => Normal false in
  let w := Sample.world (Classificar.refetching Sample.classifying) Sample.session in
  let page_after (data : JSON) :=
    page (run (Classificar.fetchProxima_settled
                 (Resolved {| status := 200; json := Normal data |})) w) in
  ClassificarCard.render positive (page_after JNull) = Normal (Review.Falsy JNull) /\
  (exists e, ClassificarCard.render positive (page_after (JObj [("id", JNum 1)])) = Abrupt e) /\
  (exists view,
      ClassificarCard.render positive (page_after Sample.questao) = Normal (Review.Card view) /\
      ClassificarCard.id view = Some (JNum 42) /\
      map ClassificarCard.picked (ClassificarCard.modulos view) = [Sample.modulo]).
Proof.
  intros positive w page_after.
  pose proof (proj1 (proj2 (fetch_outcome_on_screen positive))) as H.
  split; [|split].
  - destruct (H {| status := 200; json := Normal JNull |} JNull w eq_refl eq_refl eq_refl)
      as (_ & Hf & _).
    apply Hf. reflexivity.
  - destruct (H {| status := 200; json := Normal (JObj [("id", JNum 1)]) |}
                (JObj [("id", JNum 1)]) w eq_refl eq_refl eq_refl) as (_ & _ & Hno & _).
    apply Hno; [reflexivity|]. intros ms. discriminate.
  - destruct (H {| status := 200; json := Normal Sample.questao |} Sample.questao w
                eq_refl eq_refl eq_refl) as (_ & _ & _ & _ & Hcard).
    destruct (Hcard [Sample.modulo] [] eq_refl) as (view & Hv & _ & _ & Hid & _ & Hp & _).
    + constructor; [discriminate|constructor].
    + left. split; reflexivity.
    + exists view. split; [exact Hv|]. split; [exact Hid|exact Hp].
Defined.

(** ** The query string *)

Module QueryFacts.

Lemma all_chars_app (p : ascii -> bool) (s t : string) :
  all_chars p (s ++ t) = all_chars p s && all_chars p t.
Proof.
  induction s as [|c rest IH]; [reflexivity|].
  change (String c rest ++ t) with (String c (rest ++ t)). cbn [all_chars].
  rewrite IH. apply andb_assoc.
Qed.

Lemma all_chars_weaken (p q : ascii -> bool) (s : string) :
  (forall c, p c = true -> q c = true) -> all_chars p s = true -> all_chars q s = true.
Proof.
  intros Hpq. induction s as [|c rest IH]; cbn; [reflexivity|].
  rewrite !andb_true_iff. intros [H1 H2]. split; [apply Hpq; exact H1|apply IH; exact H2].
Qed.

Lemma form_byte_encoded (c : ascii) : all_chars encoded_char (form_byte c) = true.
Proof.
  destruct c as [[] [] [] [] [] [] [] []]; reflexivity.
Qed.

Lemma form_encode_encoded (s : string) : all_chars encoded_char (form_encode s) = true.
Proof.
  induction s as [|c rest IH]; cbn [form_encode]; [reflexivity|].
  rewrite all_chars_app, form_byte_encoded, IH. reflexivity.
Qed.

(** The first byte of an encoding, read back. *)
Lemma form_byte_head (c c' : ascii) (x x' : string) :
  form_byte c ++ x = form_byte c' ++ x' -> c = c' /\ x = x'.
Proof.
  pose (unhex := fun h : ascii =>
                   let n := N_of_ascii h in if (n <? 58)%N then (n - 48)%N else (n - 55)%N).
  pose (head := fun s : string =>
                  match s with
                  | String a rest =>
                      if (N_of_ascii a =? 37)%N then
                        match rest with
                        | String h (String l rest') =>
                            Some (ascii_of_N (unhex h * 16 + unhex l), rest')
                        | _ => None
                        end
                      else if (N_of_ascii a =? 43)%N then Some (ascii_of_N 32, rest)
                      else Some (a, rest)
                  | EmptyString => None
                  end).
  assert (Hhead : forall a y, head (form_byte a ++ y) = Some (a, y)).
  { intros a y. destruct a as [[] [] [] [] [] [] [] []]; reflexivity. }
  intros E. apply (f_equal head) in E. rewrite !Hhead in E.
  injection E as -> ->. split; reflexivity.
Qed.

Lemma form_byte_nonempty (c : ascii) (x : string) : form_byte c ++ x <> "".
Proof. destruct c as [[] [] [] [] [] [] [] []]; discriminate. Qed.

Lemma form_encode_inj (s s' : string) : form_encode s = form_encode s' -> s = s'.
Proof.
  revert s'. induction s as [|c rest IH]; intros [|c' rest']; cbn [form_encode]; intros E.
  - reflexivity.
  - symmetry in E. apply form_byte_nonempty in E. contradiction.
  - apply form_byte_nonempty in E. contradiction.
  - apply form_byte_head in E. destruct E as [-> E]. f_equal. apply IH. exact E.
Qed.

(** An encoding holds no separator. *)
Lemma encoded_not_amp (c : ascii) : encoded_char c = true -> c <> "&"%char.
Proof. intros H ->. discriminate. Qed.

Lemma split_at_amp (x x' y y' : string) :
  all_chars encoded_char x = true -> all_chars encoded_char x' = true ->
  x ++ String "&" y = x' ++ String "&" y' -> x = x' /\ y = y'.
Proof.
  revert x'. induction x as [|c rest IH]; intros [|c' rest'] Hx Hx' E.
  - cbn in E. injection E as ->. split; reflexivity.
  - cbn in E. injection E as <- _. cbn in Hx'. discriminate.
  - cbn in E. injection E as -> _. cbn in Hx. discriminate.
  - change (String c (rest ++ String "&" y) = String c' (rest' ++ String "&" y')) in E.
    injection E as -> E. cbn in Hx, Hx'.
    apply andb_true_iff in Hx, Hx'.
    destruct (IH rest' (proj2 Hx) (proj2 Hx') E) as [-> ->]. split; reflexivity.
Qed.

Lemma no_amp_inside (x y z : string) :
  all_chars encoded_char z = true -> z <> x ++ String "&" y.
Proof.
  intros Hz ->. rewrite all_chars_app in Hz. apply andb_true_iff in Hz.
  destruct Hz as [_ Hz]. cbn in Hz. discriminate.
Qed.

End QueryFacts.

(** X21: the query string of [fetchProxima] is empty, or a "?"
    followed by unreserved characters, "+", "%", "=" and "&" only; and it
    determines the filters: two pairs of area and discipline with the same
    query string are the same pair.  Both pages build the same string. *)
Theorem query_string_is_faithful (a d : string) :
  (Classificar.params (Some a) (Some d) = "" \/
   exists q, Classificar.params (Some a) (Some d) = String "?" q /\
             all_chars query_char q = true) /\
  (forall a' d',
      Classificar.params (Some a) (Some d) = Classificar.params (Some a') (Some d') ->
      a = a' /\ d = d') /\
  Verificar.params (Some a) (Some d) = Classificar.params (Some a) (Some d).
Proof.
  assert (Hq : forall s, all_chars query_char (form_encode s) = true).
  { intros s. apply (QueryFacts.all_chars_weaken encoded_char); [|apply QueryFacts.form_encode_encoded].
    intros c H. unfold query_char. rewrite H. reflexivity. }
  split; [|split; [|reflexivity]].
  - rewrite ClassificarFacts.classificar_params_cases.
    destruct (a =? "")%string, (d =? "")%string; [left; reflexivity| | |]; right.
    + exists ("disciplina_id=" ++ form_encode d). split; [reflexivity|].
      rewrite QueryFacts.all_chars_app, Hq. reflexivity.
    + exists ("area=" ++ form_encode a). split; [reflexivity|].
      rewrite QueryFacts.all_chars_app, Hq. reflexivity.
    + exists ("area=" ++ form_encode a ++ String "&" ("disciplina_id=" ++ form_encode d)).
      split; [reflexivity|].
      rewrite !QueryFacts.all_chars_app, !Hq. cbn [all_chars].
      rewrite QueryFacts.all_chars_app, Hq. reflexivity.
  - intros a' d'. rewrite !ClassificarFacts.classificar_params_cases.
    destruct (String.eqb_spec a "") as [->|Ha], (String.eqb_spec d "") as [->|Hd],
             (String.eqb_spec a' "") as [->|Ha'], (String.eqb_spec d' "") as [->|Hd'];
      intros E; try discriminate; try (split; reflexivity).
    + injection E as E. apply QueryFacts.form_encode_inj in E. subst. split; reflexivity.
    + injection E as E. apply QueryFacts.form_encode_inj in E. subst. split; reflexivity.
    + injection E as E. cbn [append] in E. exfalso.
      exact (QueryFacts.no_amp_inside _ _ _ (QueryFacts.form_encode_encoded _) E).
    + injection E as E. cbn [append] in E. exfalso.
      exact (QueryFacts.no_amp_inside _ _ _ (QueryFacts.form_encode_encoded _) (eq_sym E)).
    + injection E as E. cbn [append] in E.
      apply QueryFacts.split_at_amp in E; try apply QueryFacts.form_encode_encoded.
      destruct E as [E1 E2]. injection E2 as E2.
      apply QueryFacts.form_encode_inj in E1, E2. subst. split; reflexivity.
Qed.

Lemma query_string_is_faithful_witness :
  Classificar.params (Some "Ciências da Natureza") (Some "a&b=c")
  = "?area=Ci%C3%AAncias+da+Natureza&disciplina_id=a%26b%3Dc" /\
  ("Exatas" = "Exatas" /\ "Física" = "Física").
Proof.
  split; [reflexivity|].
  apply (proj1 (proj2 (query_string_is_faithful "Exatas" "Física")) "Exatas" "Física").
  reflexivity.
Defined.

(** ** Answers out of order *)

Module RaceFacts.

Lemma settle_head {S : Type} (w : World S) (i : nat) (k : FetchResult -> Async S unit)
      (rest : list (nat * (FetchResult -> Async S unit))) (r : FetchResult) :
  waiting w = (i, k) :: rest ->
  settle i r w = run (k r) (with_waiting rest w).
Proof.
  intros H. unfold settle. rewrite H. cbn [take_waiting]. rewrite Nat.eqb_refl. reflexivity.
Qed.

Lemma settle_next {S : Type} (w : World S) (i j : nat) (k k' : FetchResult -> Async S unit)
      (rest : list (nat * (FetchResult -> Async S unit))) (r : FetchResult) :
  waiting w = (j, k') :: (i, k) :: rest -> j <> i ->
  settle i r w = run (k r) (with_waiting ((j, k') :: rest) w).
Proof.
  intros H Hne. unfold settle. rewrite H. cbn [take_waiting].
  apply Nat.eqb_neq in Hne. rewrite Hne, Nat.eqb_refl. reflexivity.
Qed.

Lemma two_fetches (w : World Classificar.State) (a1 d1 a2 d2 : option string) :
  let w2 := run (Classificar.fetchProxima a2 d2) (run (Classificar.fetchProxima a1 d1) w) in
  waiting w2
  = (Datatypes.S (List.length (sent w)), Classificar.fetchProxima_settled)
      :: (List.length (sent w), Classificar.fetchProxima_settled) :: waiting w /\
  sent w2
  = (sent w ++ [Api.request_for w ("/proxima" ++ Classificar.params a1 d1) no_options;
                Api.request_for w ("/proxima" ++ Classificar.params a2 d2) no_options])%list /\
  Classificar.error (page w2) = "".
Proof.
  intros w2. subst w2.
  rewrite (ClassificarFacts.classificar_fetchProxima a1 d1 w).
  rewrite ClassificarFacts.classificar_fetchProxima.
  destruct w as [pg env win parse al co se wa un]. cbn. split; [|split; [|reflexivity]].
  - rewrite length_app. cbn.
    replace (List.length se + 1)%nat with (Datatypes.S (List.length se)) by lia. reflexivity.
  - rewrite <- app_assoc. reflexivity.
Qed.

(** Only an object has a card. *)
Lemma card_truthy (positive : JSON -> Completion bool) (q : JSON)
      (view : ClassificarCard.Card) :
  ClassificarCard.card positive q = Normal view -> truthy q = true.
Proof.
  unfold ClassificarCard.card, ClassificarCard.alternativas.
  destruct q; cbn; try discriminate. reflexivity.
Qed.

(** An answer that arrives while no error is shown puts its question on
    the page and ends the loading. *)
Lemma question_shown (positive : JSON -> Completion bool) (resp : Response) (data : JSON)
      (view : ClassificarCard.Card) (w : World Classificar.State) :
  ok resp = true -> json resp = Normal data ->
  Classificar.error (page w) = "" ->
  ClassificarCard.card positive data = Normal view ->
  let w' := run (Classificar.fetchProxima_settled (Resolved resp)) w in
  Classificar.questao (page w') = data /\ Classificar.loading (page w') = false /\
  Classificar.error (page w') = "" /\
  ClassificarCard.render positive (page w') = Normal (Review.Card view) /\
  waiting w' = waiting w.
Proof.
  intros Hok Hjs He Hc w'. subst w'.
  pose proof (card_truthy positive data view Hc) as Ht.
  rewrite (ClassificarFacts.classificar_question_arrives resp data w Hok Hjs).
  destruct w as [pg env win parse al co se wa un]. cbn in He.
  unfold ClassificarCard.render, Review.screen. cbn. rewrite He, Ht, Hc. repeat split.
Qed.

End RaceFacts.

(** X22: two calls of [fetchProxima] in a row send two requests, and
    each answer, as it arrives, replaces the question shown and ends the
    loading, the first while the other request is still out.  For answers
    whose questions the page can show (bodies whose card does not throw), the card left on the page is the one of the answer that arrived
    last, in either order: the earlier request's when that is it. *)
Theorem last_answer_wins (positive : JSON -> Completion bool)
        (w : World Classificar.State) (a1 d1 a2 d2 : string)
        (resp1 resp2 : Response) (q1 q2 : JSON) (v1 v2 : ClassificarCard.Card) :
  ok resp1 = true -> json resp1 = Normal q1 ->
  ok resp2 = true -> json resp2 = Normal q2 ->
  ClassificarCard.card positive q1 = Normal v1 ->
  ClassificarCard.card positive q2 = Normal v2 ->
  let n := List.length (sent w) in
  let w2 := run (Classificar.fetchProxima (Some a2) (Some d2))
                (run (Classificar.fetchProxima (Some a1) (Some d1)) w) in
  sent w2
  = (sent w
     ++ [Api.request_for w ("/proxima" ++ Classificar.params (Some a1) (Some d1)) no_options;
         Api.request_for w ("/proxima" ++ Classificar.params (Some a2) (Some d2)) no_options])%list /\
  (let first := settle n (Resolved resp1) w2 in
   let second := settle (Datatypes.S n) (Resolved resp2) first in
   Classificar.questao (page first) = q1 /\
   Classificar.loading (page first) = false /\
   ClassificarCard.render positive (page first) = Normal (Review.Card v1) /\
   map fst (waiting first) = (Datatypes.S n :: map fst (waiting w))%list /\
   Classificar.questao (page second) = q2 /\
   ClassificarCard.render positive (page second) = Normal (Review.Card v2) /\
   waiting second = waiting w) /\
  (let first := settle (Datatypes.S n) (Resolved resp2) w2 in
   let second := settle n (Resolved resp1) first in
   Classificar.questao (page first) = q2 /\
   Classificar.loading (page first) = false /\
   ClassificarCard.render positive (page first) = Normal (Review.Card v2) /\
   map fst (waiting first) = (n :: map fst (waiting w))%list /\
   Classificar.questao (page second) = q1 /\
   ClassificarCard.render positive (page second) = Normal (Review.Card v1) /\
   waiting second = waiting w).
Proof.
  intros Hok1 Hjs1 Hok2 Hjs2 Hc1 Hc2 n w2.
  destruct (RaceFacts.two_fetches w (Some a1) (Some d1) (Some a2) (Some d2))
    as (Hwait & Hsent & Herr).
  fold w2 in Hwait, Hsent, Herr. fold n in Hwait. clearbody w2 n.
  split; [exact Hsent|]. split.
  - cbv zeta.
    rewrite (RaceFacts.settle_next w2 n (Datatypes.S n) _ _ _ _ Hwait) by lia.
    match goal with |- context [run _ ?W] => set (W1 := W) end.
    assert (He1 : Classificar.error (page W1) = "") by (subst W1; destruct w2; exact Herr).
    destruct (RaceFacts.question_shown positive resp1 q1 v1 W1 Hok1 Hjs1 He1 Hc1)
      as (Hq & Hl & He & Hr & Hw).
    assert (Hw1 : waiting W1 = (Datatypes.S n, Classificar.fetchProxima_settled) :: waiting w).
    { subst W1. destruct w2; reflexivity. }
    rewrite Hw1 in Hw.
    split; [exact Hq|]. split; [exact Hl|]. split; [exact Hr|].
    split; [rewrite Hw; reflexivity|].
    rewrite (RaceFacts.settle_head _ _ _ _ _ Hw).
    match goal with |- context [run _ ?W] => set (W2 := W) end.
    assert (He2 : Classificar.error (page W2) = "").
    { subst W2. destruct (run _ W1); exact He. }
    destruct (RaceFacts.question_shown positive resp2 q2 v2 W2 Hok2 Hjs2 He2 Hc2)
      as (Hq' & _ & _ & Hr' & Hw').
    split; [exact Hq'|]. split; [exact Hr'|].
    rewrite Hw'. subst W2. destruct (run _ W1); reflexivity.
  - cbv zeta.
    rewrite (RaceFacts.settle_head w2 _ _ _ _ Hwait).
    match goal with |- context [run _ ?W] => set (W1 := W) end.
    assert (He1 : Classificar.error (page W1) = "") by (subst W1; destruct w2; exact Herr).
    destruct (RaceFacts.question_shown positive resp2 q2 v2 W1 Hok2 Hjs2 He1 Hc2)
      as (Hq & Hl & He & Hr & Hw).
    assert (Hw1 : waiting W1 = (n, Classificar.fetchProxima_settled) :: waiting w).
    { subst W1. destruct w2; reflexivity. }
    rewrite Hw1 in Hw.
    split; [exact Hq|]. split; [exact Hl|]. split; [exact Hr|].
    split; [rewrite Hw; reflexivity|].
    rewrite (RaceFacts.settle_head _ _ _ _ _ Hw).
    match goal with |- context [run _ ?W] => set (W2 := W) end.
    assert (He2 : Classificar.error (page W2) = "").
    { subst W2. destruct (run _ W1); exact He. }
    destruct (RaceFacts.question_shown positive resp1 q1 v1 W2 Hok1 Hjs1 He2 Hc1)
      as (Hq' & _ & _ & Hr' & Hw').
    split; [exact Hq'|]. split; [exact Hr'|].
    rewrite Hw'. subst W2. destruct (run _ W1); reflexivity.
Qed.

Lemma last_answer_wins_witness :
  let positive := fun _ : JSON => Normal false in
  let w := Sample.world (Classificar.initial "") Sample.session in
  let q1 := JObj [("id", JNum 1); ("modulos_possiveis", JArr [Sample.modulo])] in
  let q2 := JObj [("id", JNum 2); ("modulos_possiveis", JArr [])] in
  let w2 := run (Classificar.fetchProxima (Some "Humanas") (Some ""))
                (run (Classificar.fetchProxima (Some "Exatas") (Some "")) w) in
  let last := settle 0 (Resolved {| status := 200; json := Normal q1 |})
                     (settle 1 (Resolved {| status := 200; json := Normal q2 |}) w2) in
  Classificar.questao (page last) = q1 /\
  exists view,
    ClassificarCard.render positive (page last) = Normal (Review.Card view) /\
    ClassificarCard.id view = Some (JNum 1).
Proof.
  intros positive w q1 q2 w2 last.
  destruct (last_answer_wins positive w "Exatas" "" "Humanas" ""
              {| status := 200; json := Normal q1 |} {| status := 200; json := Normal q2 |}
              q1 q2 _ _ eq_refl eq_refl eq_refl eq_refl eq_refl eq_refl)
    as (_ & _ & _ & _ & _ & _ & Hq & Hr & _).
  split; [exact Hq|]. eexists. split; [exact Hr|]. reflexivity.
Defined.

(** ** A save in progress *)

(** X23: while a decision is being saved the page's save buttons are
    disabled: [saving] is set before the request is sent, for each of the
    three handlers.  The handlers themselves do not look at [saving]: run
    again in that state, each sends its request again. *)
Theorem pending_save_disables_buttons :
  (forall (s : Classificar.State) (w : World Classificar.State),
      truthy (Classificar.moduloSelecionado s) = true -> Classificar.questao s <> JNull ->
      let w1 := run (Classificar.handleSalvar s) w in
      page w1 = Classificar.setSaving true (page w) /\
      Classificar.salvar_enabled (page w1) = false /\
      List.length (sent (run (Classificar.handleSalvar s) w1)) = Datatypes.S (List.length (sent w1))) /\
  (forall (s : Verificar.State) (w : World Verificar.State),
      Verificar.questao s <> JNull ->
      let w1 := run (Verificar.handleConfirmar s) w in
      page w1 = Verificar.setSaving true (page w) /\
      Verificar.confirmar_enabled (page w1) = false /\
      Verificar.salvar_correcao_enabled (page w1) = false /\
      List.length (sent (run (Verificar.handleConfirmar s) w1)) = Datatypes.S (List.length (sent w1))) /\
  (forall (s : Verificar.State) (w : World Verificar.State),
      truthy (Verificar.moduloSelecionado s) = true -> Verificar.questao s <> JNull ->
      let w1 := run (Verificar.handleSalvarCorrecao s) w in
      page w1 = Verificar.setSaving true (page w) /\
      Verificar.confirmar_enabled (page w1) = false /\
      Verificar.salvar_correcao_enabled (page w1) = false /\
      List.length (sent (run (Verificar.handleSalvarCorrecao s) w1))
      = Datatypes.S (List.length (sent w1))).
Proof.
  split; [|split].
  - intros s w Hm Hq w1. subst w1.
    rewrite !(ClassificarFacts.classificar_handleSalvar s) by assumption.
    destruct w as [pg env win parse al co se wa un]. cbn.
    split; [reflexivity|]. split.
    + unfold Classificar.salvar_enabled. cbn. rewrite orb_true_r. apply andb_false_r.
    + rewrite !length_app. cbn. lia.
  - intros s w Hq w1. subst w1.
    rewrite !(VerificarFacts.verificar_handleConfirmar s) by assumption.
    destruct w as [pg env win parse al co se wa un]. cbn.
    split; [reflexivity|]. split; [|split].
    + unfold Verificar.confirmar_enabled. cbn. apply andb_false_r.
    + unfold Verificar.salvar_correcao_enabled. cbn. rewrite orb_true_r. apply andb_false_r.
    + rewrite !length_app. cbn. lia.
  - intros s w Hm Hq w1. subst w1.
    rewrite !(VerificarFacts.verificar_handleSalvarCorrecao s) by assumption.
    destruct w as [pg env win parse al co se wa un]. cbn.
    split; [reflexivity|]. split; [|split].
    + unfold Verificar.confirmar_enabled. cbn. apply andb_false_r.
    + unfold Verificar.salvar_correcao_enabled. cbn. rewrite orb_true_r. apply andb_false_r.
    + rewrite !length_app. cbn. lia.
Qed.

Lemma pending_save_disables_buttons_witness :
  let w1 := run (Classificar.handleSalvar Sample.classifying)
                (Sample.world Sample.classifying Sample.session) in
  Classificar.salvar_enabled (page w1) = false.
Proof.
  intros w1.
  apply (proj1 pending_save_disables_buttons Sample.classifying
               (Sample.world Sample.classifying Sample.session) eq_refl ltac:(discriminate)).
Defined.


(** ** The decision posted *)

(** A property whose value is [undefined] is no field of the document. *)
Lemma own_defined_props (props : list (string * JsVal)) (key : string) :
  own key (defined_props props)
  = match own key (filter (fun kv => match snd kv with Some _ => true | None => false end)
                          props) with
    | Some v => v
    | None => None
    end.
Proof.
  induction props as [|[k [v|]] rest IH]; cbn; [reflexivity| |exact IH].
  destruct (k =? key)%string; [reflexivity|exact IH].
Qed.

(** X24: the document posted by [handleSalvar] and by
    [handleSalvarCorrecao] mirrors the selection: [questao_id] is the
    question's [id], the four module fields are the module's [id],
    [modulo], [habilidade_descricao] and [descricao], each present exactly
    when the module has it, [tipo_acao] is the handler's kind and
    [observacao] the text of the render. *)
Theorem posted_decision_mirrors_selection :
  (forall (s : Classificar.State) (w : World Classificar.State),
      truthy (Classificar.moduloSelecionado s) = true -> Classificar.questao s <> JNull ->
      exists doc,
        sent (run (Classificar.handleSalvar s) w)
        = (sent w ++ [Api.request_for w "/salvar"
                        {| method := Some "POST"; headers := None; body := Some doc |}])%list /\
        prop doc "questao_id" = prop (Classificar.questao s) "id" /\
        prop doc "habilidade_modulo_id" = prop (Classificar.moduloSelecionado s) "id" /\
        prop doc "modulo_escolhido" = prop (Classificar.moduloSelecionado s) "modulo" /\
        prop doc "classificacao_trieduc"
        = prop (Classificar.moduloSelecionado s) "habilidade_descricao" /\
        prop doc "descricao_assunto" = prop (Classificar.moduloSelecionado s) "descricao" /\
        prop doc "tipo_acao" = Some (JStr "classificacao_nova") /\
        prop doc "observacao" = Some (JStr (Classificar.observacao s))) /\
  (forall (s : Verificar.State) (w : World Verificar.State),
      truthy (Verificar.moduloSelecionado s) = true -> Verificar.questao s <> JNull ->
      exists doc,
        sent (run (Verificar.handleSalvarCorrecao s) w)
        = (sent w ++ [Api.request_for w "/salvar"
                        {| method := Some "POST"; headers := None; body := Some doc |}])%list /\
        prop doc "questao_id" = prop (Verificar.questao s) "id" /\
        prop doc "habilidade_modulo_id" = prop (Verificar.moduloSelecionado s) "id" /\
        prop doc "modulo_escolhido" = prop (Verificar.moduloSelecionado s) "modulo" /\
        prop doc "classificacao_trieduc"
        = prop (Verificar.moduloSelecionado s) "habilidade_descricao" /\
        prop doc "descricao_assunto" = prop (Verificar.moduloSelecionado s) "descricao" /\
        prop doc "tipo_acao" = Some (JStr "correcao") /\
        prop doc "observacao" = Some (JStr (Verificar.observacao s))).
Proof.
  split.
  - intros s w Hm Hq. eexists. split.
    + rewrite (ClassificarFacts.classificar_handleSalvar s w Hm Hq).
      destruct w; reflexivity.
    + unfold Classificar.classificacao_nova, JSON_stringify. cbn [prop].
      rewrite !own_defined_props.
      destruct (prop (Classificar.questao s) "id"),
               (prop (Classificar.moduloSelecionado s) "id"),
               (prop (Classificar.moduloSelecionado s) "modulo"),
               (prop (Classificar.moduloSelecionado s) "habilidade_descricao"),
               (prop (Classificar.moduloSelecionado s) "descricao"); repeat split.
  - intros s w Hm Hq. eexists. split.
    + rewrite (VerificarFacts.verificar_handleSalvarCorrecao s w Hm Hq).
      destruct w; reflexivity.
    + unfold Verificar.correcao, JSON_stringify. cbn [prop].
      rewrite !own_defined_props.
      destruct (prop (Verificar.questao s) "id"),
               (prop (Verificar.moduloSelecionado s) "id"),
               (prop (Verificar.moduloSelecionado s) "modulo"),
               (prop (Verificar.moduloSelecionado s) "habilidade_descricao"),
               (prop (Verificar.moduloSelecionado s) "descricao"); repeat split.
Qed.

Lemma posted_decision_mirrors_selection_witness :
  exists doc,
    sent (run (Classificar.handleSalvar Sample.classifying)
              (Sample.world Sample.classifying Sample.session))
    = [Api.request_for (Sample.world Sample.classifying Sample.session) "/salvar"
         {| method := Some "POST"; headers := None; body := Some doc |}] /\
    prop doc "habilidade_modulo_id" = Some (JNum 7).
Proof.
  destruct (proj1 posted_decision_mirrors_selection Sample.classifying
              (Sample.world Sample.classifying Sample.session) eq_refl ltac:(discriminate))
    as (doc & Hs & _ & Hid & _).
  exists doc. split; [exact Hs|exact Hid].
Defined.

